(** * RLWrapper: a shallow embedding of the C wrapper around the RL planning library

    The wrapper ([src/RLWrapper/RLWrapper.cpp]) keeps one [PlannerState] per handle
    and drives the RL engine (scene, kinematics, planning model, verifier, planner,
    optimizer) through it.  The engine is not part of the wrapper: it is an
    [Engine] record of oracles here, and every theorem holds for every engine.

    - [double] is the kernel's binary64 [float];
    - [int] is [Z], with the narrowing casts of the source written out;
    - a C++ exception is the [ThrowsStd] / [ThrowsOther] outcome of an engine call,
      and the [try] / [catch] blocks of the source are [try_catch];
    - the session is threaded through a small state-and-exception monad. *)

From Stdlib Require Import ZArith Floats Lia.
From stdpp Require Import base option list strings.

Local Open Scope Z_scope.
#[local] Set Warnings "-inexact-float".

(** ** Error codes of [RLWrapper.h] *)

Definition RL_SUCCESS : Z := 0.
Definition RL_ERROR_INVALID_POINTER : Z := -1.
Definition RL_ERROR_INVALID_PARAMETER : Z := -2.
Definition RL_ERROR_LOAD_FAILED : Z := -3.
Definition RL_ERROR_PLANNING_FAILED : Z := -4.
Definition RL_ERROR_NOT_INITIALIZED : Z := -5.
Definition RL_ERROR_EXCEPTION : Z := -6.

(** ** Machine integers *)

Definition INT_MAX : Z := 2147483647.
Definition INT_MIN : Z := -2147483648.

(** [static_cast<int>(n)] of a [std::size_t]: the value modulo 2^32, read as signed. *)
Definition static_cast_int (n : nat) : Z :=
  (Z.of_nat n + 2 ^ 31) mod 2 ^ 32 - 2 ^ 31.

(** Truncation of a finite binary64 value toward zero; [None] on NaN and infinities. *)
Definition float_trunc (x : float) : option Z :=
  match Prim2SF x with
  | S754_zero _ => Some 0
  | S754_finite s m e =>
      let mag := if 0 <=? e then Z.pos m * 2 ^ e else Z.pos m / 2 ^ (- e) in
      Some (if s then - mag else mag)
  | S754_infinity _ => None
  | S754_nan => None
  end.

(** [static_cast<int>(x)] of a [double]: the truncated value when it is representable.
    The source has undefined behaviour otherwise; the model returns [INT_MIN] there
    (what the x86 conversion instruction yields). *)
Definition static_cast_int_of_double (x : float) : Z :=
  match float_trunc x with
  | Some z => if (INT_MIN <=? z) && (z <=? INT_MAX) then z else INT_MIN
  | None => INT_MIN
  end.

(** ** Vectors of joint values *)

Abbreviation Vector := (list float) (only parsing).
Abbreviation VectorList := (list (list float)) (only parsing).

(** [v(i)]: the source reads out of bounds when [i] is not below [v.size()];
    the model reads [0] there. *)
Definition vec_at (v : Vector) (i : nat) : float := default 0%float (v !! i).

(** The loop [for (i = 0; i < dof; ++i) v(i) = a[i]] into a fresh [Vector(dof)]. *)
Definition copy_array (a : list float) (dof : Z) : Vector :=
  vec_at a <$> seq 0 (Z.to_nat dof).

(** ** Outcomes of engine calls, and the monad of the wrapper functions *)

Inductive outcome (A : Type) : Type :=
| Returns (a : A)
| ThrowsStd      (* an exception derived from std::exception *)
| ThrowsOther.   (* any other exception *)
Arguments Returns {A} a.
Arguments ThrowsStd {A}.
Arguments ThrowsOther {A}.

Definition M (S A : Type) : Type := S → S * outcome A.

#[global] Instance M_ret {S} : MRet (M S) := λ A a s, (s, Returns a).
#[global] Instance M_bind {S} : MBind (M S) := λ A B f m s,
  match m s with
  | (s', Returns a) => f a s'
  | (s', ThrowsStd) => (s', ThrowsStd)
  | (s', ThrowsOther) => (s', ThrowsOther)
  end.

Definition get {S} : M S S := λ s, (s, Returns s).
Definition modify {S} (f : S → S) : M S unit := λ s, (f s, Returns tt).
Definition call {S A} (o : outcome A) : M S A := λ s, (s, o).

(** [try { m } catch (const std::exception&) { return hs; } catch (...) { return ho; }] *)
Definition try_catch {S A} (m : M S A) (hs ho : A) : M S A := λ s,
  match m s with
  | (s', Returns a) => (s', Returns a)
  | (s', ThrowsStd) => (s', Returns hs)
  | (s', ThrowsOther) => (s', Returns ho)
  end.

(** [try { m } catch (const std::exception&) { return hs; }]: other exceptions pass. *)
Definition try_catch_std {S A} (m : M S A) (hs : A) : M S A := λ s,
  match m s with
  | (s', ThrowsStd) => (s', Returns hs)
  | r => r
  end.

(** The value of a computation that has caught everything. *)
Definition result_of {A} (o : outcome A) (d : A) : A :=
  match o with Returns a => a | _ => d end.

(** ** Engine objects, as far as the wrapper looks into them *)

(** An [rl::kin::Kinematics] object: its address, and whether
    [dynamic_cast<rl::mdl::Dynamic*>] succeeds on it. *)
Record Kinematics := {
  kin_addr : nat;
  kin_isDynamic : bool;
}.

(** What [rl::mdl::XmlFactory::create] produced: its address, whether
    [dynamic_pointer_cast<rl::mdl::Dynamic>] succeeds, and the result of
    [dynamic_pointer_cast<rl::kin::Kinematics>] on the dynamic model. *)
Record MdlModel := {
  mdl_addr : nat;
  mdl_isDynamic : bool;
  mdl_asKinematics : option Kinematics;
}.

Inductive SceneKind := DistanceScene | SimpleScene | OtherScene.

(** An [rl::sg::Scene]: its address, what [dynamic_cast] finds it to be, and the
    addresses [getModel(i)] returns. *)
Record Scene := {
  scene_addr : nat;
  scene_kind : SceneKind;
  scene_models : list nat;
}.

(** [rl::plan::SimpleModel]: four raw pointers, null when [None]. *)
Record SimpleModel := {
  sm_kin : option nat;
  sm_mdl : option nat;
  sm_model : option nat;
  sm_scene : option nat;
}.

Record Sampler := { sampler_model : option SimpleModel }.

Record Verifier := {
  verifier_delta : float;
  verifier_model : option SimpleModel;
}.

Record NearestNeighbors := { nn_model : option SimpleModel }.

Record SimpleOptimizer := {
  optimizer_model : option SimpleModel;
  optimizer_verifier : option Verifier;
}.

(** Where a planner's [start] / [goal] pointer points: nowhere, at the session's
    stored vector, or at a vector that lives for one [PlanTrajectory] call. *)
Inductive VecPtr :=
| NullVec
| StoredStart
| StoredGoal
| TempVec (v : Vector).

(** The four planners [createPlanner] builds, with the fields it sets.  For [Prm]
    it also sets [degree] and [radius] to the largest values of their types. *)
Inductive PlannerParams :=
| RrtParams (delta epsilon : float)
| RrtConConParams (delta epsilon : float)
| RrtGoalBiasParams (delta epsilon probability : float)
| PrmParams (k : nat) (verifier : option Verifier).

Record Planner := {
  planner_params : PlannerParams;
  planner_sampler : option Sampler;
  planner_nearestNeighbors : option NearestNeighbors;
  planner_model : option SimpleModel;
  planner_duration : option Z;      (* milliseconds; [None]: the constructor's default *)
  planner_start : VecPtr;
  planner_goal : VecPtr;
}.

(** A planner at the moment [verify()] / [solve()] is called on it, with the vectors
    its [start] and [goal] point at. *)
Record PlanCall := {
  call_planner : Planner;
  call_start : Vector;
  call_goal : Vector;
}.

(** ** The plan descriptor, as the XPath queries of [LoadPlanXml] see it *)

(** What the two queries of [LoadPlanXml] on the [delta] (or [epsilon]) elements
    give: [number(//delta)], the number of the first such element, and
    [string(//delta/@unit)], the first [unit] attribute on such elements, the
    empty string when there is none.  For a descriptor with one such element these
    are its number and its unit. *)
Record XNumber := {
  xn_number : float;
  xn_unit : string;
}.

(** A [q] element: [std::atof] of its content and its [unit] property. *)
Record QNode := {
  q_content : float;
  q_unit : string;
}.

Record PlanDocument := {
  doc_root : string;                      (* name of the root element *)
  doc_scene : option string;              (* local path of the first model/scene *)
  doc_kinematics : option string;         (* local path of the first model/kinematics *)
  doc_model : nat;                        (* number(model/model), 0 when absent *)
  doc_planners : list string;             (* names of the planner elements found *)
  doc_delta : option XNumber;
  doc_epsilon : option XNumber;
  doc_duration : option float;            (* number(duration), in seconds *)
  doc_start : list QNode;
  doc_goal : list QNode;
}.

(** ** The engine *)

Record Engine := {
  mdl_XmlFactory_create : string → outcome MdlModel;
  kin_Kinematics_create : string → outcome Kinematics;
  new_Scene : outcome Scene;                             (* the backend chosen at build time *)
  scene_load : Scene → string → outcome Scene;
  model_getDofPosition : SimpleModel → outcome nat;
  model_isValid : SimpleModel → Vector → outcome bool;
  verifier_isValid : Verifier → VectorList → outcome bool;
  planner_verify : PlanCall → outcome bool;
  planner_solve : PlanCall → outcome bool;
  planner_getPath : PlanCall → outcome VectorList;
  optimizer_process : SimpleOptimizer → VectorList → outcome VectorList;
  xml_readFile : string → outcome PlanDocument;          (* parse, substitute, apply a stylesheet *)
}.

(** ** [struct PlannerState] *)

Record PlannerState := {
  st_scene : option Scene;
  st_kinematics : option Kinematics;
  st_mdl : option nat;
  st_model : option SimpleModel;
  st_robotModel : option nat;
  st_initialized : bool;
  st_planner : option Planner;
  st_sampler : option Sampler;
  st_verifier : option Verifier;
  st_nearestNeighbors : option NearestNeighbors;
  st_optimizer : option SimpleOptimizer;
  st_start : option Vector;
  st_goal : option Vector;
  st_plannerType : string;
  st_delta : float;
  st_epsilon : float;
  st_timeoutMs : Z;
}.

(** The constructor [PlannerState()]. *)
Definition PlannerState_new : PlannerState := {|
  st_scene := None; st_kinematics := None; st_mdl := None; st_model := None;
  st_robotModel := None; st_initialized := false;
  st_planner := None; st_sampler := None; st_verifier := None;
  st_nearestNeighbors := None; st_optimizer := None;
  st_start := None; st_goal := None;
  st_plannerType := EmptyString; st_delta := 0.1%float; st_epsilon := 0.001%float;
  st_timeoutMs := 30000;
|}.

(** [CreatePlanner]: a handle to a fresh state ([nullptr] only when allocation fails). *)
Definition CreatePlanner : option PlannerState := Some PlannerState_new.

(** Assignments to one field. *)

Definition set_scene x (s : PlannerState) : PlannerState :=
  {|
    st_scene := x; st_kinematics := st_kinematics s; st_mdl := st_mdl s;
    st_model := st_model s; st_robotModel := st_robotModel s;
    st_initialized := st_initialized s; st_planner := st_planner s;
    st_sampler := st_sampler s; st_verifier := st_verifier s;
    st_nearestNeighbors := st_nearestNeighbors s; st_optimizer := st_optimizer s;
    st_start := st_start s; st_goal := st_goal s; st_plannerType := st_plannerType s;
    st_delta := st_delta s; st_epsilon := st_epsilon s; st_timeoutMs := st_timeoutMs s
  |}.

Definition set_kinematics x (s : PlannerState) : PlannerState :=
  {|
    st_scene := st_scene s; st_kinematics := x; st_mdl := st_mdl s; st_model := st_model s;
    st_robotModel := st_robotModel s; st_initialized := st_initialized s;
    st_planner := st_planner s; st_sampler := st_sampler s; st_verifier := st_verifier s;
    st_nearestNeighbors := st_nearestNeighbors s; st_optimizer := st_optimizer s;
    st_start := st_start s; st_goal := st_goal s; st_plannerType := st_plannerType s;
    st_delta := st_delta s; st_epsilon := st_epsilon s; st_timeoutMs := st_timeoutMs s
  |}.

Definition set_mdl x (s : PlannerState) : PlannerState :=
  {|
    st_scene := st_scene s; st_kinematics := st_kinematics s; st_mdl := x;
    st_model := st_model s; st_robotModel := st_robotModel s;
    st_initialized := st_initialized s; st_planner := st_planner s;
    st_sampler := st_sampler s; st_verifier := st_verifier s;
    st_nearestNeighbors := st_nearestNeighbors s; st_optimizer := st_optimizer s;
    st_start := st_start s; st_goal := st_goal s; st_plannerType := st_plannerType s;
    st_delta := st_delta s; st_epsilon := st_epsilon s; st_timeoutMs := st_timeoutMs s
  |}.

Definition set_model x (s : PlannerState) : PlannerState :=
  {|
    st_scene := st_scene s; st_kinematics := st_kinematics s; st_mdl := st_mdl s;
    st_model := x; st_robotModel := st_robotModel s; st_initialized := st_initialized s;
    st_planner := st_planner s; st_sampler := st_sampler s; st_verifier := st_verifier s;
    st_nearestNeighbors := st_nearestNeighbors s; st_optimizer := st_optimizer s;
    st_start := st_start s; st_goal := st_goal s; st_plannerType := st_plannerType s;
    st_delta := st_delta s; st_epsilon := st_epsilon s; st_timeoutMs := st_timeoutMs s
  |}.

Definition set_robotModel x (s : PlannerState) : PlannerState :=
  {|
    st_scene := st_scene s; st_kinematics := st_kinematics s; st_mdl := st_mdl s;
    st_model := st_model s; st_robotModel := x; st_initialized := st_initialized s;
    st_planner := st_planner s; st_sampler := st_sampler s; st_verifier := st_verifier s;
    st_nearestNeighbors := st_nearestNeighbors s; st_optimizer := st_optimizer s;
    st_start := st_start s; st_goal := st_goal s; st_plannerType := st_plannerType s;
    st_delta := st_delta s; st_epsilon := st_epsilon s; st_timeoutMs := st_timeoutMs s
  |}.

Definition set_initialized x (s : PlannerState) : PlannerState :=
  {|
    st_scene := st_scene s; st_kinematics := st_kinematics s; st_mdl := st_mdl s;
    st_model := st_model s; st_robotModel := st_robotModel s; st_initialized := x;
    st_planner := st_planner s; st_sampler := st_sampler s; st_verifier := st_verifier s;
    st_nearestNeighbors := st_nearestNeighbors s; st_optimizer := st_optimizer s;
    st_start := st_start s; st_goal := st_goal s; st_plannerType := st_plannerType s;
    st_delta := st_delta s; st_epsilon := st_epsilon s; st_timeoutMs := st_timeoutMs s
  |}.

Definition set_planner x (s : PlannerState) : PlannerState :=
  {|
    st_scene := st_scene s; st_kinematics := st_kinematics s; st_mdl := st_mdl s;
    st_model := st_model s; st_robotModel := st_robotModel s;
    st_initialized := st_initialized s; st_planner := x; st_sampler := st_sampler s;
    st_verifier := st_verifier s; st_nearestNeighbors := st_nearestNeighbors s;
    st_optimizer := st_optimizer s; st_start := st_start s; st_goal := st_goal s;
    st_plannerType := st_plannerType s; st_delta := st_delta s; st_epsilon := st_epsilon s;
    st_timeoutMs := st_timeoutMs s
  |}.

Definition set_sampler x (s : PlannerState) : PlannerState :=
  {|
    st_scene := st_scene s; st_kinematics := st_kinematics s; st_mdl := st_mdl s;
    st_model := st_model s; st_robotModel := st_robotModel s;
    st_initialized := st_initialized s; st_planner := st_planner s; st_sampler := x;
    st_verifier := st_verifier s; st_nearestNeighbors := st_nearestNeighbors s;
    st_optimizer := st_optimizer s; st_start := st_start s; st_goal := st_goal s;
    st_plannerType := st_plannerType s; st_delta := st_delta s; st_epsilon := st_epsilon s;
    st_timeoutMs := st_timeoutMs s
  |}.

Definition set_verifier x (s : PlannerState) : PlannerState :=
  {|
    st_scene := st_scene s; st_kinematics := st_kinematics s; st_mdl := st_mdl s;
    st_model := st_model s; st_robotModel := st_robotModel s;
    st_initialized := st_initialized s; st_planner := st_planner s;
    st_sampler := st_sampler s; st_verifier := x;
    st_nearestNeighbors := st_nearestNeighbors s; st_optimizer := st_optimizer s;
    st_start := st_start s; st_goal := st_goal s; st_plannerType := st_plannerType s;
    st_delta := st_delta s; st_epsilon := st_epsilon s; st_timeoutMs := st_timeoutMs s
  |}.

Definition set_nearestNeighbors x (s : PlannerState) : PlannerState :=
  {|
    st_scene := st_scene s; st_kinematics := st_kinematics s; st_mdl := st_mdl s;
    st_model := st_model s; st_robotModel := st_robotModel s;
    st_initialized := st_initialized s; st_planner := st_planner s;
    st_sampler := st_sampler s; st_verifier := st_verifier s; st_nearestNeighbors := x;
    st_optimizer := st_optimizer s; st_start := st_start s; st_goal := st_goal s;
    st_plannerType := st_plannerType s; st_delta := st_delta s; st_epsilon := st_epsilon s;
    st_timeoutMs := st_timeoutMs s
  |}.

Definition set_optimizer x (s : PlannerState) : PlannerState :=
  {|
    st_scene := st_scene s; st_kinematics := st_kinematics s; st_mdl := st_mdl s;
    st_model := st_model s; st_robotModel := st_robotModel s;
    st_initialized := st_initialized s; st_planner := st_planner s;
    st_sampler := st_sampler s; st_verifier := st_verifier s;
    st_nearestNeighbors := st_nearestNeighbors s; st_optimizer := x;
    st_start := st_start s; st_goal := st_goal s; st_plannerType := st_plannerType s;
    st_delta := st_delta s; st_epsilon := st_epsilon s; st_timeoutMs := st_timeoutMs s
  |}.

Definition set_start x (s : PlannerState) : PlannerState :=
  {|
    st_scene := st_scene s; st_kinematics := st_kinematics s; st_mdl := st_mdl s;
    st_model := st_model s; st_robotModel := st_robotModel s;
    st_initialized := st_initialized s; st_planner := st_planner s;
    st_sampler := st_sampler s; st_verifier := st_verifier s;
    st_nearestNeighbors := st_nearestNeighbors s; st_optimizer := st_optimizer s;
    st_start := x; st_goal := st_goal s; st_plannerType := st_plannerType s;
    st_delta := st_delta s; st_epsilon := st_epsilon s; st_timeoutMs := st_timeoutMs s
  |}.

Definition set_goal x (s : PlannerState) : PlannerState :=
  {|
    st_scene := st_scene s; st_kinematics := st_kinematics s; st_mdl := st_mdl s;
    st_model := st_model s; st_robotModel := st_robotModel s;
    st_initialized := st_initialized s; st_planner := st_planner s;
    st_sampler := st_sampler s; st_verifier := st_verifier s;
    st_nearestNeighbors := st_nearestNeighbors s; st_optimizer := st_optimizer s;
    st_start := st_start s; st_goal := x; st_plannerType := st_plannerType s;
    st_delta := st_delta s; st_epsilon := st_epsilon s; st_timeoutMs := st_timeoutMs s
  |}.

Definition set_plannerType x (s : PlannerState) : PlannerState :=
  {|
    st_scene := st_scene s; st_kinematics := st_kinematics s; st_mdl := st_mdl s;
    st_model := st_model s; st_robotModel := st_robotModel s;
    st_initialized := st_initialized s; st_planner := st_planner s;
    st_sampler := st_sampler s; st_verifier := st_verifier s;
    st_nearestNeighbors := st_nearestNeighbors s; st_optimizer := st_optimizer s;
    st_start := st_start s; st_goal := st_goal s; st_plannerType := x;
    st_delta := st_delta s; st_epsilon := st_epsilon s; st_timeoutMs := st_timeoutMs s
  |}.

Definition set_delta x (s : PlannerState) : PlannerState :=
  {|
    st_scene := st_scene s; st_kinematics := st_kinematics s; st_mdl := st_mdl s;
    st_model := st_model s; st_robotModel := st_robotModel s;
    st_initialized := st_initialized s; st_planner := st_planner s;
    st_sampler := st_sampler s; st_verifier := st_verifier s;
    st_nearestNeighbors := st_nearestNeighbors s; st_optimizer := st_optimizer s;
    st_start := st_start s; st_goal := st_goal s; st_plannerType := st_plannerType s;
    st_delta := x; st_epsilon := st_epsilon s; st_timeoutMs := st_timeoutMs s
  |}.

Definition set_epsilon x (s : PlannerState) : PlannerState :=
  {|
    st_scene := st_scene s; st_kinematics := st_kinematics s; st_mdl := st_mdl s;
    st_model := st_model s; st_robotModel := st_robotModel s;
    st_initialized := st_initialized s; st_planner := st_planner s;
    st_sampler := st_sampler s; st_verifier := st_verifier s;
    st_nearestNeighbors := st_nearestNeighbors s; st_optimizer := st_optimizer s;
    st_start := st_start s; st_goal := st_goal s; st_plannerType := st_plannerType s;
    st_delta := st_delta s; st_epsilon := x; st_timeoutMs := st_timeoutMs s
  |}.

Definition set_timeoutMs x (s : PlannerState) : PlannerState :=
  {|
    st_scene := st_scene s; st_kinematics := st_kinematics s; st_mdl := st_mdl s;
    st_model := st_model s; st_robotModel := st_robotModel s;
    st_initialized := st_initialized s; st_planner := st_planner s;
    st_sampler := st_sampler s; st_verifier := st_verifier s;
    st_nearestNeighbors := st_nearestNeighbors s; st_optimizer := st_optimizer s;
    st_start := st_start s; st_goal := st_goal s; st_plannerType := st_plannerType s;
    st_delta := st_delta s; st_epsilon := st_epsilon s; st_timeoutMs := x
  |}.

Definition planner_set_model x (p : Planner) : Planner :=
  {|
    planner_params := planner_params p; planner_sampler := planner_sampler p;
    planner_nearestNeighbors := planner_nearestNeighbors p; planner_model := x;
    planner_duration := planner_duration p; planner_start := planner_start p;
    planner_goal := planner_goal p
  |}.

Definition planner_set_duration x (p : Planner) : Planner :=
  {|
    planner_params := planner_params p; planner_sampler := planner_sampler p;
    planner_nearestNeighbors := planner_nearestNeighbors p;
    planner_model := planner_model p; planner_duration := x;
    planner_start := planner_start p; planner_goal := planner_goal p
  |}.

Definition planner_set_start x (p : Planner) : Planner :=
  {|
    planner_params := planner_params p; planner_sampler := planner_sampler p;
    planner_nearestNeighbors := planner_nearestNeighbors p;
    planner_model := planner_model p; planner_duration := planner_duration p;
    planner_start := x; planner_goal := planner_goal p
  |}.

Definition planner_set_goal x (p : Planner) : Planner :=
  {|
    planner_params := planner_params p; planner_sampler := planner_sampler p;
    planner_nearestNeighbors := planner_nearestNeighbors p;
    planner_model := planner_model p; planner_duration := planner_duration p;
    planner_start := planner_start p; planner_goal := x
  |}.

(** ** Constants of the RL library *)

(** Modelled from the spec: [rl::math::constants::deg2rad] is declared in the RL
    library's [rl/math/Constants.h]; the spec gives its value, pi / 180. *)
Definition deg2rad : float := (0x1.921fb54442d18p+1 / 180)%float.

(** [rl::xml::Object::getValue<double>(val)]: the XPath number, or [val] when the
    number is NaN. *)
Definition getValue_double (x val : float) : float :=
  if PrimFloat.is_nan x then val else x.

Section Wrapper.

Context (E : Engine).

(** Running a wrapper body on the state behind a non-null handle. *)
Definition run {A} (m : M PlannerState A) (d : A) (st : PlannerState)
  : A * option PlannerState :=
  let (st', o) := m st in (result_of o d, Some st').

(** ** [LoadKinematics] *)

(** The inner [try] block: [Some code] when it returns, [None] when control leaves
    it at its end. *)
Definition LoadKinematics_dynamic (xmlPath : string) : M PlannerState (option Z) :=
  mdl ← call (mdl_XmlFactory_create E xmlPath);
  if mdl_isDynamic mdl then
    modify (set_mdl (Some (mdl_addr mdl)));;
    modify (set_kinematics (mdl_asKinematics mdl));;
    match mdl_asKinematics mdl with
    | None => mret (Some RL_ERROR_LOAD_FAILED)
    | Some _ => mret (Some RL_SUCCESS)
    end
  else mret None.

Definition LoadKinematics_body (xmlPath : string) : M PlannerState Z :=
  try_catch
    (r ← try_catch_std (LoadKinematics_dynamic xmlPath) None;
     match r with
     | Some code => mret code
     | None =>
         k ← call (kin_Kinematics_create E xmlPath);
         modify (set_kinematics (Some k));;
         mret RL_SUCCESS
     end)
    RL_ERROR_LOAD_FAILED RL_ERROR_EXCEPTION.

Definition LoadKinematics (planner : option PlannerState) (xmlPath : option string)
  : Z * option PlannerState :=
  match planner, xmlPath with
  | Some st, Some path => run (LoadKinematics_body path) RL_ERROR_EXCEPTION st
  | _, _ => (RL_ERROR_INVALID_POINTER, planner)
  end.

(** ** [LoadScene] *)

(** [createScene]: the scene of the backend selected at build time, or a
    [std::runtime_error] when there is none. *)
Definition createScene : outcome Scene := new_Scene E.

(** The fresh [SimpleModel] with kinematics, robot model and scene connected
    (the source assigns the four pointers one after the other; nothing can throw
    in between). *)
Definition connect_model (kinematics : option Kinematics) (robotModel : option nat)
    (sc : Scene) : SimpleModel :=
  {| sm_kin := match kinematics with
               | Some k => if kin_isDynamic k then None else Some (kin_addr k)
               | None => None
               end;
     sm_mdl := match kinematics with
               | Some k => if kin_isDynamic k then Some (kin_addr k) else None
               | None => None
               end;
     sm_model := robotModel;
     sm_scene := Some (scene_addr sc) |}.

Definition LoadScene_body (xmlPath : string) (robotModelIndex : Z) : M PlannerState Z :=
  try_catch
    (sc ← call createScene;
     modify (set_scene (Some sc));;
     sc ← call (scene_load E sc xmlPath);
     modify (set_scene (Some sc));;
     let numModels := static_cast_int (length (scene_models sc)) in
     if (robotModelIndex <? 0) || (numModels <=? robotModelIndex)
     then mret RL_ERROR_INVALID_PARAMETER
     else
       modify (set_robotModel (scene_models sc !! Z.to_nat robotModelIndex));;
       match scene_kind sc with
       | OtherScene => mret RL_ERROR_LOAD_FAILED
       | DistanceScene | SimpleScene =>
           st ← get;
           let m := connect_model (st_kinematics st) (st_robotModel st) sc in
           modify (set_model (Some m));;
           if negb (bool_decide (is_Some (sm_kin m))) && negb (bool_decide (is_Some (sm_mdl m)))
           then mret RL_ERROR_NOT_INITIALIZED
           else if negb (bool_decide (is_Some (sm_model m)))
                   || negb (bool_decide (is_Some (sm_scene m)))
           then mret RL_ERROR_NOT_INITIALIZED
           else
             _ ← call (model_getDofPosition E m);      (* logged *)
             modify (set_initialized true);;
             mret RL_SUCCESS
       end)
    RL_ERROR_LOAD_FAILED RL_ERROR_EXCEPTION.

Definition LoadScene (planner : option PlannerState) (xmlPath : option string)
    (robotModelIndex : Z) : Z * option PlannerState :=
  match planner, xmlPath with
  | Some st, Some path => run (LoadScene_body path robotModelIndex) RL_ERROR_EXCEPTION st
  | _, _ => (RL_ERROR_INVALID_POINTER, planner)
  end.

(** ** [createPlanner] *)

Definition new_planner (params : PlannerParams) (sampler : option Sampler)
    (nearestNeighbors : option NearestNeighbors) : Planner :=
  {| planner_params := params; planner_sampler := sampler;
     planner_nearestNeighbors := nearestNeighbors; planner_model := None;
     planner_duration := None; planner_start := NullVec; planner_goal := NullVec |}.

Definition createPlanner (plannerType : string) (sampler : option Sampler)
    (verifier : option Verifier) (nearestNeighbors : option NearestNeighbors)
    (delta epsilon : float) : option Planner :=
  if (plannerType =? "rrt")%string || (plannerType =? "RRT")%string then
    Some (new_planner (RrtParams delta epsilon) sampler nearestNeighbors)
  else if (plannerType =? "rrtConnect")%string || (plannerType =? "RRTConnect")%string
          || (plannerType =? "rrtConCon")%string || (plannerType =? "RRTConCon")%string then
    Some (new_planner (RrtConConParams delta epsilon) sampler nearestNeighbors)
  else if (plannerType =? "rrtGoalBias")%string || (plannerType =? "RRTGoalBias")%string then
    Some (new_planner (RrtGoalBiasParams delta epsilon 0.05%float) sampler nearestNeighbors)
  else if (plannerType =? "prm")%string || (plannerType =? "PRM")%string then
    Some (new_planner (PrmParams 30 verifier) sampler nearestNeighbors)
  else None.

(** ** [LoadPlanXml] *)

(** The planner type: the name of the root element, replaced for a plan document by
    the name of the first planner element found, or by the default. *)
Definition plan_plannerType (doc : PlanDocument) : string :=
  if (doc_root doc =? "rlplan")%string || (doc_root doc =? "plan")%string then
    match doc_planners doc with
    | name :: _ => name
    | [] => "rrtConCon"
    end
  else doc_root doc.

(** [delta] and [epsilon]: the default when the element is absent, else its number,
    times [deg2rad] when its unit is [deg]. *)
Definition plan_scalar (node : option XNumber) (dflt : float) : float :=
  match node with
  | None => dflt
  | Some n =>
      let x := getValue_double (xn_number n) dflt in
      if (xn_unit n =? "deg")%string then (x * deg2rad)%float else x
  end.

Definition plan_delta (doc : PlanDocument) : float := plan_scalar (doc_delta doc) 1.0%float.
Definition plan_epsilon (doc : PlanDocument) : float := plan_scalar (doc_epsilon doc) 0.001%float.

(** [timeoutMs]: 120000 when there is no [duration], else the seconds times 1000,
    cast to [int]. *)
Definition plan_timeoutMs (doc : PlanDocument) : Z :=
  match doc_duration doc with
  | None => 120000
  | Some x => static_cast_int_of_double (getValue_double x 120000%float * 1000.0)%float
  end.

(** One [q] element of a start or goal configuration. *)
Definition plan_q (q : QNode) : float :=
  if (q_unit q =? "deg")%string then (q_content q * deg2rad)%float else q_content q.

Definition LoadPlanXml_body (xmlPath : string) : M PlannerState Z :=
  try_catch
    (doc ← call (xml_readFile E xmlPath);
     match doc_scene doc with
     | None => mret RL_ERROR_LOAD_FAILED
     | Some modelSceneFilename =>
     match doc_kinematics doc with
     | None => mret RL_ERROR_LOAD_FAILED
     | Some modelKinematicsFilename =>
         let robotModelIndex := doc_model doc in
         let plannerTypeStr := plan_plannerType doc in
         let delta := plan_delta doc in
         let epsilon := plan_epsilon doc in
         let timeoutMs := plan_timeoutMs doc in
         modify (set_plannerType plannerTypeStr);;
         modify (set_delta delta);;
         modify (set_epsilon epsilon);;
         modify (set_timeoutMs timeoutMs);;
         result ← LoadKinematics_body modelKinematicsFilename;
         if negb (result =? RL_SUCCESS) then mret result else
         result ← LoadScene_body modelSceneFilename (static_cast_int robotModelIndex);
         if negb (result =? RL_SUCCESS) then mret result else
         (match doc_start doc with
          | [] => mret tt
          | start => modify (set_start (Some (map plan_q start)))
          end);;
         (match doc_goal doc with
          | [] => mret tt
          | goal => modify (set_goal (Some (map plan_q goal)))
          end);;
         st ← get;
         let sampler := {| sampler_model := st_model st |} in
         let verifier := {| verifier_delta := delta; verifier_model := st_model st |} in
         let nearestNeighbors := {| nn_model := st_model st |} in
         let optimizer :=
           {| optimizer_model := st_model st; optimizer_verifier := Some verifier |} in
         modify (set_sampler (Some sampler));;
         modify (set_verifier (Some verifier));;
         modify (set_nearestNeighbors (Some nearestNeighbors));;
         modify (set_optimizer (Some optimizer));;
         let planner := createPlanner plannerTypeStr (Some sampler) (Some verifier)
                          (Some nearestNeighbors) delta epsilon in
         modify (set_planner planner);;
         match planner with
         | None => mret RL_ERROR_LOAD_FAILED
         | Some p =>
             let p := planner_set_model (st_model st) p in
             let p := planner_set_duration (Some timeoutMs) p in
             let p := match st_start st with
                      | Some _ => planner_set_start StoredStart p
                      | None => p
                      end in
             let p := match st_goal st with
                      | Some _ => planner_set_goal StoredGoal p
                      | None => p
                      end in
             modify (set_planner (Some p));;
             mret RL_SUCCESS
         end
     end end)
    RL_ERROR_LOAD_FAILED RL_ERROR_EXCEPTION.

Definition LoadPlanXml (planner : option PlannerState) (xmlPath : option string)
  : Z * option PlannerState :=
  match planner, xmlPath with
  | Some st, Some path => run (LoadPlanXml_body path) RL_ERROR_EXCEPTION st
  | _, _ => (RL_ERROR_INVALID_POINTER, planner)
  end.

(** ** [SetStartConfiguration] and [SetGoalConfiguration] *)

(** [planner->start = ...] on the session's planner, when there is one. *)
Definition rebind_planner (f : Planner → Planner) (st : PlannerState) : PlannerState :=
  match st_planner st with
  | Some p => set_planner (Some (f p)) st
  | None => st
  end.

(** The stored vector is allocated anew unless one of the right size exists, and
    then every component is assigned: either way it ends up as the copy of
    [config]. *)
Definition SetStartConfiguration_body (config : list float) (configSize : Z)
  : M PlannerState Z :=
  try_catch
    (st ← get;
     match st_model st with
     | Some m =>
         if negb (st_initialized st) then mret RL_ERROR_NOT_INITIALIZED else
         n ← call (model_getDofPosition E m);
         let dof := static_cast_int n in
         if negb (configSize =? dof) then mret RL_ERROR_INVALID_PARAMETER else
         let start := copy_array config dof in
         modify (set_start (Some start));;
         valid ← call (model_isValid E m start);
         if negb valid then mret RL_ERROR_INVALID_PARAMETER else
         modify (rebind_planner (planner_set_start StoredStart));;
         mret RL_SUCCESS
     | None => mret RL_ERROR_NOT_INITIALIZED
     end)
    RL_ERROR_EXCEPTION RL_ERROR_EXCEPTION.

Definition SetStartConfiguration (planner : option PlannerState)
    (config : option (list float)) (configSize : Z) : Z * option PlannerState :=
  match planner, config with
  | Some st, Some cfg =>
      if configSize <=? 0 then (RL_ERROR_INVALID_PARAMETER, planner)
      else run (SetStartConfiguration_body cfg configSize) RL_ERROR_EXCEPTION st
  | _, _ => (RL_ERROR_INVALID_POINTER, planner)
  end.

Definition SetGoalConfiguration_body (config : list float) (configSize : Z)
  : M PlannerState Z :=
  try_catch
    (st ← get;
     match st_model st with
     | Some m =>
         if negb (st_initialized st) then mret RL_ERROR_NOT_INITIALIZED else
         n ← call (model_getDofPosition E m);
         let dof := static_cast_int n in
         if negb (configSize =? dof) then mret RL_ERROR_INVALID_PARAMETER else
         let goal := copy_array config dof in
         modify (set_goal (Some goal));;
         valid ← call (model_isValid E m goal);
         if negb valid then mret RL_ERROR_INVALID_PARAMETER else
         modify (rebind_planner (planner_set_goal StoredGoal));;
         mret RL_SUCCESS
     | None => mret RL_ERROR_NOT_INITIALIZED
     end)
    RL_ERROR_EXCEPTION RL_ERROR_EXCEPTION.

Definition SetGoalConfiguration (planner : option PlannerState)
    (config : option (list float)) (configSize : Z) : Z * option PlannerState :=
  match planner, config with
  | Some st, Some cfg =>
      if configSize <=? 0 then (RL_ERROR_INVALID_PARAMETER, planner)
      else run (SetGoalConfiguration_body cfg configSize) RL_ERROR_EXCEPTION st
  | _, _ => (RL_ERROR_INVALID_POINTER, planner)
  end.

(** ** [GetDof] *)

Definition GetDof (planner : option PlannerState) : Z :=
  match planner with
  | None => RL_ERROR_INVALID_POINTER
  | Some st =>
      match st_model st with
      | Some m =>
          if negb (st_initialized st) then RL_ERROR_NOT_INITIALIZED
          else match model_getDofPosition E m with
               | Returns n => static_cast_int n
               | _ => RL_ERROR_EXCEPTION
               end
      | None => RL_ERROR_NOT_INITIALIZED
      end
  end.

(** ** [PlanTrajectory] *)

(** What a [PlanTrajectory] call can change: the session, the caller's buffer
    [waypoints], the caller's [*waypointCount]; and, for stating properties, the
    planner call it made, if it got that far. *)
Record PlanWorld := {
  pw_state : PlannerState;
  pw_waypoints : list float;
  pw_waypointCount : Z;
  pw_call : option PlanCall;
}.

Definition on_state (f : PlannerState → PlannerState) (w : PlanWorld) : PlanWorld :=
  {| pw_state := f (pw_state w); pw_waypoints := pw_waypoints w;
     pw_waypointCount := pw_waypointCount w; pw_call := pw_call w |}.

Definition write_waypointCount (n : Z) (w : PlanWorld) : PlanWorld :=
  {| pw_state := pw_state w; pw_waypoints := pw_waypoints w;
     pw_waypointCount := n; pw_call := pw_call w |}.

Definition write_waypoints (f : list float → list float) (w : PlanWorld) : PlanWorld :=
  {| pw_state := pw_state w; pw_waypoints := f (pw_waypoints w);
     pw_waypointCount := pw_waypointCount w; pw_call := pw_call w |}.

Definition note_call (c : PlanCall) (w : PlanWorld) : PlanWorld :=
  {| pw_state := pw_state w; pw_waypoints := pw_waypoints w;
     pw_waypointCount := pw_waypointCount w; pw_call := Some c |}.

(** [constrainZAxis] *)
Definition constrainZAxis (goal start : Vector) (zAxisIndex : Z) : Vector :=
  if (0 <=? zAxisIndex) && (zAxisIndex <? Z.of_nat (length goal))
  then <[Z.to_nat zAxisIndex := vec_at start (Z.to_nat zAxisIndex)]> goal
  else goal.

(** The vector a [VecPtr] points at. *)
Definition deref (st : PlannerState) (p : VecPtr) : Vector :=
  match p with
  | TempVec v => v
  | StoredStart => default [] (st_start st)
  | StoredGoal => default [] (st_goal st)
  | NullVec => []
  end.

Definition is_null (p : VecPtr) : bool :=
  match p with NullVec => true | _ => false end.

(** The test [a && aSize > 0] on an array parameter. *)
Definition provided (a : option (list float)) (aSize : Z) : option (list float) :=
  match a with
  | Some l => if 0 <? aSize then Some l else None
  | None => None
  end.

(** The start vector of the call: the error code, or [startVec]. *)
Definition resolve_start (st : PlannerState) (start : option (list float))
    (startSize dof : Z) : Z + VecPtr :=
  match provided start startSize with
  | Some a =>
      if negb (startSize =? dof) then inl RL_ERROR_INVALID_PARAMETER
      else inr (TempVec (copy_array a dof))
  | None =>
      match st_start st with
      | Some _ => inr StoredStart
      | None => inl RL_ERROR_INVALID_PARAMETER
      end
  end.

(** The goal vector of the call: the error code, or [goalVec]. *)
Definition resolve_goal (st : PlannerState) (startVec : VecPtr)
    (goal : option (list float)) (goalSize dof useZAxis : Z) : Z + VecPtr :=
  match provided goal goalSize with
  | Some a =>
      if negb (goalSize =? dof) then inl RL_ERROR_INVALID_PARAMETER
      else
        let tempGoal := copy_array a dof in
        let tempGoal :=
          if (useZAxis =? 0) && (3 <=? dof)
             && negb (is_null startVec)
          then constrainZAxis tempGoal (deref st startVec) (dof - 1)
          else tempGoal in
        inr (TempVec tempGoal)
  | None =>
      match st_goal st with
      | Some _ => inr StoredGoal
      | None => inl RL_ERROR_INVALID_PARAMETER
      end
  end.

(** The planner type of a lazily created planner. *)
Definition choose_plannerType (st : PlannerState) (plannerType : option string) : string :=
  match plannerType with
  | Some s => if negb (s =? EmptyString)%string then s
              else if negb (st_plannerType st =? EmptyString)%string then st_plannerType st
              else "rrtConCon"
  | None => if negb (st_plannerType st =? EmptyString)%string then st_plannerType st
            else "rrtConCon"
  end.

(** The block [if (!rlPlanner) { ... }]: the components that are missing are
    created, then the planner, which is stored on the session; the error code when
    the block returns, else [rlPlanner]. *)
Definition create_components (m : SimpleModel) (plannerType : option string)
    (delta epsilon : float) (timeoutMs : Z) : M PlannerState (Z + Planner) :=
  st ← get;
  (match st_sampler st with
   | Some _ => mret tt
   | None => modify (set_sampler (Some {| sampler_model := Some m |}))
   end);;
  (match st_verifier st with
   | Some _ => mret tt
   | None =>
       modify (set_verifier (Some
         {| verifier_delta := if (0 <? delta)%float then delta else st_delta st;
            verifier_model := Some m |}))
   end);;
  (match st_nearestNeighbors st with
   | Some _ => mret tt
   | None => modify (set_nearestNeighbors (Some {| nn_model := Some m |}))
   end);;
  st ← get;
  let plannerTypeStr := choose_plannerType st plannerType in
  let useDelta := if (0 <? delta)%float then delta else st_delta st in
  let useEpsilon := if (0 <? epsilon)%float then epsilon else st_epsilon st in
  let useTimeout := if 0 <? timeoutMs then timeoutMs else st_timeoutMs st in
  match createPlanner plannerTypeStr (st_sampler st) (st_verifier st)
          (st_nearestNeighbors st) useDelta useEpsilon with
  | None => mret (inl RL_ERROR_INVALID_PARAMETER)
  | Some p =>
      let p := planner_set_model (Some m) p in
      let p := planner_set_duration (Some useTimeout) p in
      modify (set_planner (Some p));;
      modify (set_plannerType plannerTypeStr);;
      modify (set_delta useDelta);;
      modify (set_epsilon useEpsilon);;
      modify (set_timeoutMs useTimeout);;
      mret (inr p)
  end.

(** A computation on the session, inside a [PlanTrajectory] call. *)
Definition in_session {A} (m : M PlannerState A) : M PlanWorld A := λ w,
  let (st', o) := m (pw_state w) in (on_state (λ _, st') w, o).

(** One row of the output: [waypoints[idx * dof + j] = waypoint(j)] for [j < dof].
    The index is computed in [Z]; it is the [int] the source computes as long as
    the product fits an [int].  [waypoint(j)] is read with [vec_at]. *)
Definition write_row (dof idx : Z) (waypoint : Vector) (buf : list float) : list float :=
  foldl (λ b j, <[Z.to_nat (idx * dof + Z.of_nat j) := vec_at waypoint j]> b)
        buf (seq 0 (Z.to_nat dof)).

(** The copy loop, from row [idx] on: it stops at the end of the path or at [count]. *)
Fixpoint copy_rows (dof count idx : Z) (path : VectorList) (buf : list float)
  : list float :=
  match path with
  | [] => buf
  | waypoint :: rest =>
      if idx <? count
      then copy_rows dof count (idx + 1) rest (write_row dof idx waypoint buf)
      else buf
  end.

(** The optimizer pass: the stored optimizer, or a temporary one. *)
Definition optimize (st : PlannerState) (path : VectorList) : outcome VectorList :=
  match st_optimizer st with
  | Some o => optimizer_process E o path
  | None =>
      optimizer_process E
        {| optimizer_model := st_model st; optimizer_verifier := st_verifier st |} path
  end.

(** The first part of the [try] block of [PlanTrajectory]: the vectors of the call
    are determined and a planner is bound to them.  The error code when it
    returns, else [dof] and the planner call that follows. *)
Definition bind_planner
    (start : option (list float)) (startSize : Z)
    (goal : option (list float)) (goalSize : Z)
    (useZAxis : Z) (plannerType : option string)
    (delta epsilon : float) (timeoutMs : Z) : M PlannerState (Z + Z * PlanCall) :=
  st ← get;
  match st_model st with
  | None => mret (inl RL_ERROR_NOT_INITIALIZED)
  | Some m =>
  if negb (st_initialized st) then mret (inl RL_ERROR_NOT_INITIALIZED) else
  n ← call (model_getDofPosition E m);
  let dof := static_cast_int n in
  match resolve_start st start startSize dof with
  | inl code => mret (inl code)
  | inr startVec =>
  match resolve_goal st startVec goal goalSize dof useZAxis with
  | inl code => mret (inl code)
  | inr goalVec =>
  r ← match st_planner st with
      | Some p => mret (inr p)
      | None => create_components m plannerType delta epsilon timeoutMs
      end;
  match r with
  | inl code => mret (inl code)
  | inr rlPlanner =>
  (* [rlPlanner] and [state->planner] are one object *)
  let rlPlanner := planner_set_start startVec rlPlanner in
  let rlPlanner := planner_set_goal goalVec rlPlanner in
  let rlPlanner := if 0 <? timeoutMs
                   then planner_set_duration (Some timeoutMs) rlPlanner
                   else rlPlanner in
  modify (set_planner (Some rlPlanner));;
  st ← get;
  mret (inr (dof, {| call_planner := rlPlanner;
                     call_start := deref st startVec;
                     call_goal := deref st goalVec |}))
  end end end end.

(** The second part: [verify()], [solve()], the optimizer, and the copy into the
    caller's buffer. *)
Definition solve_and_copy (c : PlanCall) (dof maxWaypoints : Z) : M PlanWorld Z :=
  modify (note_call c);;
  ok ← call (planner_verify E c);
  if negb ok then mret RL_ERROR_PLANNING_FAILED else
  solved ← call (planner_solve E c);
  if negb solved then
    modify (write_waypointCount 0);;
    mret RL_ERROR_PLANNING_FAILED
  else
  path ← call (planner_getPath E c);
  w ← get;
  path ← call (optimize (pw_state w) path);
  let count := static_cast_int (length path) in
  let count := if maxWaypoints <? count then maxWaypoints else count in
  modify (write_waypointCount count);;
  modify (write_waypoints (copy_rows dof count 0 path));;
  mret RL_SUCCESS.

Definition PlanTrajectory_body
    (start : option (list float)) (startSize : Z)
    (goal : option (list float)) (goalSize : Z)
    (useZAxis : Z) (plannerType : option string)
    (delta epsilon : float) (timeoutMs : Z) (maxWaypoints : Z) : M PlanWorld Z :=
  try_catch
    (r ← in_session (bind_planner start startSize goal goalSize useZAxis plannerType
                       delta epsilon timeoutMs);
     match r with
     | inl code => mret code
     | inr (dof, c) => solve_and_copy c dof maxWaypoints
     end)
    RL_ERROR_PLANNING_FAILED RL_ERROR_EXCEPTION.

(** The result of a [PlanTrajectory] call. *)
Record PlanResult := {
  pr_ret : Z;
  pr_state : option PlannerState;
  pr_waypoints : option (list float);
  pr_waypointCount : option Z;
  pr_call : option PlanCall;
}.

Definition PlanTrajectory (planner : option PlannerState)
    (start : option (list float)) (startSize : Z)
    (goal : option (list float)) (goalSize : Z)
    (useZAxis : Z) (plannerType : option string)
    (delta epsilon : float) (timeoutMs : Z)
    (waypoints : option (list float)) (maxWaypoints : Z) (waypointCount : option Z)
  : PlanResult :=
  match planner, waypoints, waypointCount with
  | Some st, Some buf, Some cnt =>
      let (w, o) :=
        PlanTrajectory_body start startSize goal goalSize useZAxis plannerType
          delta epsilon timeoutMs maxWaypoints
          {| pw_state := st; pw_waypoints := buf; pw_waypointCount := cnt;
             pw_call := None |} in
      {| pr_ret := result_of o RL_ERROR_EXCEPTION;
         pr_state := Some (pw_state w);
         pr_waypoints := Some (pw_waypoints w);
         pr_waypointCount := Some (pw_waypointCount w);
         pr_call := pw_call w |}
  | _, _, _ =>
      {| pr_ret := RL_ERROR_INVALID_POINTER; pr_state := planner;
         pr_waypoints := waypoints; pr_waypointCount := waypointCount;
         pr_call := None |}
  end.

(** ** [IsValidConfiguration] *)

(** The verifier of the collision check: the stored one, or a new one that is
    stored for later use. *)
Definition obtain_verifier (m : SimpleModel) : M PlannerState Verifier :=
  st ← get;
  match st_verifier st with
  | Some v => mret v
  | None =>
      let v := {| verifier_delta :=
                    if (0 <? st_delta st)%float then st_delta st else 0.1%float;
                  verifier_model := Some m |} in
      modify (set_verifier (Some v));;
      mret v
  end.

Definition IsValidConfiguration_body (config : list float) (configSize : Z)
  : M PlannerState Z :=
  try_catch
    (st ← get;
     match st_model st with
     | None => mret 0
     | Some m =>
     if negb (st_initialized st) then mret 0 else
     if negb (bool_decide (is_Some (st_kinematics st))) then mret 0 else
     if negb (bool_decide (is_Some (sm_kin m))) && negb (bool_decide (is_Some (sm_mdl m)))
     then mret 0 else
     if negb (bool_decide (is_Some (sm_model m)))
        || negb (bool_decide (is_Some (sm_scene m)))
     then mret 0 else
     d ← try_catch (n ← call (model_getDofPosition E m);
                    mret (Some (static_cast_int n))) None None;
     match d with
     | None => mret 0
     | Some dof =>
     if negb (configSize =? dof) then mret 0 else
     let q := copy_array config dof in
     v ← try_catch (b ← call (model_isValid E m q); mret (Some b)) None None;
     match v with
     | None => mret 0
     | Some isValidResult =>
     if negb isValidResult then mret 0 else
     try_catch
       (verifier ← obtain_verifier m;
        collisionFree ← call (verifier_isValid E verifier [q; q]);
        if negb collisionFree then mret 0 else mret 1)
       (if isValidResult then 1 else 0)
       (if isValidResult then 1 else 0)
     end end end)
    0 0.

Definition IsValidConfiguration (planner : option PlannerState)
    (config : option (list float)) (configSize : Z) : Z * option PlannerState :=
  match planner, config with
  | Some st, Some cfg => run (IsValidConfiguration_body cfg configSize) 0 st
  | _, _ => (0, planner)
  end.

End Wrapper.

(** * A concrete engine

    A three-joint arm in an empty scene, used to run the wrapper on concrete
    inputs.  Joint values are valid between -4 and 4; the planner connects start
    and goal by the straight segment. *)

Module Demo.

Definition in_limits (q : Vector) : bool :=
  forallb (λ x, (-4 <=? x)%float && (x <=? 4)%float) q.

(** A plan descriptor: delta of 5 degrees, a duration of 2 seconds, a start and a
    goal with one joint in degrees. *)
Definition recipe : PlanDocument := {|
  doc_root := "rlplan";
  doc_scene := Some "scene.xml";
  doc_kinematics := Some "arm.xml";
  doc_model := 0;
  doc_planners := ["rrt"];
  doc_delta := Some {| xn_number := 5; xn_unit := "deg" |};
  doc_epsilon := None;
  doc_duration := Some 2%float;
  doc_start := [ {| q_content := 0; q_unit := EmptyString |};
                 {| q_content := 0; q_unit := EmptyString |};
                 {| q_content := 0.3; q_unit := EmptyString |} ];
  doc_goal := [ {| q_content := 1; q_unit := EmptyString |};
                {| q_content := 90; q_unit := "deg" |};
                {| q_content := 0.9; q_unit := EmptyString |} ];
|}.

(** A descriptor whose start has two joints only. *)
Definition short_recipe : PlanDocument := {|
  doc_root := "rlplan";
  doc_scene := Some "scene.xml";
  doc_kinematics := Some "arm.xml";
  doc_model := 0;
  doc_planners := ["rrt"];
  doc_delta := None;
  doc_epsilon := None;
  doc_duration := None;
  doc_start := [ {| q_content := 0; q_unit := EmptyString |};
                 {| q_content := 0; q_unit := EmptyString |} ];
  doc_goal := [];
|}.

Definition engine : Engine := {|
  mdl_XmlFactory_create := λ _, ThrowsStd;         (* not a dynamic model file *)
  kin_Kinematics_create := λ path,
    Returns {| kin_addr := String.length path; kin_isDynamic := false |};
  new_Scene := Returns {| scene_addr := 100; scene_kind := SimpleScene; scene_models := [] |};
  scene_load := λ sc _,
    Returns {| scene_addr := scene_addr sc; scene_kind := scene_kind sc;
               scene_models := [101%nat] |};
  model_getDofPosition := λ _, Returns 3%nat;
  model_isValid := λ _ q, Returns (in_limits q);
  verifier_isValid := λ _ path, Returns (forallb in_limits path);
  planner_verify := λ c, Returns (in_limits (call_start c) && in_limits (call_goal c));
  planner_solve := λ _, Returns true;
  planner_getPath := λ c, Returns [call_start c; call_goal c];
  optimizer_process := λ _ path, Returns path;
  xml_readFile := λ path,
    if (path =? "short.xml")%string then Returns short_recipe else Returns recipe;
|}.

(** The same engine, with a collision check that throws. *)
Definition engine_verifier_throws : Engine := {|
  mdl_XmlFactory_create := mdl_XmlFactory_create engine;
  kin_Kinematics_create := kin_Kinematics_create engine;
  new_Scene := new_Scene engine;
  scene_load := scene_load engine;
  model_getDofPosition := model_getDofPosition engine;
  model_isValid := model_isValid engine;
  verifier_isValid := λ _ _, ThrowsStd;
  planner_verify := planner_verify engine;
  planner_solve := planner_solve engine;
  planner_getPath := planner_getPath engine;
  optimizer_process := optimizer_process engine;
  xml_readFile := xml_readFile engine;
|}.

(** The same engine, with a planner whose [solve()] throws. *)
Definition engine_solve_throws : Engine := {|
  mdl_XmlFactory_create := mdl_XmlFactory_create engine;
  kin_Kinematics_create := kin_Kinematics_create engine;
  new_Scene := new_Scene engine;
  scene_load := scene_load engine;
  model_getDofPosition := model_getDofPosition engine;
  model_isValid := model_isValid engine;
  verifier_isValid := verifier_isValid engine;
  planner_verify := planner_verify engine;
  planner_solve := λ _, ThrowsStd;
  planner_getPath := planner_getPath engine;
  optimizer_process := optimizer_process engine;
  xml_readFile := xml_readFile engine;
|}.

(** The session after [LoadKinematics] and [LoadScene]. *)
Definition loaded : option PlannerState :=
  (LoadScene engine (LoadKinematics engine CreatePlanner (Some "arm.xml")).2
     (Some "scene.xml") 0).2.

(** The session after [LoadPlanXml]. *)
Definition planned : option PlannerState :=
  (LoadPlanXml engine CreatePlanner (Some "plan.xml")).2.

Definition loaded_state : PlannerState := default PlannerState_new loaded.
Definition planned_state : PlannerState := default PlannerState_new planned.

Definition q_start : list float := [0; 0; 0.3]%float.
Definition q_goal : list float := [1; 1; 0.9]%float.

(** A goal beyond the joint limits: [verify()] rejects it. *)
Definition q_far : list float := [1; 1; 9]%float.

(** A first plan on the loaded session, with room for two waypoints. *)
Definition first_plan : PlanResult :=
  PlanTrajectory engine (Some loaded_state) (Some q_start) 3 (Some q_goal) 3 1 (Some "rrt")
    0.1 0.001 5000 (Some (replicate 6 7%float)) 2 (Some 99).

End Demo.

(** * Reading a [PlanTrajectory] result *)

(** The number of joints the planning model of a session reports. *)
Definition session_dof (E : Engine) (st : PlannerState) : option nat :=
  match st_model st with
  | Some m =>
      match model_getDofPosition E m with
      | Returns n => Some n
      | _ => None
      end
  | None => None
  end.

(** The path a call copies out: what the optimizer made of the path of the planner
    call. *)
Definition optimized_path (E : Engine) (r : PlanResult) : option VectorList :=
  match pr_call r, pr_state r with
  | Some c, Some st =>
      match planner_getPath E c with
      | Returns raw =>
          match optimize E st raw with
          | Returns path => Some path
          | _ => None
          end
      | _ => None
      end
  | _, _ => None
  end.

(** [count] of the copy-out: the size of the path as an [int], capped by
    [maxWaypoints]. *)
Definition capped_count (path : VectorList) (maxWaypoints : Z) : Z :=
  let count := static_cast_int (length path) in
  if maxWaypoints <? count then maxWaypoints else count.

(** * The conditions of [IsValidConfiguration] *)

(** The verifier of the collision check: the stored one, or the one created from
    the stored delta. *)
Definition collision_verifier (st : PlannerState) (m : SimpleModel) : Verifier :=
  match st_verifier st with
  | Some v => v
  | None =>
      {| verifier_delta := if (0 <? st_delta st)%float then st_delta st else 0.1%float;
         verifier_model := Some m |}
  end.

(** The session is initialized, kinematics is present, and the planning model [m]
    has a kinematic or dynamic view, a robot model and a scene. *)
Definition session_ready (st : PlannerState) (m : SimpleModel) : Prop :=
  st_model st = Some m
  ∧ st_initialized st = true
  ∧ is_Some (st_kinematics st)
  ∧ (is_Some (sm_kin m) ∨ is_Some (sm_mdl m))
  ∧ is_Some (sm_model m)
  ∧ is_Some (sm_scene m).

(** In the words of the spec: the session is ready, [n] is the number of joints,
    the planning model accepts the configuration and the verifier accepts the
    path of length zero at it. *)
Definition definitely_valid (E : Engine) (st : PlannerState) (config : list float)
    (n : Z) : Prop :=
  ∃ m dof,
    session_ready st m
    ∧ model_getDofPosition E m = Returns dof
    ∧ n = static_cast_int dof
    ∧ model_isValid E m (copy_array config n) = Returns true
    ∧ verifier_isValid E (collision_verifier st m)
        [copy_array config n; copy_array config n] = Returns true.

(** As the code has it: the same, except that a collision check that throws counts
    like one that accepts. *)
Definition valid_unless_rejected (E : Engine) (st : PlannerState) (config : list float)
    (n : Z) : Prop :=
  ∃ m dof,
    session_ready st m
    ∧ model_getDofPosition E m = Returns dof
    ∧ n = static_cast_int dof
    ∧ model_isValid E m (copy_array config n) = Returns true
    ∧ verifier_isValid E (collision_verifier st m)
        [copy_array config n; copy_array config n] ≠ Returns false.

(** * Reading a planner *)

(** The step size and the goal tolerance of a planner; [Prm] has neither field. *)
Definition params_delta (p : PlannerParams) : option float :=
  match p with
  | RrtParams d _ | RrtConConParams d _ | RrtGoalBiasParams d _ _ => Some d
  | PrmParams _ _ => None
  end.

Definition params_epsilon (p : PlannerParams) : option float :=
  match p with
  | RrtParams _ e | RrtConConParams _ e | RrtGoalBiasParams _ e _ => Some e
  | PrmParams _ _ => None
  end.

(** The last assignments of the first part of [PlanTrajectory] to the planner. *)
Definition bound_planner (startVec goalVec : VecPtr) (timeoutMs : Z) (p : Planner)
  : Planner :=
  let p := planner_set_goal goalVec (planner_set_start startVec p) in
  if 0 <? timeoutMs then planner_set_duration (Some timeoutMs) p else p.

(** The strings [createPlanner] knows. *)
Definition known_plannerType (s : string) : bool :=
  (s =? "rrt")%string || (s =? "RRT")%string
  || (s =? "rrtConnect")%string || (s =? "RRTConnect")%string
  || (s =? "rrtConCon")%string || (s =? "RRTConCon")%string
  || (s =? "rrtGoalBias")%string || (s =? "RRTGoalBias")%string
  || (s =? "prm")%string || (s =? "PRM")%string.

(** * The wiring of the planning model *)

(** The planning model references the kinematics of the session through exactly
    one of its two views: [kin] and not [mdl] for plain kinematics, [mdl] and not
    [kin] for kinematics that is a dynamic model. *)
Definition references_exactly_one (st : PlannerState) : Prop :=
  ∃ k m,
    st_kinematics st = Some k ∧ st_model st = Some m
    ∧ ((kin_isDynamic k = false ∧ sm_kin m = Some (kin_addr k) ∧ sm_mdl m = None)
       ∨ (kin_isDynamic k = true ∧ sm_kin m = None ∧ sm_mdl m = Some (kin_addr k))).

(** Two sessions with the same kinematics, planning model and [initialized]. *)
Definition same_wiring (a b : PlannerState) : Prop :=
  st_kinematics a = st_kinematics b ∧ st_model a = st_model b
  ∧ st_initialized a = st_initialized b.

(** Two sessions with the same stored start and goal. *)
Definition same_vectors (a b : PlannerState) : Prop :=
  st_start a = st_start b ∧ st_goal a = st_goal b.

(** The planner parameters and the stored vectors, which [LoadKinematics] and
    [LoadScene] never assign. *)
Definition same_parameters (a b : PlannerState) : Prop :=
  st_plannerType a = st_plannerType b ∧ st_delta a = st_delta b
  ∧ st_epsilon a = st_epsilon b ∧ st_timeoutMs a = st_timeoutMs b
  ∧ st_start a = st_start b ∧ st_goal a = st_goal b
  ∧ st_planner a = st_planner b ∧ st_verifier a = st_verifier b.

(** * Engines that fail, and descriptors that cannot be loaded *)

Module Faults.

(** The engine of [Demo], reading another descriptor. *)
Definition engine_reading (doc : outcome PlanDocument) : Engine := {|
  mdl_XmlFactory_create := mdl_XmlFactory_create Demo.engine;
  kin_Kinematics_create := kin_Kinematics_create Demo.engine;
  new_Scene := new_Scene Demo.engine;
  scene_load := scene_load Demo.engine;
  model_getDofPosition := model_getDofPosition Demo.engine;
  model_isValid := model_isValid Demo.engine;
  verifier_isValid := verifier_isValid Demo.engine;
  planner_verify := planner_verify Demo.engine;
  planner_solve := planner_solve Demo.engine;
  planner_getPath := planner_getPath Demo.engine;
  optimizer_process := optimizer_process Demo.engine;
  xml_readFile := λ _, doc;
|}.

(** The engine of [Demo], with kinematics files that cannot be read. *)
Definition engine_no_kinematics : Engine := {|
  mdl_XmlFactory_create := mdl_XmlFactory_create Demo.engine;
  kin_Kinematics_create := λ _, ThrowsStd;
  new_Scene := new_Scene Demo.engine;
  scene_load := scene_load Demo.engine;
  model_getDofPosition := model_getDofPosition Demo.engine;
  model_isValid := model_isValid Demo.engine;
  verifier_isValid := verifier_isValid Demo.engine;
  planner_verify := planner_verify Demo.engine;
  planner_solve := planner_solve Demo.engine;
  planner_getPath := planner_getPath Demo.engine;
  optimizer_process := optimizer_process Demo.engine;
  xml_readFile := xml_readFile Demo.engine;
|}.

(** A descriptor without a scene element. *)
Definition recipe_without_scene : PlanDocument := {|
  doc_root := "rlplan";
  doc_scene := None;
  doc_kinematics := Some "arm.xml";
  doc_model := 0;
  doc_planners := ["rrt"];
  doc_delta := None;
  doc_epsilon := None;
  doc_duration := None;
  doc_start := [];
  doc_goal := [];
|}.

(** The descriptor of [Demo] under a root element [rl], the second of the two
    layouts the queries of [LoadPlanXml] accept. *)
Definition recipe_under_rl : PlanDocument := {|
  doc_root := "rl";
  doc_scene := doc_scene Demo.recipe;
  doc_kinematics := doc_kinematics Demo.recipe;
  doc_model := doc_model Demo.recipe;
  doc_planners := doc_planners Demo.recipe;
  doc_delta := doc_delta Demo.recipe;
  doc_epsilon := doc_epsilon Demo.recipe;
  doc_duration := doc_duration Demo.recipe;
  doc_start := doc_start Demo.recipe;
  doc_goal := doc_goal Demo.recipe;
|}.

End Faults.

(** The four assignments of [LoadPlanXml] before it loads the files. *)
Definition with_plan_parameters (doc : PlanDocument) (st : PlannerState) : PlannerState :=
  set_timeoutMs (plan_timeoutMs doc)
    (set_epsilon (plan_epsilon doc)
       (set_delta (plan_delta doc)
          (set_plannerType (plan_plannerType doc) st))).

(** * Properties *)

(** ** Running the monad in proofs *)

Ltac unfold_M :=
  cbv beta iota delta
    [mbind M_bind mret M_ret get modify call try_catch try_catch_std in_session run
     result_of] in *.

(** Case analysis on whatever a wrapper body branches on next. *)
Ltac case_step :=
  match goal with
  | |- context [match ?x with _ => _ end] =>
      lazymatch x with
      | context [match _ with _ => _ end] => fail
      | _ => destruct x eqn:?
      end
  end.

Ltac unfold_codes :=
  unfold RL_SUCCESS, RL_ERROR_INVALID_POINTER, RL_ERROR_INVALID_PARAMETER,
    RL_ERROR_LOAD_FAILED, RL_ERROR_PLANNING_FAILED, RL_ERROR_NOT_INITIALIZED,
    RL_ERROR_EXCEPTION in *.

Ltac finish := repeat split; intros; unfold_codes; congruence.

Ltac run_body := unfold_M; repeat (case_step; simpl in *; try congruence).

(** ** What the loaders leave alone *)

Lemma LoadKinematics_body_parameters E path st :
  same_parameters st (LoadKinematics_body E path st).1.
Proof.
  unfold LoadKinematics_body, LoadKinematics_dynamic, same_parameters.
  run_body; repeat split.
Qed.

Lemma LoadScene_body_parameters E path idx st :
  same_parameters st (LoadScene_body E path idx st).1.
Proof.
  unfold LoadScene_body, createScene, same_parameters.
  run_body; repeat split.
Qed.

(** ** The descriptor loader: units and defaults *)


(** What [LoadPlanXml] has stored when it returns, for a descriptor that names a
    scene and a kinematics file. *)
Lemma LoadPlanXml_body_stores E path doc sceneFile kinFile st :
  xml_readFile E path = Returns doc →
  doc_scene doc = Some sceneFile →
  doc_kinematics doc = Some kinFile →
  let r := LoadPlanXml_body E path st in
  st_delta r.1 = plan_delta doc
  ∧ st_epsilon r.1 = plan_epsilon doc
  ∧ st_timeoutMs r.1 = plan_timeoutMs doc
  ∧ (r.2 = Returns RL_SUCCESS →
       (doc_start doc ≠ [] → st_start r.1 = Some (map plan_q (doc_start doc)))
       ∧ (doc_goal doc ≠ [] → st_goal r.1 = Some (map plan_q (doc_goal doc)))).
Proof.
  intros Hdoc Hscene Hkin. unfold LoadPlanXml_body. unfold_M.
  rewrite Hdoc, Hscene, Hkin.
  match goal with
  | |- context [LoadKinematics_body E kinFile ?s] =>
      pose proof (LoadKinematics_body_parameters E kinFile s) as HK;
      destruct (LoadKinematics_body E kinFile s) as [st1 o1]
  end.
  destruct HK as (_ & HK1 & HK2 & HK3 & _). simpl in HK1, HK2, HK3.
  destruct o1 as [code| |]; simpl; try solve [finish].
  destruct (Z.eqb_spec code RL_SUCCESS); simpl; try solve [finish].
  match goal with
  | |- context [LoadScene_body E sceneFile ?i ?s] =>
      pose proof (LoadScene_body_parameters E sceneFile i s) as HS;
      destruct (LoadScene_body E sceneFile i s) as [st2 o2]
  end.
  destruct HS as (_ & HS1 & HS2 & HS3 & _). simpl in HS1, HS2, HS3.
  destruct o2 as [code2| |]; simpl; try solve [finish].
  destruct (Z.eqb_spec code2 RL_SUCCESS); simpl; try solve [finish].
  destruct (doc_start doc) as [|qs start] eqn:Hstart;
    destruct (doc_goal doc) as [|qg goal] eqn:Hgoal; simpl;
    destruct (createPlanner _ _ _ _ _ _); simpl; finish.
Qed.

Example demo_loaded_initialized :
  st_initialized <$> Demo.loaded = Some true ∧ GetDof Demo.engine Demo.loaded = 3.
Proof. vm_compute. split; reflexivity. Qed.

Example demo_planned :
  st_delta <$> Demo.planned = Some 0x1.657184ae74487p-4%float
  ∧ st_timeoutMs <$> Demo.planned = Some 2000
  ∧ Demo.planned ≫= st_goal
    = Some [1%float; 0x1.921fb54442d18p+0%float; 0.9%float].
Proof. vm_compute. repeat split; reflexivity. Qed.





(** ** The two parts of [PlanTrajectory] *)

(** [PlanTrajectory] on non-null arguments, by the outcome of its first part. *)
Lemma PlanTrajectory_unfold E st start startSize goal goalSize useZAxis plannerType
    delta epsilon timeoutMs buf maxWaypoints cnt :
  PlanTrajectory E (Some st) start startSize goal goalSize useZAxis plannerType
    delta epsilon timeoutMs (Some buf) maxWaypoints (Some cnt)
  = let world st' := {| pw_state := st'; pw_waypoints := buf; pw_waypointCount := cnt;
                        pw_call := None |} in
    let result code w := {| pr_ret := code; pr_state := Some (pw_state w);
                            pr_waypoints := Some (pw_waypoints w);
                            pr_waypointCount := Some (pw_waypointCount w);
                            pr_call := pw_call w |} in
    match bind_planner E start startSize goal goalSize useZAxis plannerType
            delta epsilon timeoutMs st with
    | (st', Returns (inl code)) => result code (world st')
    | (st', Returns (inr (dof, c))) =>
        match solve_and_copy E c dof maxWaypoints (world st') with
        | (w, Returns code) => result code w
        | (w, ThrowsStd) => result RL_ERROR_PLANNING_FAILED w
        | (w, ThrowsOther) => result RL_ERROR_EXCEPTION w
        end
    | (st', ThrowsStd) => result RL_ERROR_PLANNING_FAILED (world st')
    | (st', ThrowsOther) => result RL_ERROR_EXCEPTION (world st')
    end.
Proof.
  unfold PlanTrajectory, PlanTrajectory_body. unfold_M. simpl.
  destruct (bind_planner _ _ _ _ _ _ _ _ _ _ _) as [st' [[code|[dof c]]| |]];
    simpl; try reflexivity.
  destruct (solve_and_copy _ _ _ _ _) as [w [code| |]]; reflexivity.
Qed.

(** The second part never touches the session, and records its planner call. *)
Lemma solve_and_copy_session E c dof maxWaypoints w :
  pw_state (solve_and_copy E c dof maxWaypoints w).1 = pw_state w
  ∧ pw_call (solve_and_copy E c dof maxWaypoints w).1 = Some c.
Proof. unfold solve_and_copy. run_body; split; reflexivity. Qed.

(** When the second part returns [RL_SUCCESS], it has written the capped count and
    the rows of the optimized path. *)
Lemma solve_and_copy_success E c dof maxWaypoints w w' :
  solve_and_copy E c dof maxWaypoints w = (w', Returns RL_SUCCESS) →
  ∃ raw path,
    planner_getPath E c = Returns raw
    ∧ optimize E (pw_state w) raw = Returns path
    ∧ pw_waypointCount w' = capped_count path maxWaypoints
    ∧ pw_waypoints w'
      = copy_rows dof (capped_count path maxWaypoints) 0 path (pw_waypoints w).
Proof.
  unfold solve_and_copy. unfold_M. cbn [note_call pw_state].
  destruct (planner_verify E c) as [[]| |]; cbn; unfold_codes; try congruence.
  destruct (planner_solve E c) as [[]| |]; cbn; try congruence.
  destruct (planner_getPath E c) as [raw| |] eqn:Hraw; cbn; try congruence.
  destruct (optimize E (pw_state w) raw) as [path| |] eqn:Hopt; cbn; try congruence.
  intros [= <-]. exists raw, path. repeat split; first [reflexivity | assumption].
Qed.

(** When the first part hands over a planner call, the planning model has reported
    the number of joints. *)
Lemma bind_planner_dof E start startSize goal goalSize useZAxis plannerType
    delta epsilon timeoutMs st st' dof c :
  bind_planner E start startSize goal goalSize useZAxis plannerType
    delta epsilon timeoutMs st = (st', Returns (inr (dof, c))) →
  ∃ n, session_dof E st = Some n ∧ dof = static_cast_int n.
Proof.
  unfold bind_planner, session_dof. unfold_M.
  destruct (st_model st) as [m|]; [|simpl; congruence].
  destruct (negb (st_initialized st)); [simpl; congruence|].
  destruct (model_getDofPosition E m) as [n| |]; simpl; try congruence.
  intros H. exists n. split; [reflexivity|]. revert H.
  destruct (resolve_start _ _ _ _); [congruence|].
  destruct (resolve_goal _ _ _ _ _ _); [congruence|].
  destruct (st_planner st); simpl.
  - congruence.
  - destruct (create_components _ _ _ _ _ _) as [? [[|]| |]]; simpl; congruence.
Qed.

(** The codes the first part returns are [RL_ERROR_NOT_INITIALIZED] and
    [RL_ERROR_INVALID_PARAMETER]. *)
Lemma bind_planner_code E start startSize goal goalSize useZAxis plannerType
    delta epsilon timeoutMs st st' code :
  bind_planner E start startSize goal goalSize useZAxis plannerType
    delta epsilon timeoutMs st = (st', Returns (inl code)) →
  code = RL_ERROR_NOT_INITIALIZED ∨ code = RL_ERROR_INVALID_PARAMETER.
Proof.
  unfold bind_planner, create_components, resolve_start, resolve_goal.
  run_body; intros [= <- <-]; auto.
Qed.

Lemma PlanTrajectory_success E st start startSize goal goalSize useZAxis plannerType
    delta epsilon timeoutMs buf maxWaypoints cnt :
  let r := PlanTrajectory E (Some st) start startSize goal goalSize useZAxis plannerType
             delta epsilon timeoutMs (Some buf) maxWaypoints (Some cnt) in
  pr_ret r = RL_SUCCESS →
  ∃ n path,
    session_dof E st = Some n
    ∧ optimized_path E r = Some path
    ∧ pr_waypointCount r = Some (capped_count path maxWaypoints)
    ∧ pr_waypoints r
      = Some (copy_rows (static_cast_int n) (capped_count path maxWaypoints) 0 path buf).
Proof.
  intros r. subst r. rewrite PlanTrajectory_unfold. cbv zeta.
  destruct (bind_planner _ _ _ _ _ _ _ _ _ _ _) as [st' [[code|[dof c]]| |]] eqn:Hbind;
    simpl; unfold_codes; try discriminate.
  { (* the first part returned: its codes are errors *)
    intros ->. apply bind_planner_code in Hbind. unfold_codes. lia. }
  destruct (bind_planner_dof _ _ _ _ _ _ _ _ _ _ _ _ _ _ Hbind) as (n & Hn & ->).
  match goal with
  | |- context [solve_and_copy E c ?d maxWaypoints ?w] =>
      pose proof (solve_and_copy_session E c d maxWaypoints w) as [Hst Hcall];
      pose proof (solve_and_copy_success E c d maxWaypoints w) as Hok;
      destruct (solve_and_copy E c d maxWaypoints w) as [w' [code| |]]
  end; simpl in *; try discriminate.
  intros ->. destruct (Hok w' eq_refl) as (raw & path & Hraw & Hopt & Hcount & Hbuf).
  exists n, path. unfold optimized_path. simpl.
  rewrite Hcall, Hst, Hraw, Hopt, Hcount, Hbuf. repeat split; first [reflexivity | assumption].
Qed.

(** ** Arrays written cell by cell *)

Section FoldInsert.
Context {A : Type} (f : nat → nat) (g : nat → A).

Lemma foldl_insert_length js (buf : list A) : length (foldl (λ b j, <[f j := g j]> b) buf js) = length buf.
Proof.
  revert buf. induction js as [|j js IH]; intros buf; simpl; [reflexivity|].
  rewrite IH. apply length_insert.
Qed.

Lemma foldl_insert_other js (buf : list A) k :
  (∀ j, j ∈ js → f j ≠ k) → foldl (λ b j, <[f j := g j]> b) buf js !! k = buf !! k.
Proof.
  revert buf. induction js as [|j js IH]; intros buf Hk; simpl; [reflexivity|].
  rewrite IH by (intros j' Hj'; apply Hk; now right).
  apply list_lookup_insert_ne. apply Hk. now left.
Qed.

Lemma foldl_insert_cell js (buf : list A) j :
  NoDup js →
  (∀ a b, a ∈ js → b ∈ js → f a = f b → a = b) →
  j ∈ js → (f j < length buf)%nat →
  foldl (λ b j, <[f j := g j]> b) buf js !! f j = Some (g j).
Proof.
  revert buf. induction js as [|j0 js IH]; intros buf Hnd Hinj Hj Hlen; simpl.
  - inversion Hj.
  - apply NoDup_cons in Hnd as [Hj0 Hnd].
    apply elem_of_cons in Hj as [->|Hj].
    + rewrite foldl_insert_other.
      * now apply list_lookup_insert_eq.
      * intros j' Hj' Heq. apply Hj0.
        rewrite <- (Hinj j' j0); [assumption|now right|now left|assumption].
    + apply IH; try assumption.
      * intros a b Ha Hb. apply Hinj; now right.
      * now rewrite length_insert.
Qed.
End FoldInsert.

Section CopyRows.
Context (dof : Z) (Hdof : 0 ≤ dof).

Lemma length_write_row idx w buf : length (write_row dof idx w buf) = length buf.
Proof. unfold write_row. apply foldl_insert_length. Qed.

(** A row leaves the cells of the other rows alone. *)
Lemma write_row_other idx w buf k :
  0 ≤ idx →
  Z.of_nat k < idx * dof ∨ (idx + 1) * dof ≤ Z.of_nat k →
  write_row dof idx w buf !! k = buf !! k.
Proof.
  intros Hidx Hk. unfold write_row. apply foldl_insert_other.
  intros j Hj%elem_of_seq. nia.
Qed.

Lemma write_row_cell idx w buf j :
  0 ≤ idx → Z.of_nat j < dof →
  idx * dof + Z.of_nat j < Z.of_nat (length buf) →
  write_row dof idx w buf !! Z.to_nat (idx * dof + Z.of_nat j) = Some (vec_at w j).
Proof.
  intros Hidx Hj Hlen. unfold write_row.
  apply (foldl_insert_cell (λ j, Z.to_nat (idx * dof + Z.of_nat j)) (vec_at w)).
  - apply NoDup_seq.
  - intros a b _ _ Hab. nia.
  - apply elem_of_seq. lia.
  - nia.
Qed.

Lemma length_copy_rows count idx path buf :
  length (copy_rows dof count idx path buf) = length buf.
Proof.
  revert idx buf. induction path as [|w path IH]; intros idx buf; simpl; [reflexivity|].
  destruct (idx <? count); [|reflexivity]. rewrite IH. apply length_write_row.
Qed.

(** The copy loop writes only rows [idx] to [count - 1], and only as many as the
    path has. *)
Lemma copy_rows_other count idx path buf k :
  0 ≤ idx →
  Z.of_nat k < idx * dof ∨ count * dof ≤ Z.of_nat k
    ∨ (idx + Z.of_nat (length path)) * dof ≤ Z.of_nat k →
  copy_rows dof count idx path buf !! k = buf !! k.
Proof.
  revert idx buf. induction path as [|w path IH]; intros idx buf Hidx Hk; simpl;
    [reflexivity|].
  destruct (Z.ltb_spec idx count); [|reflexivity].
  rewrite IH.
  - apply write_row_other; [assumption|]. simpl length in Hk. nia.
  - lia.
  - simpl length in Hk. nia.
Qed.

(** Row [idx + i] of the output is waypoint [i] of the path. *)
Lemma copy_rows_cell count idx path buf i j w :
  0 ≤ idx →
  path !! i = Some w →
  idx + Z.of_nat i < count →
  Z.of_nat j < dof →
  (idx + Z.of_nat i) * dof + Z.of_nat j < Z.of_nat (length buf) →
  copy_rows dof count idx path buf !! Z.to_nat ((idx + Z.of_nat i) * dof + Z.of_nat j)
  = Some (vec_at w j).
Proof.
  revert idx buf i. induction path as [|w0 path IH]; intros idx buf i Hidx Hw Hi Hj Hlen.
  - inversion Hw.
  - simpl. destruct (Z.ltb_spec idx count); [|lia].
    destruct i as [|i]; simpl in Hw.
    + injection Hw as ->. rewrite copy_rows_other.
      * replace (idx + Z.of_nat 0) with idx by lia.
        apply write_row_cell; [assumption|assumption|lia].
      * lia.
      * left. nia.
    + replace (idx + Z.of_nat (S i)) with (idx + 1 + Z.of_nat i) in * by lia.
      apply IH; try assumption; try lia.
      rewrite length_write_row. assumption.
Qed.
End CopyRows.

(** ** C8: the waypoints in the output buffer *)

Lemma static_cast_int_fits n : Z.of_nat n ≤ INT_MAX → static_cast_int n = Z.of_nat n.
Proof.
  unfold static_cast_int, INT_MAX. intros H.
  rewrite Z.mod_small by lia. lia.
Qed.

Lemma capped_count_min path maxWaypoints :
  Z.of_nat (length path) ≤ INT_MAX →
  capped_count path maxWaypoints = Z.min (Z.of_nat (length path)) maxWaypoints.
Proof.
  intros H. unfold capped_count. rewrite static_cast_int_fits by assumption.
  destruct (Z.ltb_spec maxWaypoints (Z.of_nat (length path))); lia.
Qed.

(** A component inside a vector is read as it is. *)
Lemma lookup_vec_at (v : list float) i :
  (i < length v)%nat → v !! i = Some (vec_at v i).
Proof.
  intros H. unfold vec_at. destruct (lookup_lt_is_Some_2 v i H) as [x ->]. reflexivity.
Qed.

(** C8: after a [PlanTrajectory] call that returns RL_SUCCESS with [maxWaypoints]
    positive, [*waypointCount] is the minimum of the size of the optimized path and
    [maxWaypoints]; [waypoints[i * dof + j]] is [path[i][j]] for every row [i] below
    that count and every [j] below [dof]; and the cells from row [*waypointCount]
    on are as they were.  The sizes are those of a call where every read, write
    and [int] computation of the copy loop is defined: the number of joints, the
    path size and [maxWaypoints * dof], which bounds every index [i * dof + j],
    are representable as [int]; every waypoint of the path has [dof] components,
    so that [waypoint(j)] reads inside it; and the buffer has [maxWaypoints * dof]
    cells. *)
Theorem C8_waypoints_row_major E st start startSize goal goalSize useZAxis plannerType
    delta epsilon timeoutMs buf maxWaypoints cnt :
  let r := PlanTrajectory E (Some st) start startSize goal goalSize useZAxis plannerType
             delta epsilon timeoutMs (Some buf) maxWaypoints (Some cnt) in
  pr_ret r = RL_SUCCESS →
  0 < maxWaypoints →
  ∃ n path buf',
    session_dof E st = Some n
    ∧ optimized_path E r = Some path
    ∧ pr_waypoints r = Some buf'
    ∧ (Z.of_nat n ≤ INT_MAX →
       Z.of_nat (length path) ≤ INT_MAX →
       maxWaypoints * Z.of_nat n ≤ INT_MAX →
       maxWaypoints * Z.of_nat n ≤ Z.of_nat (length buf) →
       Forall (λ w : list float, length w = n) path →
       let count := Z.min (Z.of_nat (length path)) maxWaypoints in
       pr_waypointCount r = Some count
       ∧ (∀ i j w, Z.of_nat i < count → (j < n)%nat → path !! i = Some w →
            buf' !! (i * n + j)%nat = w !! j)
       ∧ (∀ k, count * Z.of_nat n ≤ Z.of_nat k → buf' !! k = buf !! k)
       ∧ length buf' = length buf).
Proof.
  intros r Hret Hmax.
  destruct (PlanTrajectory_success E st start startSize goal goalSize useZAxis
              plannerType delta epsilon timeoutMs buf maxWaypoints cnt Hret)
    as (n & path & Hn & Hpath & Hcount & Hbuf).
  fold r in Hpath, Hcount, Hbuf.
  exists n, path, (copy_rows (static_cast_int n) (capped_count path maxWaypoints) 0 path buf).
  split; [assumption|]. split; [assumption|]. split; [assumption|].
  intros Hfit Hsize Hindex Hroom Hrows. cbv zeta.
  rewrite capped_count_min, static_cast_int_fits by assumption.
  repeat split.
  - rewrite Hcount. now rewrite capped_count_min.
  - intros i j w Hi Hj Hw.
    rewrite (lookup_vec_at w j)
      by (rewrite (Forall_lookup_1 _ _ _ _ Hrows Hw); exact Hj).
    replace (i * n + j)%nat
      with (Z.to_nat ((0 + Z.of_nat i) * Z.of_nat n + Z.of_nat j)) by lia.
    apply copy_rows_cell; try assumption; try lia. nia.
  - intros k Hk.
    apply copy_rows_other; [lia|lia|]. right. left. exact Hk.
  - apply length_copy_rows.
Qed.

(** The first plan of the demo session: two waypoints of three joints each. *)
Lemma C8_witness :
  pr_waypointCount Demo.first_plan = Some 2
  ∧ ∃ buf', pr_waypoints Demo.first_plan = Some buf'
      ∧ buf' !! 2%nat = Some 0.3%float ∧ buf' !! 5%nat = Some 0.9%float.
Proof.
  destruct (C8_waypoints_row_major Demo.engine Demo.loaded_state
              (Some Demo.q_start) 3 (Some Demo.q_goal) 3 1 (Some "rrt"%string)
              0.1%float 0.001%float 5000 (replicate 6 7%float) 2 99)
    as (n & path & buf' & Hn & Hpath & Hbuf & H).
  - vm_compute. reflexivity.
  - lia.
  - vm_compute in Hn. injection Hn as <-.
    vm_compute in Hpath. injection Hpath as <-.
    destruct H as (Hcount & Hcell & _).
    + unfold INT_MAX. lia.
    + unfold INT_MAX. simpl. lia.
    + unfold INT_MAX. lia.
    + simpl. lia.
    + repeat constructor.
    + split; [exact Hcount|]. exists buf'. split; [exact Hbuf|]. split.
      * apply (Hcell 0%nat 2%nat Demo.q_start); [simpl; lia|lia|reflexivity].
      * apply (Hcell 1%nat 2%nat Demo.q_goal); [simpl; lia|lia|reflexivity].
Defined.

(** ** C10: a buffer with no room *)

(** A result that records a planner call comes from a first part that handed that
    call over. *)
Lemma PlanTrajectory_called E st start startSize goal goalSize useZAxis plannerType
    delta epsilon timeoutMs buf maxWaypoints cnt c :
  pr_call (PlanTrajectory E (Some st) start startSize goal goalSize useZAxis plannerType
             delta epsilon timeoutMs (Some buf) maxWaypoints (Some cnt)) = Some c →
  ∃ st' dof,
    bind_planner E start startSize goal goalSize useZAxis plannerType
      delta epsilon timeoutMs st = (st', Returns (inr (dof, c))).
Proof.
  rewrite PlanTrajectory_unfold. cbv zeta.
  destruct (bind_planner _ _ _ _ _ _ _ _ _ _ _) as [st' [[code|[dof c0]]| |]];
    simpl; try discriminate.
  match goal with
  | |- context [solve_and_copy E c0 dof maxWaypoints ?w] =>
      pose proof (solve_and_copy_session E c0 dof maxWaypoints w) as [_ Hcall];
      destruct (solve_and_copy E c0 dof maxWaypoints w) as [w' [code| |]]
  end; simpl in *; rewrite Hcall; intros [= ->]; eauto.
Qed.

(** The second part, when [verify()] and [solve()] succeed and the path comes back
    from the optimizer. *)
Lemma solve_and_copy_solved E c dof maxWaypoints w raw path :
  planner_verify E c = Returns true →
  planner_solve E c = Returns true →
  planner_getPath E c = Returns raw →
  optimize E (pw_state w) raw = Returns path →
  solve_and_copy E c dof maxWaypoints w
  = ({| pw_state := pw_state w;
        pw_waypoints := copy_rows dof (capped_count path maxWaypoints) 0 path
                          (pw_waypoints w);
        pw_waypointCount := capped_count path maxWaypoints;
        pw_call := Some c |}, Returns RL_SUCCESS).
Proof.
  intros Hv Hs Hraw Hopt. unfold solve_and_copy. unfold_M. cbn [note_call pw_state].
  rewrite Hv. cbn. rewrite Hs. cbn. rewrite Hraw. cbn. rewrite Hopt. reflexivity.
Qed.

Lemma copy_rows_no_room dof count path buf :
  count ≤ 0 → copy_rows dof count 0 path buf = buf.
Proof.
  intros H. destruct path; simpl; [reflexivity|].
  destruct (Z.ltb_spec 0 count); [lia|reflexivity].
Qed.

(** C10: when [maxWaypoints] is zero or negative and the planner call of a
    [PlanTrajectory] succeeds ([verify()] and [solve()] return true and the
    optimized path is there), the call returns RL_SUCCESS, sets [*waypointCount]
    to [maxWaypoints] itself, and leaves the buffer as it was. *)
Theorem C10_no_room_for_waypoints E st start startSize goal goalSize useZAxis plannerType
    delta epsilon timeoutMs buf maxWaypoints cnt c path :
  let r := PlanTrajectory E (Some st) start startSize goal goalSize useZAxis plannerType
             delta epsilon timeoutMs (Some buf) maxWaypoints (Some cnt) in
  maxWaypoints ≤ 0 →
  pr_call r = Some c →
  planner_verify E c = Returns true →
  planner_solve E c = Returns true →
  optimized_path E r = Some path →
  Z.of_nat (length path) ≤ INT_MAX →
  pr_ret r = RL_SUCCESS
  ∧ pr_waypointCount r = Some maxWaypoints
  ∧ pr_waypoints r = Some buf.
Proof.
  intros r Hmax Hcall Hv Hs Hpath Hsize.
  destruct (PlanTrajectory_called _ _ _ _ _ _ _ _ _ _ _ _ _ _ _ Hcall)
    as (st' & dof & Hbind).
  unfold optimized_path in Hpath. rewrite Hcall in Hpath. subst r.
  rewrite PlanTrajectory_unfold in *. cbv zeta in *. rewrite Hbind in *.
  match type of Hpath with
  | context [solve_and_copy E c dof maxWaypoints ?w] =>
      pose proof (solve_and_copy_session E c dof maxWaypoints w) as [Hst _];
      pose proof (solve_and_copy_solved E c dof maxWaypoints w) as Hrun
  end.
  simpl in Hst, Hrun.
  destruct (planner_getPath E c) as [raw| |] eqn:Hraw.
  2,3: destruct (solve_and_copy _ _ _ _ _) as [? [| |]]; discriminate.
  assert (Hopt : optimize E st' raw = Returns path).
  { destruct (solve_and_copy _ _ _ _ _) as [w' [| |]]; simpl in *; subst st';
      destruct (optimize E (pw_state w') raw); congruence. }
  rewrite (Hrun raw path Hv Hs eq_refl Hopt). simpl.
  assert (Hc : capped_count path maxWaypoints = maxWaypoints).
  { rewrite capped_count_min by assumption. lia. }
  rewrite Hc, copy_rows_no_room by assumption. repeat split.
Qed.

(** The demo session asked for a plan with [maxWaypoints = -1]. *)
Lemma C10_witness :
  let r := PlanTrajectory Demo.engine (Some Demo.loaded_state)
             (Some Demo.q_start) 3 (Some Demo.q_goal) 3 1 (Some "rrt"%string)
             0.1%float 0.001%float 5000 (Some (replicate 6 7%float)) (-1) (Some 99) in
  pr_ret r = RL_SUCCESS
  ∧ pr_waypointCount r = Some (-1)
  ∧ pr_waypoints r = Some (replicate 6 7%float).
Proof.
  eapply (C10_no_room_for_waypoints Demo.engine Demo.loaded_state).
  - lia.
  - vm_compute. reflexivity.
  - vm_compute. reflexivity.
  - vm_compute. reflexivity.
  - vm_compute. reflexivity.
  - simpl. unfold INT_MAX. lia.
Defined.

(** ** C2: [IsValidConfiguration] *)

Ltac no_way H :=
  let m' := fresh "m'" in let dof' := fresh "dof'" in
  destruct H as (m' & dof' & (? & ? & ? & ? & ? & ?) & ? & ? & ? & ?);
  simplify_eq;
  repeat match goal with
         | H : is_Some None |- _ => apply is_Some_None in H; contradiction
         | H : is_Some ?x, Heq : ?x = None |- _ => rewrite Heq in H
         | H : _ ∨ _ |- _ => destruct H
         end;
  try congruence.

Ltac rejected :=
  solve [split; [split; [discriminate | let H := fresh in intros H; no_way H] | auto]].

Lemma IsValidConfiguration_body_iff E st config n :
  ((IsValidConfiguration_body E config n st).2 = Returns 1
   ↔ valid_unless_rejected E st config n)
  ∧ ((IsValidConfiguration_body E config n st).2 = Returns 0
     ∨ (IsValidConfiguration_body E config n st).2 = Returns 1).
Proof.
  unfold IsValidConfiguration_body, obtain_verifier, valid_unless_rejected, session_ready,
    collision_verifier.
  unfold_M.
  destruct (st_model st) as [m|] eqn:Hm; simpl; [|rejected].
  destruct (st_initialized st) eqn:Hinit; simpl; [|rejected].
  destruct (st_kinematics st) as [k|] eqn:Hk; simpl; [|rejected].
  destruct (sm_kin m) as [a1|] eqn:Hkin, (sm_mdl m) as [a2|] eqn:Hmdl; simpl;
    [| | |rejected].
  all: destruct (sm_model m) as [a3|] eqn:Hrobot; simpl; [|rejected].
  all: destruct (sm_scene m) as [a4|] eqn:Hscene; simpl; [|rejected].
  all: destruct (model_getDofPosition E m) as [dof| |] eqn:Hdof; simpl; [|rejected..].
  all: destruct (Z.eqb_spec n (static_cast_int dof)) as [->|Hne]; simpl; [|rejected].
  all: destruct (model_isValid E m _) as [[|]| |] eqn:Hvalid; simpl; [|rejected..].
  all: destruct (st_verifier st) as [v|] eqn:Hver; simpl.
  all: destruct (verifier_isValid E _ _) as [[|]| |] eqn:Hcoll; simpl.
  all: first
    [ rejected
    | split; [split; [intros _|reflexivity]|auto];
      exists m, dof; rewrite ?Hkin, ?Hmdl, ?Hrobot, ?Hscene;
      repeat split; eauto; congruence ].
Qed.

(** C2, as the code has it: [IsValidConfiguration] returns 1 if and only if the
    handle and the array are not null, the session is initialized with kinematics
    present, the planning model has a kinematic or dynamic view and a scene and a
    robot model, [n] is the number of joints, the planning model accepts the
    configuration, and the verifier does not reject the path of length zero at it
    (it accepts it, or the check throws).  Every other outcome is 0; no negative
    code is returned. *)
Theorem C2_valid_unless_rejected E planner config n :
  ((IsValidConfiguration E planner config n).1 = 1
   ↔ ∃ st cfg, planner = Some st ∧ config = Some cfg
       ∧ valid_unless_rejected E st cfg n)
  ∧ ((IsValidConfiguration E planner config n).1 = 0
     ∨ (IsValidConfiguration E planner config n).1 = 1).
Proof.
  unfold IsValidConfiguration.
  destruct planner as [st|]; [destruct config as [cfg|]|]; simpl.
  - unfold run.
    pose proof (IsValidConfiguration_body_iff E st cfg n) as [Hiff Hbool].
    destruct (IsValidConfiguration_body E cfg n st) as [st' o]. simpl in *.
    split.
    + split.
      * intros H. exists st, cfg. repeat split. apply Hiff.
        destruct o; simpl in H; [now subst|discriminate..].
      * intros (st0 & cfg0 & [= <-] & [= <-] & H). apply Hiff in H.
        now rewrite H.
    + destruct Hbool as [-> | ->]; auto.
  - split; [|auto]. split; [discriminate|]. now intros (? & ? & _ & ? & _).
  - split; [|auto]. split; [discriminate|]. now intros (? & ? & ? & _).
Qed.

(** With "the verifier accepts" in place of "the verifier does not reject" the
    equivalence fails: when the collision check throws, the call returns 1 although
    the verifier has not accepted the configuration. *)
Lemma C2_counterexample :
  ¬ ((IsValidConfiguration Demo.engine_verifier_throws (Some Demo.loaded_state)
        (Some Demo.q_start) 3).1 = 1
     ↔ definitely_valid Demo.engine_verifier_throws Demo.loaded_state Demo.q_start 3).
Proof.
  intros [H _]. destruct (H eq_refl) as (m & dof & _ & _ & _ & _ & Hv).
  simpl in Hv. discriminate.
Qed.

(** ** The planner a [PlanTrajectory] call uses *)

(** What [create_components] leaves alone. *)
Lemma create_components_frame m plannerType delta epsilon timeoutMs st :
  let st1 := (create_components m plannerType delta epsilon timeoutMs st).1 in
  st_start st1 = st_start st ∧ st_goal st1 = st_goal st
  ∧ st_model st1 = st_model st ∧ st_kinematics st1 = st_kinematics st
  ∧ st_initialized st1 = st_initialized st ∧ st_optimizer st1 = st_optimizer st.
Proof. unfold create_components. run_body; repeat split. Qed.

(** The planner [create_components] builds, and what it stores. *)
Lemma create_components_planner m plannerType delta epsilon timeoutMs st st1 p0 :
  create_components m plannerType delta epsilon timeoutMs st = (st1, Returns (inr p0)) →
  let useDelta := if (0 <? delta)%float then delta else st_delta st in
  let useEpsilon := if (0 <? epsilon)%float then epsilon else st_epsilon st in
  let useTimeout := if 0 <? timeoutMs then timeoutMs else st_timeoutMs st in
  st_planner st1 = Some p0
  ∧ planner_duration p0 = Some useTimeout
  ∧ (planner_params p0 = RrtParams useDelta useEpsilon
     ∨ planner_params p0 = RrtConConParams useDelta useEpsilon
     ∨ planner_params p0 = RrtGoalBiasParams useDelta useEpsilon 0.05%float
     ∨ planner_params p0 = PrmParams 30 (st_verifier st1))
  ∧ st_verifier st1
    = Some (default {| verifier_delta := useDelta; verifier_model := Some m |}
              (st_verifier st))
  ∧ st_delta st1 = useDelta ∧ st_epsilon st1 = useEpsilon
  ∧ st_timeoutMs st1 = useTimeout.
Proof.
  unfold create_components, createPlanner. unfold_M.
  destruct (st_sampler st), (st_verifier st) eqn:Hv, (st_nearestNeighbors st); simpl;
    repeat (case_step; simpl; try congruence);
    intros [= <- <-]; simpl; rewrite ?Hv; simpl; repeat split; auto.
Qed.

(** The planner call the first part of [PlanTrajectory] hands over: its vectors are
    the resolved start and goal, and its planner is the session's planner, or the
    one just created, with start, goal and a positive timeout bound to it. *)
Lemma bind_planner_call E start startSize goal goalSize useZAxis plannerType
    delta epsilon timeoutMs st st' dof c :
  bind_planner E start startSize goal goalSize useZAxis plannerType
    delta epsilon timeoutMs st = (st', Returns (inr (dof, c))) →
  ∃ m startVec goalVec p0 st1,
    st_model st = Some m
    ∧ st_initialized st = true
    ∧ resolve_start st start startSize dof = inr startVec
    ∧ resolve_goal st startVec goal goalSize dof useZAxis = inr goalVec
    ∧ call_start c = deref st startVec
    ∧ call_goal c = deref st goalVec
    ∧ call_planner c = bound_planner startVec goalVec timeoutMs p0
    ∧ st' = set_planner (Some (call_planner c)) st1
    ∧ match st_planner st with
      | Some p => p0 = p ∧ st1 = st
      | None =>
          create_components m plannerType delta epsilon timeoutMs st
          = (st1, Returns (inr p0))
      end.
Proof.
  unfold bind_planner. unfold_M.
  destruct (st_model st) as [m|]; [|simpl; congruence].
  destruct (st_initialized st); [|simpl; congruence]. simpl.
  destruct (model_getDofPosition E m) as [n| |]; simpl; try congruence.
  destruct (resolve_start _ _ _ _) as [|startVec] eqn:Hs; [congruence|].
  destruct (resolve_goal _ _ _ _ _ _) as [|goalVec] eqn:Hg; [congruence|].
  destruct (st_planner st) as [p|] eqn:Hp; simpl.
  - intros [= <- <- <-]. exists m, startVec, goalVec, p, st.
    assert (Hd : ∀ x v, deref (set_planner x st) v = deref st v)
      by (intros x []; reflexivity).
    repeat split; first [reflexivity | assumption | apply Hd].
  - pose proof (create_components_frame m plannerType delta epsilon timeoutMs st)
      as (Hfs & Hfg & _).
    destruct (create_components _ _ _ _ _ _) as [st1 [[code|p0]| |]] eqn:Hcc;
      simpl in *; try congruence.
    intros [= <- <- <-]. exists m, startVec, goalVec, p0, st1.
    assert (Hd : ∀ x v, deref (set_planner x st1) v = deref st v)
      by (intros x []; simpl; congruence).
    repeat split; first [reflexivity | assumption | apply Hd].
Qed.

(** ** C1: the Z-axis constraint *)

Lemma length_copy_array a dof : length (copy_array a dof) = Z.to_nat dof.
Proof. unfold copy_array. now rewrite length_fmap, length_seq. Qed.

Lemma lookup_copy_array a dof j :
  (j < Z.to_nat dof)%nat → copy_array a dof !! j = Some (vec_at a j).
Proof.
  intros Hj. unfold copy_array. rewrite list_lookup_fmap.
  rewrite lookup_seq_lt by assumption. reflexivity.
Qed.

(** [constrainZAxis] on the last index: the last component is the one of [start],
    the others are kept. *)
Lemma constrainZAxis_last goal start dof :
  3 ≤ dof → length goal = Z.to_nat dof →
  constrainZAxis goal start (dof - 1) !! Z.to_nat (dof - 1)
  = Some (vec_at start (Z.to_nat (dof - 1)))
  ∧ ∀ j, (j < Z.to_nat (dof - 1))%nat →
      constrainZAxis goal start (dof - 1) !! j = goal !! j.
Proof.
  intros Hdof Hlen. unfold constrainZAxis.
  destruct (Z.leb_spec 0 (dof - 1)); [|lia].
  destruct (Z.ltb_spec (dof - 1) (Z.of_nat (length goal))); [|lia]. simpl. split.
  - apply list_lookup_insert_eq. lia.
  - intros j Hj. apply list_lookup_insert_ne. lia.
Qed.

(** The start vector of a call is never the null pointer. *)
Lemma resolve_start_not_null st start startSize dof startVec :
  resolve_start st start startSize dof = inr startVec → is_null startVec = false.
Proof.
  unfold resolve_start.
  destruct (provided start startSize); [destruct (negb _)|destruct (st_start st)];
    intros [= <-]; reflexivity.
Qed.

(** C1, as the code has it: in a [PlanTrajectory] call with [useZAxis = 0] on a
    session with at least three joints, a goal vector that comes from the [goal]
    parameter is used with its last component replaced by the last component of the
    start vector of the call, and its other components as given, when that start
    vector has as many components as the session has joints; a goal vector that
    comes from the session's stored goal is used as it is stored.  The start
    vector of a call is not always that long: [LoadPlanXml] stores a start of any
    size, and [constrainZAxis] checks its index against the goal only, so that
    [start(dof - 1)] is then a read outside the vector. *)
Theorem C1_z_axis_on_goal_parameter E st start startSize goal goalSize plannerType
    delta epsilon timeoutMs buf maxWaypoints cnt n c :
  let r := PlanTrajectory E (Some st) start startSize goal goalSize 0 plannerType
             delta epsilon timeoutMs (Some buf) maxWaypoints (Some cnt) in
  session_dof E st = Some n →
  (3 ≤ n)%nat →
  Z.of_nat n ≤ INT_MAX →
  pr_call r = Some c →
  (∀ g, goal = Some g → 0 < goalSize →
     length (call_start c) = n →
     call_goal c !! (n - 1)%nat = call_start c !! (n - 1)%nat
     ∧ ∀ j, (j < n - 1)%nat → call_goal c !! j = Some (vec_at g j))
  ∧ (provided goal goalSize = None → st_goal st = Some (call_goal c)).
Proof.
  intros r Hn H3 Hfit Hcall.
  destruct (PlanTrajectory_called _ _ _ _ _ _ _ _ _ _ _ _ _ _ _ Hcall)
    as (st' & dof & Hbind).
  destruct (bind_planner_dof _ _ _ _ _ _ _ _ _ _ _ _ _ _ Hbind) as (n' & Hn' & ->).
  rewrite Hn in Hn'. injection Hn' as <-.
  destruct (bind_planner_call _ _ _ _ _ _ _ _ _ _ _ _ _ _ Hbind)
    as (m & startVec & goalVec & p0 & st1 & _ & _ & Hs & Hg & Hcs & Hcg & _).
  rewrite static_cast_int_fits in Hs, Hg by assumption.
  apply resolve_start_not_null in Hs. unfold resolve_goal in Hg. split.
  - intros g -> Hsize Hlen. simpl in Hg.
    destruct (Z.ltb_spec 0 goalSize); [|lia].
    destruct (negb (goalSize =? Z.of_nat n)); [discriminate|].
    destruct (Z.leb_spec 3 (Z.of_nat n)); [|lia]. rewrite Hs in Hg. simpl in Hg.
    injection Hg as <-. rewrite Hcs in Hlen. rewrite Hcg, Hcs. simpl.
    destruct (constrainZAxis_last (copy_array g (Z.of_nat n)) (deref st startVec)
                (Z.of_nat n)) as [Hlast Hrest]; [lia|apply length_copy_array|].
    replace (Z.to_nat (Z.of_nat n - 1)) with (n - 1)%nat in * by lia.
    split; [rewrite Hlast; symmetry; apply lookup_vec_at; lia|].
    intros j Hj. rewrite Hrest by assumption. apply lookup_copy_array. lia.
  - intros Hnone. rewrite Hnone in Hg.
    destruct (st_goal st) as [v|] eqn:Hv; [|discriminate].
    injection Hg as <-. rewrite Hcg. simpl. now rewrite Hv.
Qed.

(** The scenario of the spec: three joints, start (0, 0, 0.3), goal (1, 1, 0.9)
    passed as parameters; the planner gets the goal (1, 1, 0.3). *)
Lemma C1_witness :
  ∃ c, pr_call (PlanTrajectory Demo.engine (Some Demo.loaded_state)
                  (Some Demo.q_start) 3 (Some Demo.q_goal) 3 0 (Some "rrt"%string)
                  0.1%float 0.001%float 5000 (Some (replicate 6 7%float)) 2 (Some 99))
       = Some c
    ∧ call_goal c !! 2%nat = Some 0.3%float
    ∧ call_goal c !! 0%nat = Some 1%float.
Proof.
  eexists. split; [vm_compute; reflexivity|].
  match goal with
  | |- ?x !! _ = _ ∧ _ =>
      match x with
      | call_goal ?c =>
          destruct (C1_z_axis_on_goal_parameter Demo.engine Demo.loaded_state
                      (Some Demo.q_start) 3 (Some Demo.q_goal) 3 (Some "rrt"%string)
                      0.1%float 0.001%float 5000 (replicate 6 7%float) 2 99 3%nat c)
            as [H _]
      end
  end.
  - vm_compute. reflexivity.
  - lia.
  - unfold INT_MAX. lia.
  - vm_compute. reflexivity.
  - destruct (H Demo.q_goal eq_refl) as [Hlast Hrest]; [lia|reflexivity|]. split.
    + exact Hlast.
    + apply (Hrest 0%nat). lia.
Defined.

(** The constraint does not reach a stored goal: with the start and goal of the
    descriptor stored on the session and [useZAxis = 0], the planner gets the
    stored goal, whose last component 0.9 is not the 0.3 of the start. *)
Lemma C1_counterexample :
  ∃ c, pr_call (PlanTrajectory Demo.engine (Some Demo.planned_state)
                  None 0 None 0 0 None 0%float 0%float 0
                  (Some (replicate 6 7%float)) 2 (Some 99))
       = Some c
    ∧ session_dof Demo.engine Demo.planned_state = Some 3%nat
    ∧ call_start c !! 2%nat = Some 0.3%float
    ∧ call_goal c !! 2%nat = Some 0.9%float
    ∧ call_goal c !! 2%nat ≠ Some (vec_at (call_start c) 2).
Proof.
  eexists. split; [vm_compute; reflexivity|]. repeat split.
  intros H.
  apply (f_equal (λ o, match o with
                       | Some x => (x <? 0.5)%float
                       | None => false
                       end)) in H.
  vm_compute in H. discriminate.
Qed.

(** ** C6: an unknown planner type *)

Lemma createPlanner_unknown s sampler verifier nearestNeighbors delta epsilon :
  known_plannerType s = false →
  createPlanner s sampler verifier nearestNeighbors delta epsilon = None.
Proof.
  unfold known_plannerType, createPlanner. intros H.
  repeat (apply orb_false_elim in H as [H ?]).
  repeat match goal with Heq : (_ =? _)%string = false |- _ => rewrite Heq; clear Heq end.
  reflexivity.
Qed.

Lemma createPlanner_known s sampler verifier nearestNeighbors delta epsilon :
  known_plannerType s = true →
  is_Some (createPlanner s sampler verifier nearestNeighbors delta epsilon).
Proof.
  unfold known_plannerType, createPlanner. intros H.
  repeat match goal with
         | |- context [(s =? ?t)%string] => destruct (s =? t)%string; simpl in *
         end;
    solve [eauto | discriminate].
Qed.

Lemma choose_plannerType_given st s : s ≠ EmptyString → choose_plannerType st (Some s) = s.
Proof.
  intros Hs. unfold choose_plannerType.
  apply String.eqb_neq in Hs. now rewrite Hs.
Qed.

(** Without a planner on the session, an unknown type makes the first part of
    [PlanTrajectory] return [RL_ERROR_INVALID_PARAMETER]. *)
Lemma bind_planner_unknown E start startSize goal goalSize useZAxis s
    delta epsilon timeoutMs st n :
  st_initialized st = true →
  session_dof E st = Some n →
  st_planner st = None →
  s ≠ EmptyString →
  known_plannerType s = false →
  (bind_planner E start startSize goal goalSize useZAxis (Some s)
     delta epsilon timeoutMs st).2 = Returns (inl RL_ERROR_INVALID_PARAMETER).
Proof.
  intros Hinit Hn Hp Hs Hk. unfold session_dof in Hn.
  unfold bind_planner. unfold_M.
  destruct (st_model st) as [m|]; [|discriminate]. rewrite Hinit. simpl.
  destruct (model_getDofPosition E m) as [n'| |]; try discriminate. simpl.
  unfold resolve_start, resolve_goal.
  destruct (provided start startSize);
    [destruct (negb (startSize =? _)); [reflexivity|]
    |destruct (st_start st); [|reflexivity]].
  all: destruct (provided goal goalSize);
    [destruct (negb (goalSize =? _)); [reflexivity|]
    |destruct (st_goal st); [|reflexivity]].
  all: rewrite Hp; unfold create_components; unfold_M.
  all: destruct (st_sampler st), (st_verifier st), (st_nearestNeighbors st);
    cbn -[choose_plannerType createPlanner].
  all: rewrite choose_plannerType_given by assumption.
  all: rewrite createPlanner_unknown by assumption.
  all: reflexivity.
Qed.

(** With a planner on the session, the first part of [PlanTrajectory] does not
    read the planner type. *)
Lemma bind_planner_reuse E start startSize goal goalSize useZAxis plannerType other
    delta epsilon timeoutMs st :
  is_Some (st_planner st) →
  bind_planner E start startSize goal goalSize useZAxis plannerType
    delta epsilon timeoutMs st
  = bind_planner E start startSize goal goalSize useZAxis other
      delta epsilon timeoutMs st.
Proof.
  intros [p Hp]. unfold bind_planner. unfold_M. rewrite Hp. reflexivity.
Qed.

(** C6, as the code has it: a [PlanTrajectory] call on an initialized session that
    has no planner yet, with a planner type that is not empty and is none of the
    strings [createPlanner] knows, returns [RL_ERROR_INVALID_PARAMETER]; on a
    session that has a planner, the call does not depend on the planner type. *)
Theorem C6_unknown_type_without_planner E st start startSize goal goalSize useZAxis s
    delta epsilon timeoutMs buf maxWaypoints cnt :
  (∀ n, st_initialized st = true →
        session_dof E st = Some n →
        st_planner st = None →
        s ≠ EmptyString →
        known_plannerType s = false →
        pr_ret (PlanTrajectory E (Some st) start startSize goal goalSize useZAxis
                  (Some s) delta epsilon timeoutMs (Some buf) maxWaypoints (Some cnt))
        = RL_ERROR_INVALID_PARAMETER)
  ∧ (is_Some (st_planner st) →
     ∀ other,
       PlanTrajectory E (Some st) start startSize goal goalSize useZAxis (Some s)
         delta epsilon timeoutMs (Some buf) maxWaypoints (Some cnt)
       = PlanTrajectory E (Some st) start startSize goal goalSize useZAxis other
           delta epsilon timeoutMs (Some buf) maxWaypoints (Some cnt)).
Proof.
  split.
  - intros n Hinit Hn Hp Hs Hk. rewrite PlanTrajectory_unfold. cbv zeta.
    pose proof (bind_planner_unknown E start startSize goal goalSize useZAxis s
                  delta epsilon timeoutMs st n Hinit Hn Hp Hs Hk) as H.
    destruct (bind_planner _ _ _ _ _ _ _ _ _ _ _) as [st' o]. simpl in H. subst o.
    reflexivity.
  - intros Hp other. rewrite !PlanTrajectory_unfold.
    now rewrite (bind_planner_reuse E _ _ _ _ _ (Some s) other).
Qed.

(** The scenario of the spec: type "sbl" on a session that was only loaded. *)
Lemma C6_witness :
  pr_ret (PlanTrajectory Demo.engine (Some Demo.loaded_state)
            (Some Demo.q_start) 3 (Some Demo.q_goal) 3 1 (Some "sbl"%string)
            0.1%float 0.001%float 5000 (Some (replicate 6 7%float)) 2 (Some 99))
  = RL_ERROR_INVALID_PARAMETER.
Proof.
  apply (proj1 (C6_unknown_type_without_planner Demo.engine Demo.loaded_state _ _ _ _ _
                  _ _ _ _ _ _ _) 3%nat).
  - reflexivity.
  - reflexivity.
  - reflexivity.
  - discriminate.
  - reflexivity.
Defined.

(** With a planner on the session the type is not looked at: after
    [LoadPlanXml], a call with the unknown type "sbl" plans with the planner of the
    session and returns [RL_SUCCESS]. *)
Lemma C6_counterexample :
  st_initialized Demo.planned_state = true
  ∧ is_Some (st_planner Demo.planned_state)
  ∧ known_plannerType "sbl" = false
  ∧ pr_ret (PlanTrajectory Demo.engine (Some Demo.planned_state)
              None 0 None 0 1 (Some "sbl"%string) 0%float 0%float 0
              (Some (replicate 6 7%float)) 2 (Some 99))
    ≠ RL_ERROR_INVALID_PARAMETER.
Proof.
  repeat split.
  - vm_compute. eauto.
  - vm_compute. discriminate.
Qed.

(** ** C7: the parameters a call plans with *)

(** The session a call that reached its planner leaves behind is the one its first
    part produced. *)
Lemma PlanTrajectory_call_state E st start startSize goal goalSize useZAxis plannerType
    delta epsilon timeoutMs buf maxWaypoints cnt c :
  let r := PlanTrajectory E (Some st) start startSize goal goalSize useZAxis plannerType
             delta epsilon timeoutMs (Some buf) maxWaypoints (Some cnt) in
  pr_call r = Some c →
  ∃ st' dof,
    bind_planner E start startSize goal goalSize useZAxis plannerType
      delta epsilon timeoutMs st = (st', Returns (inr (dof, c)))
    ∧ pr_state r = Some st'.
Proof.
  intros r. subst r. rewrite PlanTrajectory_unfold. cbv zeta.
  destruct (bind_planner _ _ _ _ _ _ _ _ _ _ _) as [st' [[code|[dof c0]]| |]];
    simpl; try discriminate.
  match goal with
  | |- context [solve_and_copy E c0 dof maxWaypoints ?w] =>
      pose proof (solve_and_copy_session E c0 dof maxWaypoints w) as [Hst Hcall];
      destruct (solve_and_copy E c0 dof maxWaypoints w) as [w' [code| |]]
  end; simpl in *; rewrite Hcall, Hst; intros [= ->]; eauto.
Qed.

Lemma bound_planner_params startVec goalVec timeoutMs p :
  planner_params (bound_planner startVec goalVec timeoutMs p) = planner_params p.
Proof. unfold bound_planner. destruct (0 <? timeoutMs); reflexivity. Qed.

Lemma bound_planner_duration startVec goalVec timeoutMs p :
  planner_duration (bound_planner startVec goalVec timeoutMs p)
  = if 0 <? timeoutMs then Some timeoutMs else planner_duration p.
Proof. unfold bound_planner. destruct (0 <? timeoutMs); reflexivity. Qed.

(** C7, as the code has it.  In a [PlanTrajectory] call that reaches its planner:
    a positive [timeoutMs] is the duration the planner runs with.  When the
    session has no planner and one is created in the call, it is created with the
    positive [delta], [epsilon] and [timeoutMs] arguments, and with the stored
    session values for the arguments that are zero or negative; a verifier created
    in the same call gets that delta, and a verifier that is already on the
    session is kept.  When the session has a planner, the call uses
    it with the parameters it was created with, whatever [delta] and [epsilon] are;
    a [timeoutMs] that is zero or negative leaves its duration as it is; and the
    verifier of the session stays. *)
Theorem C7_effective_parameters E st start startSize goal goalSize useZAxis plannerType
    delta epsilon timeoutMs buf maxWaypoints cnt c :
  let r := PlanTrajectory E (Some st) start startSize goal goalSize useZAxis plannerType
             delta epsilon timeoutMs (Some buf) maxWaypoints (Some cnt) in
  let p := call_planner c in
  let useDelta := if (0 <? delta)%float then delta else st_delta st in
  let useEpsilon := if (0 <? epsilon)%float then epsilon else st_epsilon st in
  pr_call r = Some c →
  (0 < timeoutMs → planner_duration p = Some timeoutMs)
  ∧ (st_planner st = None →
       planner_duration p = Some (if 0 <? timeoutMs then timeoutMs else st_timeoutMs st)
       ∧ (∀ d, params_delta (planner_params p) = Some d → d = useDelta)
       ∧ (∀ e, params_epsilon (planner_params p) = Some e → e = useEpsilon)
       ∧ (st_verifier st = None →
            ∃ st', pr_state r = Some st'
              ∧ verifier_delta <$> st_verifier st' = Some useDelta)
       ∧ (∀ v, st_verifier st = Some v →
            ∃ st', pr_state r = Some st' ∧ st_verifier st' = Some v))
  ∧ (∀ p0, st_planner st = Some p0 →
       planner_params p = planner_params p0
       ∧ (timeoutMs ≤ 0 → planner_duration p = planner_duration p0)
       ∧ ∃ st', pr_state r = Some st' ∧ st_verifier st' = st_verifier st).
Proof.
  intros r p useDelta useEpsilon Hcall.
  destruct (PlanTrajectory_call_state _ _ _ _ _ _ _ _ _ _ _ _ _ _ _ Hcall)
    as (st' & dof & Hbind & Hstate).
  destruct (bind_planner_call _ _ _ _ _ _ _ _ _ _ _ _ _ _ Hbind)
    as (m & startVec & goalVec & p0 & st1 & _ & _ & _ & _ & _ & _ & Hp & Hst' & Hprov).
  fold p in Hp. fold r in Hstate. subst useDelta useEpsilon. repeat apply conj.
  - intros Ht. rewrite Hp, bound_planner_duration.
    destruct (Z.ltb_spec 0 timeoutMs); [reflexivity|lia].
  - intros Hnone. rewrite Hnone in Hprov.
    destruct (create_components_planner _ _ _ _ _ _ _ _ Hprov)
      as (_ & Hdur & Hparams & Hver & _).
    rewrite Hp, bound_planner_duration, bound_planner_params, Hdur.
    repeat split.
    + destruct (0 <? timeoutMs); reflexivity.
    + intros d. destruct Hparams as [-> | [-> | [-> | ->]]]; simpl; congruence.
    + intros e. destruct Hparams as [-> | [-> | [-> | ->]]]; simpl; congruence.
    + intros Hv. exists st'. split; [assumption|].
      rewrite Hst'. simpl. rewrite Hver, Hv. reflexivity.
    + intros v Hv. exists st'. split; [assumption|].
      rewrite Hst'. simpl. rewrite Hver, Hv. reflexivity.
  - intros p1 Hsome. rewrite Hsome in Hprov. destruct Hprov as [-> ->].
    rewrite Hp, bound_planner_params, bound_planner_duration. repeat split.
    + intros Ht. destruct (Z.ltb_spec 0 timeoutMs); [lia|reflexivity].
    + exists st'. split; [assumption|]. rewrite Hst'. reflexivity.
Qed.

(** A first call on the loaded demo session, with delta 0.25 and a timeout of 5 s:
    the planner is created with them. *)
Lemma C7_witness :
  ∃ c, pr_call (PlanTrajectory Demo.engine (Some Demo.loaded_state)
                  (Some Demo.q_start) 3 (Some Demo.q_goal) 3 1 (Some "rrt"%string)
                  0.25%float 0%float 5000 (Some (replicate 6 7%float)) 2 (Some 99))
       = Some c
    ∧ planner_duration (call_planner c) = Some 5000
    ∧ planner_params (call_planner c) = RrtParams 0.25%float 0.001%float.
Proof.
  eexists. split; [vm_compute; reflexivity|].
  match goal with
  | |- planner_duration (call_planner ?c) = _ ∧ _ =>
      destruct (C7_effective_parameters Demo.engine Demo.loaded_state
                  (Some Demo.q_start) 3 (Some Demo.q_goal) 3 1 (Some "rrt"%string)
                  0.25%float 0%float 5000 (replicate 6 7%float) 2 99 c)
        as (Hdur & _ & _)
  end.
  - vm_compute. reflexivity.
  - split; [apply Hdur; lia|]. vm_compute. reflexivity.
Defined.

(** Positive arguments do not reach a planner that is reused: after
    [LoadPlanXml] with a delta of 5 degrees, a call with [delta = 0.5] and
    [epsilon = 0.25] plans with the delta and epsilon of the descriptor, and the
    verifier keeps the delta of the descriptor. *)
Lemma C7_counterexample :
  let r := PlanTrajectory Demo.engine (Some Demo.planned_state)
             None 0 None 0 1 None 0.5%float 0.25%float 0
             (Some (replicate 6 7%float)) 2 (Some 99) in
  (0 <? 0.5)%float = true
  ∧ (0 <? 0.25)%float = true
  ∧ (planner_params ∘ call_planner) <$> pr_call r
    = Some (RrtParams (5 * deg2rad)%float 0.001%float)
  ∧ (planner_params ∘ call_planner) <$> pr_call r
    ≠ Some (RrtParams 0.5%float 0.25%float)
  ∧ (pr_state r ≫= st_verifier) ≫= (Some ∘ verifier_delta)
    = Some (5 * deg2rad)%float.
Proof.
  repeat split.
  intros H. vm_compute in H.
  apply (f_equal (λ o, match o with
                       | Some (RrtParams d _) => (d <? 0.25)%float
                       | _ => false
                       end)) in H.
  vm_compute in H. discriminate.
Qed.

(** ** C3: what an error return leaves in the outputs *)

(** When [verify()] returns false, the call returns [RL_ERROR_PLANNING_FAILED] and
    writes neither the buffer nor the count. *)
Lemma PlanTrajectory_verify_failure E st start startSize goal goalSize useZAxis
    plannerType delta epsilon timeoutMs buf maxWaypoints cnt c :
  let r := PlanTrajectory E (Some st) start startSize goal goalSize useZAxis plannerType
             delta epsilon timeoutMs (Some buf) maxWaypoints (Some cnt) in
  pr_call r = Some c →
  planner_verify E c = Returns false →
  pr_ret r = RL_ERROR_PLANNING_FAILED
  ∧ pr_waypoints r = Some buf
  ∧ pr_waypointCount r = Some cnt.
Proof.
  intros r Hcall Hv.
  destruct (PlanTrajectory_called _ _ _ _ _ _ _ _ _ _ _ _ _ _ _ Hcall)
    as (st' & dof & Hbind).
  subst r. rewrite PlanTrajectory_unfold. cbv zeta. rewrite Hbind.
  unfold solve_and_copy. unfold_M. cbn [note_call pw_state].
  rewrite Hv. repeat split.
Qed.

(** The outputs of a call: untouched; or a count of 0 written with
    [RL_ERROR_PLANNING_FAILED]; or written by a call that returns [RL_SUCCESS]. *)
Lemma PlanTrajectory_outputs E st start startSize goal goalSize useZAxis plannerType
    delta epsilon timeoutMs buf maxWaypoints cnt :
  let r := PlanTrajectory E (Some st) start startSize goal goalSize useZAxis plannerType
             delta epsilon timeoutMs (Some buf) maxWaypoints (Some cnt) in
  (pr_waypoints r = Some buf ∧ pr_waypointCount r = Some cnt)
  ∨ (pr_ret r = RL_ERROR_PLANNING_FAILED
     ∧ pr_waypoints r = Some buf ∧ pr_waypointCount r = Some 0)
  ∨ pr_ret r = RL_SUCCESS.
Proof.
  intros r. subst r. rewrite PlanTrajectory_unfold. cbv zeta.
  destruct (bind_planner _ _ _ _ _ _ _ _ _ _ _) as [st' [[code|[dof c]]| |]];
    simpl; auto.
  unfold solve_and_copy. unfold_M. cbn [note_call pw_state].
  destruct (planner_verify E c) as [[]| |]; cbn; auto.
  destruct (planner_solve E c) as [[]| |]; cbn; auto.
  destruct (planner_getPath E c) as [raw| |]; cbn; auto.
  destruct (optimize E st' raw) as [path| |]; cbn; auto.
Qed.

(** On every error return other than [RL_ERROR_PLANNING_FAILED], buffer and count
    are as the caller left them. *)
Lemma PlanTrajectory_error_outputs E st start startSize goal goalSize useZAxis
    plannerType delta epsilon timeoutMs buf maxWaypoints cnt :
  let r := PlanTrajectory E (Some st) start startSize goal goalSize useZAxis plannerType
             delta epsilon timeoutMs (Some buf) maxWaypoints (Some cnt) in
  pr_ret r ≠ RL_SUCCESS →
  pr_ret r ≠ RL_ERROR_PLANNING_FAILED →
  pr_waypoints r = Some buf ∧ pr_waypointCount r = Some cnt.
Proof.
  intros r H1 H2.
  destruct (PlanTrajectory_outputs E st start startSize goal goalSize useZAxis
              plannerType delta epsilon timeoutMs buf maxWaypoints cnt)
    as [H | [[H _] | H]]; fold r in H; [exact H|contradiction..].
Qed.

(** C3 at a goal that [verify()] rejects, and at a [solve()] that throws: the call
    returns [RL_ERROR_PLANNING_FAILED] and [*waypointCount] still holds the 99 the
    caller put there; only a [solve()] that returns false sets it to 0. *)
Theorem C3_count_not_reset :
  let plan E goal :=
    PlanTrajectory E (Some Demo.loaded_state) (Some Demo.q_start) 3 (Some goal) 3 1
      (Some "rrt"%string) 0.1%float 0.001%float 5000
      (Some (replicate 6 7%float)) 2 (Some 99) in
  (planner_verify Demo.engine <$> pr_call (plan Demo.engine Demo.q_far)
     = Some (Returns false)
   ∧ pr_ret (plan Demo.engine Demo.q_far) = RL_ERROR_PLANNING_FAILED
   ∧ pr_waypointCount (plan Demo.engine Demo.q_far) = Some 99)
  ∧ (planner_solve Demo.engine_solve_throws
       <$> pr_call (plan Demo.engine_solve_throws Demo.q_goal) = Some ThrowsStd
     ∧ pr_ret (plan Demo.engine_solve_throws Demo.q_goal) = RL_ERROR_PLANNING_FAILED
     ∧ pr_waypointCount (plan Demo.engine_solve_throws Demo.q_goal) = Some 99).
Proof. vm_compute. repeat split. Qed.

(** ** What the calls other than the loaders leave alone *)

Lemma SetStartConfiguration_body_wiring E config configSize st :
  same_wiring st (SetStartConfiguration_body E config configSize st).1
  ∧ st_goal (SetStartConfiguration_body E config configSize st).1 = st_goal st.
Proof.
  unfold SetStartConfiguration_body, rebind_planner, same_wiring.
  run_body; repeat split; congruence.
Qed.

Lemma SetGoalConfiguration_body_wiring E config configSize st :
  same_wiring st (SetGoalConfiguration_body E config configSize st).1
  ∧ st_start (SetGoalConfiguration_body E config configSize st).1 = st_start st.
Proof.
  unfold SetGoalConfiguration_body, rebind_planner, same_wiring.
  run_body; repeat split; congruence.
Qed.

Lemma IsValidConfiguration_body_wiring E config configSize st :
  same_wiring st (IsValidConfiguration_body E config configSize st).1
  ∧ same_vectors st (IsValidConfiguration_body E config configSize st).1.
Proof.
  unfold IsValidConfiguration_body, obtain_verifier, same_wiring, same_vectors.
  run_body; repeat split; congruence.
Qed.

Lemma bind_planner_wiring E start startSize goal goalSize useZAxis plannerType
    delta epsilon timeoutMs st :
  let st' := (bind_planner E start startSize goal goalSize useZAxis plannerType
                delta epsilon timeoutMs st).1 in
  same_wiring st st' ∧ same_vectors st st'.
Proof.
  unfold bind_planner, same_wiring, same_vectors. unfold_M.
  destruct (st_model st) as [m|] eqn:Hm; simpl; [|repeat split; congruence].
  destruct (negb (st_initialized st)); simpl; [repeat split; congruence|].
  destruct (model_getDofPosition E m); simpl; try (repeat split; congruence).
  destruct (resolve_start _ _ _ _); simpl; [repeat split; congruence|].
  destruct (resolve_goal _ _ _ _ _ _); simpl; [repeat split; congruence|].
  destruct (st_planner st); simpl; [repeat split; congruence|].
  pose proof (create_components_frame m plannerType delta epsilon timeoutMs st)
    as (H1 & H2 & H3 & H4 & H5 & _).
  destruct (create_components _ _ _ _ _ _) as [st1 [[code|p0]| |]]; simpl in *;
    repeat split; congruence.
Qed.

Lemma PlanTrajectory_wiring E st start startSize goal goalSize useZAxis plannerType
    delta epsilon timeoutMs buf maxWaypoints cnt :
  ∃ st', pr_state (PlanTrajectory E (Some st) start startSize goal goalSize useZAxis
                     plannerType delta epsilon timeoutMs (Some buf) maxWaypoints
                     (Some cnt)) = Some st'
    ∧ same_wiring st st' ∧ same_vectors st st'.
Proof.
  rewrite PlanTrajectory_unfold. cbv zeta.
  pose proof (bind_planner_wiring E start startSize goal goalSize useZAxis plannerType
                delta epsilon timeoutMs st) as H. cbv zeta in H.
  destruct (bind_planner _ _ _ _ _ _ _ _ _ _ _) as [st' [[code|[dof c]]| |]];
    simpl in *; eauto.
  match goal with
  | |- context [solve_and_copy E c dof maxWaypoints ?w] =>
      pose proof (solve_and_copy_session E c dof maxWaypoints w) as [Hst _];
      destruct (solve_and_copy E c dof maxWaypoints w) as [w' [code| |]]
  end; simpl in *; rewrite Hst; eauto.
Qed.

(** ** C4: the stored start and goal *)

(** An accepted start: it has as many components as the planning model has joints,
    and the planning model finds it valid. *)
Lemma SetStartConfiguration_body_accepted E config configSize st st' :
  0 < configSize →
  SetStartConfiguration_body E config configSize st = (st', Returns RL_SUCCESS) →
  ∃ m n v,
    st_model st' = Some m ∧ st_initialized st' = true
    ∧ model_getDofPosition E m = Returns n
    ∧ st_start st' = Some v
    ∧ Z.of_nat (length v) = static_cast_int n
    ∧ model_isValid E m v = Returns true.
Proof.
  intros Hpos. unfold SetStartConfiguration_body, rebind_planner. unfold_M.
  destruct (st_model st) as [m|] eqn:Hm; simpl; [|unfold_codes; congruence].
  destruct (st_initialized st) eqn:Hi; simpl; [|unfold_codes; congruence].
  destruct (model_getDofPosition E m) as [n| |] eqn:Hn; simpl;
    try (unfold_codes; congruence).
  destruct (Z.eqb_spec configSize (static_cast_int n)) as [->|]; simpl;
    [|unfold_codes; congruence].
  destruct (model_isValid E m _) as [[]| |] eqn:Hv; simpl;
    try (unfold_codes; congruence).
  destruct (st_planner st); simpl; intros [= <-]; simpl;
    exists m, n, (copy_array config (static_cast_int n));
    rewrite length_copy_array; repeat split; try assumption; lia.
Qed.

Lemma SetGoalConfiguration_body_accepted E config configSize st st' :
  0 < configSize →
  SetGoalConfiguration_body E config configSize st = (st', Returns RL_SUCCESS) →
  ∃ m n v,
    st_model st' = Some m ∧ st_initialized st' = true
    ∧ model_getDofPosition E m = Returns n
    ∧ st_goal st' = Some v
    ∧ Z.of_nat (length v) = static_cast_int n
    ∧ model_isValid E m v = Returns true.
Proof.
  intros Hpos. unfold SetGoalConfiguration_body, rebind_planner. unfold_M.
  destruct (st_model st) as [m|] eqn:Hm; simpl; [|unfold_codes; congruence].
  destruct (st_initialized st) eqn:Hi; simpl; [|unfold_codes; congruence].
  destruct (model_getDofPosition E m) as [n| |] eqn:Hn; simpl;
    try (unfold_codes; congruence).
  destruct (Z.eqb_spec configSize (static_cast_int n)) as [->|]; simpl;
    [|unfold_codes; congruence].
  destruct (model_isValid E m _) as [[]| |] eqn:Hv; simpl;
    try (unfold_codes; congruence).
  destruct (st_planner st); simpl; intros [= <-]; simpl;
    exists m, n, (copy_array config (static_cast_int n));
    rewrite length_copy_array; repeat split; try assumption; lia.
Qed.

(** A [LoadPlanXml] that returns RL_SUCCESS has read a descriptor that names a scene
    and a kinematics file. *)
Lemma LoadPlanXml_body_files E path doc st st' :
  xml_readFile E path = Returns doc →
  LoadPlanXml_body E path st = (st', Returns RL_SUCCESS) →
  ∃ sceneFile kinFile,
    doc_scene doc = Some sceneFile ∧ doc_kinematics doc = Some kinFile.
Proof.
  intros Hdoc. unfold LoadPlanXml_body. unfold_M. rewrite Hdoc. simpl.
  destruct (doc_scene doc) as [sceneFile|]; simpl; [|unfold_codes; congruence].
  destruct (doc_kinematics doc) as [kinFile|]; simpl; [|unfold_codes; congruence].
  eauto.
Qed.

(** C4, as the code has it: after a [SetStartConfiguration] or
    [SetGoalConfiguration] call that returns RL_SUCCESS, the session is
    initialized and the stored start (goal) has as many components as the planning
    model has joints and is accepted by its validity predicate, and the other
    stored vector is as before; [PlanTrajectory] and [IsValidConfiguration] change
    neither the stored vectors nor the planning model; and a [LoadPlanXml] that
    returns RL_SUCCESS stores the [q] elements of the descriptor as they are
    given. *)
Theorem C4_accepted_vectors E st :
  (∀ config configSize st',
     SetStartConfiguration E (Some st) (Some config) configSize
     = (RL_SUCCESS, Some st') →
     st_goal st' = st_goal st
     ∧ ∃ m n v,
         st_model st' = Some m ∧ st_initialized st' = true
         ∧ model_getDofPosition E m = Returns n
         ∧ st_start st' = Some v
         ∧ Z.of_nat (length v) = static_cast_int n
         ∧ model_isValid E m v = Returns true)
  ∧ (∀ config configSize st',
       SetGoalConfiguration E (Some st) (Some config) configSize
       = (RL_SUCCESS, Some st') →
       st_start st' = st_start st
       ∧ ∃ m n v,
           st_model st' = Some m ∧ st_initialized st' = true
           ∧ model_getDofPosition E m = Returns n
           ∧ st_goal st' = Some v
           ∧ Z.of_nat (length v) = static_cast_int n
           ∧ model_isValid E m v = Returns true)
  ∧ (∀ start startSize goal goalSize useZAxis plannerType delta epsilon timeoutMs
       buf maxWaypoints cnt,
       ∃ st', pr_state (PlanTrajectory E (Some st) start startSize goal goalSize
                          useZAxis plannerType delta epsilon timeoutMs (Some buf)
                          maxWaypoints (Some cnt)) = Some st'
         ∧ same_wiring st st' ∧ same_vectors st st')
  ∧ (∀ config configSize,
       ∃ st', (IsValidConfiguration E (Some st) (Some config) configSize).2 = Some st'
         ∧ same_wiring st st' ∧ same_vectors st st')
  ∧ (∀ path doc st',
       xml_readFile E path = Returns doc →
       LoadPlanXml E (Some st) (Some path) = (RL_SUCCESS, Some st') →
       (doc_start doc ≠ [] → st_start st' = Some (map plan_q (doc_start doc)))
       ∧ (doc_goal doc ≠ [] → st_goal st' = Some (map plan_q (doc_goal doc)))).
Proof.
  repeat apply conj.
  - intros config configSize st'. unfold SetStartConfiguration.
    destruct (Z.leb_spec configSize 0); [unfold_codes; congruence|].
    unfold run.
    pose proof (SetStartConfiguration_body_wiring E config configSize st) as [_ Hg].
    pose proof (SetStartConfiguration_body_accepted E config configSize st) as Hacc.
    destruct (SetStartConfiguration_body E config configSize st) as [st1 o].
    simpl in Hg. intros [= Ho <-]. split; [exact Hg|]. apply Hacc; [assumption|].
    destruct o; simpl in Ho; unfold_codes; congruence.
  - intros config configSize st'. unfold SetGoalConfiguration.
    destruct (Z.leb_spec configSize 0); [unfold_codes; congruence|].
    unfold run.
    pose proof (SetGoalConfiguration_body_wiring E config configSize st) as [_ Hs].
    pose proof (SetGoalConfiguration_body_accepted E config configSize st) as Hacc.
    destruct (SetGoalConfiguration_body E config configSize st) as [st1 o].
    simpl in Hs. intros [= Ho <-]. split; [exact Hs|]. apply Hacc; [assumption|].
    destruct o; simpl in Ho; unfold_codes; congruence.
  - intros. apply PlanTrajectory_wiring.
  - intros config configSize. unfold IsValidConfiguration, run.
    pose proof (IsValidConfiguration_body_wiring E config configSize st) as [Hw Hv].
    destruct (IsValidConfiguration_body E config configSize st) as [st1 o].
    exists st1. repeat split; first [apply Hw | apply Hv].
  - intros path doc st' Hdoc. unfold LoadPlanXml, run.
    pose proof (LoadPlanXml_body_files E path doc st) as Hfiles.
    pose proof (LoadPlanXml_body_stores E path doc) as Hstores.
    destruct (LoadPlanXml_body E path st) as [st1 o] eqn:Hrun. intros [= Ho <-].
    assert (o = Returns RL_SUCCESS) as ->
      by (destruct o; simpl in Ho; unfold_codes; congruence).
    destruct (Hfiles st1 Hdoc eq_refl) as (sceneFile & kinFile & Hs & Hk).
    specialize (Hstores sceneFile kinFile st Hdoc Hs Hk). cbv zeta in Hstores.
    rewrite Hrun in Hstores. simpl in Hstores.
    destruct Hstores as (_ & _ & _ & H). exact (H eq_refl).
Qed.

(** The start (0, 0, 0.3) set on the loaded demo session. *)
Lemma C4_witness :
  ∃ st', SetStartConfiguration Demo.engine (Some Demo.loaded_state)
           (Some Demo.q_start) 3 = (RL_SUCCESS, Some st')
    ∧ ∃ m v, st_model st' = Some m ∧ st_start st' = Some v
        ∧ length v = 3%nat
        ∧ model_isValid Demo.engine m v = Returns true.
Proof.
  eexists. split; [vm_compute; reflexivity|].
  match goal with
  | |- ∃ m v, st_model ?st' = _ ∧ _ =>
      destruct (C4_accepted_vectors Demo.engine Demo.loaded_state) as [H _];
      destruct (H Demo.q_start 3 st') as (_ & m & n & v & Hm & _ & Hn & Hs & Hl & Hv)
  end.
  - vm_compute. reflexivity.
  - exists m, v. repeat split; try assumption.
    vm_compute in Hm. injection Hm as <-.
    vm_compute in Hn. injection Hn as <-.
    rewrite static_cast_int_fits in Hl by (unfold INT_MAX; lia). lia.
Defined.

(** The vectors of a descriptor are not checked: [LoadPlanXml] on a descriptor
    whose start has two [q] elements returns RL_SUCCESS on the three-joint arm,
    and the initialized session stores a start of size two. *)
Lemma C4_counterexample :
  let r := LoadPlanXml Demo.engine CreatePlanner (Some "short.xml"%string) in
  r.1 = RL_SUCCESS
  ∧ st_initialized <$> r.2 = Some true
  ∧ GetDof Demo.engine r.2 = 3
  ∧ (r.2 ≫= st_start) = Some [0%float; 0%float]
  ∧ Z.of_nat (length [0%float; 0%float]) ≠ GetDof Demo.engine r.2.
Proof. vm_compute. repeat split. discriminate. Qed.

(** A start that is rejected is stored all the same: the copy into the stored
    vector comes before the validity check. *)
Example SetStartConfiguration_rejected_is_stored :
  let r := SetStartConfiguration Demo.engine (Some Demo.loaded_state)
             (Some Demo.q_far) 3 in
  r.1 = RL_ERROR_INVALID_PARAMETER
  ∧ (r.2 ≫= st_start) = Some Demo.q_far
  ∧ Demo.in_limits Demo.q_far = false.
Proof. vm_compute. repeat split. Qed.

(** ** C5: the view of the kinematics the planning model holds *)

Lemma references_same_wiring a b :
  same_wiring a b → references_exactly_one a → references_exactly_one b.
Proof.
  intros (Hk & Hm & _) (k & m & Hak & Ham & H). exists k, m.
  rewrite <- Hk, <- Hm. auto.
Qed.

(** A [LoadScene] that returns RL_SUCCESS has built a fresh planning model around
    the kinematics of the session. *)
Lemma LoadScene_body_wires E path idx st st' :
  LoadScene_body E path idx st = (st', Returns RL_SUCCESS) →
  st_initialized st' = true ∧ references_exactly_one st'.
Proof.
  unfold LoadScene_body, createScene, connect_model, references_exactly_one. unfold_M.
  destruct (new_Scene E) as [sc0| |]; simpl; try (unfold_codes; congruence).
  destruct (scene_load E sc0 path) as [sc| |]; simpl; try (unfold_codes; congruence).
  destruct ((idx <? 0) || _); simpl; [unfold_codes; congruence|].
  destruct (scene_kind sc); simpl; try (unfold_codes; congruence).
  all: destruct (st_kinematics st) as [k|] eqn:Hk; simpl;
    [destruct (kin_isDynamic k) eqn:Hd; simpl|unfold_codes; congruence].
  all: destruct (scene_models sc !! Z.to_nat idx); simpl;
    try (unfold_codes; congruence).
  all: destruct (model_getDofPosition E _); simpl; try (unfold_codes; congruence).
  all: intros [= <-]; simpl; split; [reflexivity|].
  all: eexists k, _; rewrite Hk; split; [reflexivity|]; split; [reflexivity|].
  all: simpl; auto.
Qed.

(** After a successful [LoadScene] inside it, [LoadPlanXml] assigns neither the
    kinematics nor the planning model. *)
Lemma LoadPlanXml_body_wires E path st st' :
  LoadPlanXml_body E path st = (st', Returns RL_SUCCESS) →
  st_initialized st' = true ∧ references_exactly_one st'.
Proof.
  unfold LoadPlanXml_body. unfold_M.
  destruct (xml_readFile E path) as [doc| |]; simpl; try (unfold_codes; congruence).
  destruct (doc_scene doc) as [sceneFile|]; simpl; [|unfold_codes; congruence].
  destruct (doc_kinematics doc) as [kinFile|]; simpl; [|unfold_codes; congruence].
  destruct (LoadKinematics_body E kinFile _) as [st1 [code| |]]; simpl;
    try (unfold_codes; congruence).
  destruct (Z.eqb_spec code RL_SUCCESS); simpl; [|congruence].
  match goal with
  | |- context [LoadScene_body E sceneFile ?i st1] =>
      pose proof (LoadScene_body_wires E sceneFile i st1) as HS;
      destruct (LoadScene_body E sceneFile i st1) as [st2 [code2| |]]
  end; simpl; try (unfold_codes; congruence).
  destruct (Z.eqb_spec code2 RL_SUCCESS) as [->|]; simpl; [|congruence].
  destruct (HS st2 eq_refl) as [Hi Href].
  assert (Hkeep : ∀ st3, same_wiring st2 st3 →
            st_initialized st3 = true ∧ references_exactly_one st3).
  { intros st3 Hw. split.
    - destruct Hw as (_ & _ & <-). exact Hi.
    - exact (references_same_wiring _ _ Hw Href). }
  destruct (doc_start doc), (doc_goal doc); simpl;
    destruct (createPlanner _ _ _ _ _ _); simpl; try (unfold_codes; congruence);
    intros [= <-]; apply Hkeep; repeat split.
Qed.

(** C5, as the code has it: every [LoadScene] and every [LoadPlanXml] that returns
    RL_SUCCESS leaves the session initialized with a planning model that
    references the kinematics of the session through exactly one of its two views;
    and [SetStartConfiguration], [SetGoalConfiguration], [PlanTrajectory] and
    [IsValidConfiguration] keep it so. *)
Theorem C5_wired_by_LoadScene E st :
  (∀ path idx st',
     LoadScene E (Some st) (Some path) idx = (RL_SUCCESS, Some st') →
     st_initialized st' = true ∧ references_exactly_one st')
  ∧ (∀ path st',
       LoadPlanXml E (Some st) (Some path) = (RL_SUCCESS, Some st') →
       st_initialized st' = true ∧ references_exactly_one st')
  ∧ (references_exactly_one st →
       (∀ config n st',
          (SetStartConfiguration E (Some st) (Some config) n).2 = Some st' →
          references_exactly_one st')
       ∧ (∀ config n st',
            (SetGoalConfiguration E (Some st) (Some config) n).2 = Some st' →
            references_exactly_one st')
       ∧ (∀ config n st',
            (IsValidConfiguration E (Some st) (Some config) n).2 = Some st' →
            references_exactly_one st')
       ∧ (∀ start startSize goal goalSize useZAxis plannerType delta epsilon
            timeoutMs buf maxWaypoints cnt st',
            pr_state (PlanTrajectory E (Some st) start startSize goal goalSize
                        useZAxis plannerType delta epsilon timeoutMs (Some buf)
                        maxWaypoints (Some cnt)) = Some st' →
            references_exactly_one st')).
Proof.
  repeat apply conj.
  - intros path idx st'. unfold LoadScene, run.
    pose proof (LoadScene_body_wires E path idx st) as H.
    destruct (LoadScene_body E path idx st) as [st1 o]. intros [= Ho <-].
    apply H. destruct o; simpl in Ho; unfold_codes; congruence.
  - intros path st'. unfold LoadPlanXml, run.
    pose proof (LoadPlanXml_body_wires E path st) as H.
    destruct (LoadPlanXml_body E path st) as [st1 o]. intros [= Ho <-].
    apply H. destruct o; simpl in Ho; unfold_codes; congruence.
  - intros Href. repeat apply conj.
    + intros config n st'. unfold SetStartConfiguration.
      destruct (n <=? 0); simpl; [now intros [= <-]|]. unfold run.
      pose proof (SetStartConfiguration_body_wiring E config n st) as [Hw _].
      destruct (SetStartConfiguration_body E config n st) as [st1 o]. intros [= <-].
      exact (references_same_wiring _ _ Hw Href).
    + intros config n st'. unfold SetGoalConfiguration.
      destruct (n <=? 0); simpl; [now intros [= <-]|]. unfold run.
      pose proof (SetGoalConfiguration_body_wiring E config n st) as [Hw _].
      destruct (SetGoalConfiguration_body E config n st) as [st1 o]. intros [= <-].
      exact (references_same_wiring _ _ Hw Href).
    + intros config n st'. unfold IsValidConfiguration, run.
      pose proof (IsValidConfiguration_body_wiring E config n st) as [Hw _].
      destruct (IsValidConfiguration_body E config n st) as [st1 o]. intros [= <-].
      exact (references_same_wiring _ _ Hw Href).
    + intros start startSize goal goalSize useZAxis plannerType delta epsilon
        timeoutMs buf maxWaypoints cnt st' Hst.
      destruct (PlanTrajectory_wiring E st start startSize goal goalSize useZAxis
                  plannerType delta epsilon timeoutMs buf maxWaypoints cnt)
        as (st1 & Hst1 & Hw & _).
      rewrite Hst in Hst1. injection Hst1 as <-.
      exact (references_same_wiring _ _ Hw Href).
Qed.

(** [LoadKinematics] and then [LoadScene] on a fresh session: the planning model
    holds the kinematic view of the arm. *)
Lemma C5_witness :
  ∃ st', Demo.loaded = Some st'
    ∧ st_initialized st' = true ∧ references_exactly_one st'.
Proof.
  eexists. split; [vm_compute; reflexivity|].
  destruct (C5_wired_by_LoadScene Demo.engine
              (default PlannerState_new
                 (LoadKinematics Demo.engine CreatePlanner (Some "arm.xml"%string)).2))
    as [H _].
  eapply (H "scene.xml"%string 0). vm_compute. reflexivity.
Defined.

(** [LoadKinematics] after [LoadScene] does not wire the planning model again: the
    call returns RL_SUCCESS and replaces the kinematics of the initialized
    session, while the planning model still holds the view of the kinematics that
    was there before. *)
Lemma C5_counterexample :
  let r := LoadKinematics Demo.engine Demo.loaded (Some "arm2.xml"%string) in
  (∃ st, Demo.loaded = Some st ∧ st_initialized st = true
     ∧ references_exactly_one st)
  ∧ r.1 = RL_SUCCESS
  ∧ st_initialized <$> r.2 = Some true
  ∧ ¬ ∃ st', r.2 = Some st' ∧ references_exactly_one st'.
Proof.
  cbv zeta. repeat apply conj.
  - eexists. split; [vm_compute; reflexivity|]. split; [reflexivity|].
    eexists _, _. split; [reflexivity|]. split; [reflexivity|]. left.
    repeat split; reflexivity.
  - reflexivity.
  - reflexivity.
  - intros (st' & Hst & k & m & Hk & Hm & H).
    vm_compute in Hst. injection Hst as <-.
    vm_compute in Hk. injection Hk as <-.
    vm_compute in Hm. injection Hm as <-.
    simpl in H. destruct H as [(_ & H & _) | (H & _)]; discriminate.
Qed.

(** ** The scenarios of the spec on the demo engine *)

(** [deg2rad] is the binary64 number nearest to pi / 180. *)
Example deg2rad_value : deg2rad = 0x1.1df46a2529d39p-6%float.
Proof. reflexivity. Qed.

(** A duration of 1.5 ms more than two seconds is cut to 2001 ms. *)
Example float_trunc_2001 : float_trunc (2.0015 * 1000)%float = Some 2001.
Proof. vm_compute. reflexivity. Qed.

(** Before [LoadScene], [GetDof] and the setters report an uninitialized session. *)
Example lifecycle_not_initialized :
  GetDof Demo.engine CreatePlanner = RL_ERROR_NOT_INITIALIZED
  ∧ (SetStartConfiguration Demo.engine CreatePlanner (Some Demo.q_start) 3).1
    = RL_ERROR_NOT_INITIALIZED
  ∧ (SetStartConfiguration Demo.engine Demo.loaded (Some Demo.q_start) 2).1
    = RL_ERROR_INVALID_PARAMETER
  ∧ (SetStartConfiguration Demo.engine Demo.loaded None 3).1
    = RL_ERROR_INVALID_POINTER.
Proof. vm_compute. repeat split. Qed.

(** Without a goal parameter and without a stored goal, [PlanTrajectory] returns
    [RL_ERROR_INVALID_PARAMETER]. *)
Example plan_without_goal :
  pr_ret (PlanTrajectory Demo.engine (Some Demo.loaded_state) (Some Demo.q_start) 3
            None 0 1 (Some "rrt"%string) 0.1%float 0.001%float 5000
            (Some (replicate 6 7%float)) 2 (Some 99))
  = RL_ERROR_INVALID_PARAMETER.
Proof. vm_compute. reflexivity. Qed.

(** * Further properties of the wrapper *)

(** ** A session that is not initialized *)

(** X1: on a session that is not initialized, or has no planning model, [GetDof],
    [SetStartConfiguration], [SetGoalConfiguration] and [PlanTrajectory] return
    [RL_ERROR_NOT_INITIALIZED] and [IsValidConfiguration] returns 0; none of them
    changes the session, the buffer or the count. *)
Theorem X1_uninitialized_session_refuses E st :
  st_initialized st = false ∨ st_model st = None →
  GetDof E (Some st) = RL_ERROR_NOT_INITIALIZED
  ∧ (∀ config n, 0 < n →
       SetStartConfiguration E (Some st) (Some config) n
       = (RL_ERROR_NOT_INITIALIZED, Some st))
  ∧ (∀ config n, 0 < n →
       SetGoalConfiguration E (Some st) (Some config) n
       = (RL_ERROR_NOT_INITIALIZED, Some st))
  ∧ (∀ config n, IsValidConfiguration E (Some st) (Some config) n = (0, Some st))
  ∧ (∀ start startSize goal goalSize useZAxis plannerType delta epsilon timeoutMs
       buf maxWaypoints cnt,
       PlanTrajectory E (Some st) start startSize goal goalSize useZAxis plannerType
         delta epsilon timeoutMs (Some buf) maxWaypoints (Some cnt)
       = {| pr_ret := RL_ERROR_NOT_INITIALIZED; pr_state := Some st;
            pr_waypoints := Some buf; pr_waypointCount := Some cnt;
            pr_call := None |}).
Proof.
  intros H. repeat apply conj.
  - unfold GetDof. destruct (st_model st), H as [H|H]; rewrite ?H; try discriminate;
      reflexivity.
  - intros config n Hn. unfold SetStartConfiguration, SetStartConfiguration_body, run.
    destruct (Z.leb_spec n 0); [lia|]. unfold_M.
    destruct (st_model st), H as [H|H]; rewrite ?H; try discriminate; reflexivity.
  - intros config n Hn. unfold SetGoalConfiguration, SetGoalConfiguration_body, run.
    destruct (Z.leb_spec n 0); [lia|]. unfold_M.
    destruct (st_model st), H as [H|H]; rewrite ?H; try discriminate; reflexivity.
  - intros config n. unfold IsValidConfiguration, IsValidConfiguration_body, run.
    unfold_M.
    destruct (st_model st), H as [H|H]; rewrite ?H; try discriminate; reflexivity.
  - intros. rewrite PlanTrajectory_unfold. cbv zeta. unfold bind_planner. unfold_M.
    destruct (st_model st), H as [H|H]; rewrite ?H; try discriminate; reflexivity.
Qed.

(** A session fresh from [CreatePlanner]. *)
Lemma X1_witness :
  GetDof Demo.engine CreatePlanner = RL_ERROR_NOT_INITIALIZED
  ∧ IsValidConfiguration Demo.engine CreatePlanner (Some Demo.q_start) 3
    = (0, CreatePlanner).
Proof.
  destruct (X1_uninitialized_session_refuses Demo.engine PlannerState_new)
    as (H1 & _ & _ & H4 & _).
  - left. reflexivity.
  - split; [exact H1|apply H4].
Defined.

(** ** [LoadKinematics] *)

(** What a run of the body of [LoadKinematics] can be: nothing assigned and an
    error code; the dynamic model kept and its kinematics view assigned (null
    with [RL_ERROR_LOAD_FAILED], non-null with [RL_SUCCESS]); or the dynamic model
    kept, at most, and plain kinematics assigned with [RL_SUCCESS]. *)
Lemma LoadKinematics_body_cases E path st :
  let r := LoadKinematics_body E path st in
  (r.1 = st ∧ (r.2 = Returns RL_ERROR_LOAD_FAILED ∨ r.2 = Returns RL_ERROR_EXCEPTION))
  ∨ (∃ a, r.1 = set_kinematics None (set_mdl (Some a) st)
          ∧ r.2 = Returns RL_ERROR_LOAD_FAILED)
  ∨ (∃ a k, r.1 = set_kinematics (Some k) (set_mdl (Some a) st)
            ∧ r.2 = Returns RL_SUCCESS)
  ∨ (∃ k, r.1 = set_kinematics (Some k) st ∧ r.2 = Returns RL_SUCCESS).
Proof.
  unfold LoadKinematics_body, LoadKinematics_dynamic. unfold_M.
  destruct (mdl_XmlFactory_create E path) as [mdl| |]; simpl; auto.
  - destruct (mdl_isDynamic mdl); simpl.
    + destruct (mdl_asKinematics mdl) as [k|]; simpl; eauto 8.
    + destruct (kin_Kinematics_create E path); simpl; eauto 8.
  - destruct (kin_Kinematics_create E path); simpl; eauto 8.
Qed.

(** X2: [LoadKinematics] returns RL_SUCCESS, RL_ERROR_LOAD_FAILED or
    RL_ERROR_EXCEPTION on non-null arguments and RL_ERROR_INVALID_POINTER exactly
    when the handle or the path is null; after RL_SUCCESS the session has
    kinematics. *)
Theorem X2_LoadKinematics_codes E planner xmlPath :
  let r := LoadKinematics E planner xmlPath in
  (r.1 = RL_SUCCESS ∨ r.1 = RL_ERROR_INVALID_POINTER
   ∨ r.1 = RL_ERROR_LOAD_FAILED ∨ r.1 = RL_ERROR_EXCEPTION)
  ∧ (r.1 = RL_ERROR_INVALID_POINTER ↔ planner = None ∨ xmlPath = None)
  ∧ (r.1 = RL_SUCCESS → ∃ st' k, r.2 = Some st' ∧ st_kinematics st' = Some k).
Proof.
  unfold LoadKinematics.
  destruct planner as [st|]; [destruct xmlPath as [path|]|]; simpl.
  - unfold run.
    pose proof (LoadKinematics_body_cases E path st) as H. cbv zeta in H.
    destruct (LoadKinematics_body E path st) as [st' o]. simpl in *.
    destruct H as [[-> [-> | ->]] | [(a & -> & ->) | [(a & k & -> & ->) | (k & -> & ->)]]];
      simpl; unfold_codes.
    all: split; [auto|]; split;
      [split; [discriminate|intros [?|?]; discriminate]|];
      try discriminate; intros _; eauto.
  - unfold_codes. split; [auto|]. split; [tauto|discriminate].
  - unfold_codes. split; [auto|]. split; [tauto|discriminate].
Qed.

(** X3: [LoadKinematics] assigns nothing but the kinematics and the handle on the
    dynamic model; when it does not return RL_SUCCESS, the kinematics of the
    session is as before, or has been reset to null. *)
Theorem X3_LoadKinematics_frame E st path :
  let r := LoadKinematics E (Some st) (Some path) in
  ∃ st', r.2 = Some st'
    ∧ st' = set_kinematics (st_kinematics st') (set_mdl (st_mdl st') st)
    ∧ (r.1 ≠ RL_SUCCESS →
       st_kinematics st' = st_kinematics st ∨ st_kinematics st' = None).
Proof.
  unfold LoadKinematics, run.
  pose proof (LoadKinematics_body_cases E path st) as H. cbv zeta in H.
  destruct (LoadKinematics_body E path st) as [st' o]. simpl in *.
  exists st'. split; [reflexivity|].
  destruct H as [[-> [-> | ->]] | [(a & -> & ->) | [(a & k & -> & ->) | (k & -> & ->)]]];
    simpl; (split; [destruct st; reflexivity|]); auto; intros H; now elim H.
Qed.

(** ** [LoadScene] *)

(** The runs of the body of [LoadScene], by how far they get. *)
Lemma LoadScene_body_cases E path idx st :
  let r := LoadScene_body E path idx st in
  (* no scene was created *)
  (r.1 = st
   ∧ (r.2 = Returns RL_ERROR_LOAD_FAILED ∨ r.2 = Returns RL_ERROR_EXCEPTION))
  (* the scene was created, and perhaps loaded; the index was not accepted *)
  ∨ (∃ sc, r.1 = set_scene (Some sc) st
       ∧ (r.2 = Returns RL_ERROR_LOAD_FAILED ∨ r.2 = Returns RL_ERROR_EXCEPTION
          ∨ (r.2 = Returns RL_ERROR_INVALID_PARAMETER
             ∧ scene_load E (result_of (new_Scene E) sc) path = Returns sc
             ∧ (idx < 0 ∨ static_cast_int (length (scene_models sc)) ≤ idx))))
  (* the robot model was taken from a scene of neither kind *)
  ∨ (∃ sc, r.1 = set_robotModel (scene_models sc !! Z.to_nat idx)
                   (set_scene (Some sc) st)
       ∧ 0 ≤ idx < static_cast_int (length (scene_models sc))
       ∧ scene_kind sc = OtherScene
       ∧ r.2 = Returns RL_ERROR_LOAD_FAILED)
  (* the planning model was built *)
  ∨ (∃ sc m, let st2 := set_model (Some m)
                          (set_robotModel (scene_models sc !! Z.to_nat idx)
                             (set_scene (Some sc) st)) in
       m = connect_model (st_kinematics st) (scene_models sc !! Z.to_nat idx) sc
       ∧ 0 ≤ idx < static_cast_int (length (scene_models sc))
       ∧ ((r.1 = st2
           ∧ (r.2 = Returns RL_ERROR_LOAD_FAILED ∨ r.2 = Returns RL_ERROR_EXCEPTION
              ∨ (r.2 = Returns RL_ERROR_NOT_INITIALIZED
                 ∧ (st_kinematics st = None ∨ scene_models sc !! Z.to_nat idx = None))))
          ∨ (r.1 = set_initialized true st2
             ∧ r.2 = Returns RL_SUCCESS
             ∧ is_Some (st_kinematics st)
             ∧ is_Some (scene_models sc !! Z.to_nat idx)
             ∧ is_Some (session_dof E st2)))).
Proof.
  unfold LoadScene_body, createScene, session_dof. unfold_M.
  destruct (new_Scene E) as [sc0| |]; simpl;
    [|left; split; [reflexivity|auto]..].
  destruct (scene_load E sc0 path) as [sc| |] eqn:Hload; simpl;
    [|right; left; exists sc0; auto..].
  destruct (Z.ltb_spec idx 0); simpl.
  { right. left. exists sc. split; [reflexivity|]. right. right. auto. }
  destruct (Z.leb_spec (static_cast_int (length (scene_models sc))) idx); simpl.
  { right. left. exists sc. split; [reflexivity|]. right. right. auto. }
  destruct (scene_kind sc) eqn:Hkind; simpl.
  3: { right. right. left. exists sc. repeat split; auto; lia. }
  all: right; right; right; exists sc; eexists; cbv zeta;
    split; [reflexivity|]; split; [lia|].
  all: unfold connect_model; simpl.
  all: destruct (st_kinematics st) as [k|] eqn:Hk; simpl;
    [destruct (kin_isDynamic k); simpl|left; split; [reflexivity|]; auto].
  all: destruct (scene_models sc !! Z.to_nat idx) as [r|] eqn:Hr; simpl;
    [|left; split; [reflexivity|]; auto].
  all: match goal with
       | |- context [model_getDofPosition ?e ?m] =>
           destruct (model_getDofPosition e m) as [n| |] eqn:Hn; simpl
       end.
  all: first [ right; repeat split; eauto; fail
             | left; split; [reflexivity|]; auto ].
Qed.

(** Every run of the body of [LoadScene] returns a code, and assigns the scene,
    the robot model, the planning model and [initialized] only. *)
Lemma LoadScene_body_summary E path idx st :
  ∃ c st',
    LoadScene_body E path idx st = (st', Returns c)
    ∧ (c = RL_SUCCESS ∨ c = RL_ERROR_INVALID_PARAMETER ∨ c = RL_ERROR_LOAD_FAILED
       ∨ c = RL_ERROR_NOT_INITIALIZED ∨ c = RL_ERROR_EXCEPTION)
    ∧ st' = set_initialized (st_initialized st')
              (set_model (st_model st')
                 (set_robotModel (st_robotModel st')
                    (set_scene (st_scene st') st)))
    ∧ (st_initialized st = true → st_initialized st' = true)
    ∧ (c ≠ RL_SUCCESS → st_initialized st' = st_initialized st).
Proof.
  pose proof (LoadScene_body_cases E path idx st) as Hc. cbv zeta in Hc.
  destruct (LoadScene_body E path idx st) as [st' o]. simpl in Hc.
  destruct Hc as [[-> Ho]|[(sc & -> & Ho)|[(sc & -> & _ & _ & Ho)
                 |(sc & m & _ & _ & [[-> Ho]|(-> & Ho & _)])]]].
  - destruct Ho as [->| ->]; eexists _, _; (split; [reflexivity|]);
      repeat apply conj; auto; destruct st; reflexivity.
  - destruct Ho as [->|[->|[-> _]]]; eexists _, _; (split; [reflexivity|]);
      repeat apply conj; auto; destruct st; reflexivity.
  - subst o. eexists _, _; (split; [reflexivity|]);
      repeat apply conj; auto; destruct st; reflexivity.
  - destruct Ho as [->|[->|[-> _]]]; eexists _, _; (split; [reflexivity|]);
      repeat apply conj; auto; destruct st; reflexivity.
  - subst o. eexists _, _; (split; [reflexivity|]);
      repeat apply conj; auto; try (destruct st; reflexivity).
    intros []. reflexivity.
Qed.

(** X4: [LoadScene] returns one of six codes, and [RL_ERROR_INVALID_POINTER]
    exactly for a null argument, which leaves the session as it is.  It assigns
    the scene, the robot model, the planning model and [initialized] only;
    [initialized] is never reset, and a call that does not return [RL_SUCCESS]
    leaves it as it was. *)
Theorem X4_LoadScene_codes_and_frame E planner xmlPath idx :
  let r := LoadScene E planner xmlPath idx in
  (r.1 = RL_SUCCESS ∨ r.1 = RL_ERROR_INVALID_POINTER
   ∨ r.1 = RL_ERROR_INVALID_PARAMETER ∨ r.1 = RL_ERROR_LOAD_FAILED
   ∨ r.1 = RL_ERROR_NOT_INITIALIZED ∨ r.1 = RL_ERROR_EXCEPTION)
  ∧ (r.1 = RL_ERROR_INVALID_POINTER ↔ planner = None ∨ xmlPath = None)
  ∧ (r.1 = RL_ERROR_INVALID_POINTER → r.2 = planner)
  ∧ (∀ st, planner = Some st →
       ∃ st', r.2 = Some st'
         ∧ st' = set_initialized (st_initialized st')
                   (set_model (st_model st')
                      (set_robotModel (st_robotModel st')
                         (set_scene (st_scene st') st)))
         ∧ (st_initialized st = true → st_initialized st' = true)
         ∧ (r.1 ≠ RL_SUCCESS → st_initialized st' = st_initialized st)).
Proof.
  cbv zeta. unfold LoadScene.
  destruct planner as [st|], xmlPath as [path|]; simpl.
  2-4: repeat apply conj; auto; try (intros ? [=]; fail);
    intros ? [= <-]; eexists; (split; [reflexivity|]); repeat apply conj; auto;
    destruct st; reflexivity.
  unfold run.
  destruct (LoadScene_body_summary E path idx st)
    as (c & st' & -> & Hc & Hframe & Hmono & Hsame). simpl.
  repeat apply conj.
  - tauto.
  - intros ->. revert Hc. unfold_codes. lia.
  - intros [|]; discriminate.
  - intros ->. revert Hc. unfold_codes. lia.
  - intros ? [= <-]. exists st'. auto.
Qed.

(** X5: on a session without kinematics [LoadScene] never returns
    [RL_SUCCESS] and leaves [initialized] as it was; when the scene loads, is of
    a known kind and has the requested model, the code is
    [RL_ERROR_NOT_INITIALIZED], and the scene, the robot model and a planning
    model without kinematics have been stored. *)
Theorem X5_LoadScene_needs_kinematics E st path idx :
  st_kinematics st = None →
  let r := LoadScene E (Some st) (Some path) idx in
  r.1 ≠ RL_SUCCESS
  ∧ (∃ st', r.2 = Some st' ∧ st_initialized st' = st_initialized st
       ∧ st_kinematics st' = None)
  ∧ (∀ sc0 sc,
       new_Scene E = Returns sc0 → scene_load E sc0 path = Returns sc →
       0 ≤ idx < static_cast_int (length (scene_models sc)) →
       scene_kind sc ≠ OtherScene →
       r.1 = RL_ERROR_NOT_INITIALIZED
       ∧ r.2 = Some (set_model
                      (Some {| sm_kin := None; sm_mdl := None;
                               sm_model := scene_models sc !! Z.to_nat idx;
                               sm_scene := Some (scene_addr sc) |})
                      (set_robotModel (scene_models sc !! Z.to_nat idx)
                         (set_scene (Some sc) st)))).
Proof.
  intros Hk. cbv zeta. unfold LoadScene, run.
  split; [|split].
  - pose proof (LoadScene_body_cases E path idx st) as Hc. cbv zeta in Hc.
    destruct (LoadScene_body E path idx st) as [st' o]. simpl in *.
    destruct Hc as [[_ Ho]|[(sc & _ & Ho)|[(sc & _ & _ & _ & Ho)
                   |(sc & m & _ & _ & [[_ Ho]|(_ & _ & Hsome & _)])]]].
    + destruct Ho as [->| ->]; simpl; unfold_codes; lia.
    + destruct Ho as [->|[->|[-> _]]]; simpl; unfold_codes; lia.
    + subst o; simpl; unfold_codes; lia.
    + destruct Ho as [->|[->|[-> _]]]; simpl; unfold_codes; lia.
    + rewrite Hk in Hsome. destruct Hsome as [? [=]].
  - destruct (LoadScene_body_summary E path idx st)
      as (c & st' & Hrun & Hc & Hframe & Hmono & Hsame).
    pose proof (LoadScene_body_cases E path idx st) as Hcases. cbv zeta in Hcases.
    rewrite Hrun in *. simpl in *. exists st'. split; [reflexivity|].
    split.
    + apply Hsame. intros ->.
      destruct Hcases as [[_ Ho]|[(sc & _ & Ho)|[(sc & _ & _ & _ & Ho)
                   |(sc & m & _ & _ & [[_ Ho]|(_ & _ & Hsome & _)])]]].
      * destruct Ho as [Ho|Ho]; revert Ho; unfold_codes; congruence.
      * destruct Ho as [Ho|[Ho|[Ho _]]]; revert Ho; unfold_codes; congruence.
      * revert Ho; unfold_codes; congruence.
      * destruct Ho as [Ho|[Ho|[Ho _]]]; revert Ho; unfold_codes; congruence.
      * rewrite Hk in Hsome. destruct Hsome as [? [=]].
    + rewrite Hframe. simpl. exact Hk.
  - intros sc0 sc Hnew Hload Hidx Hkind.
    unfold LoadScene_body, createScene, connect_model. unfold_M.
    rewrite Hnew. simpl. rewrite Hload. simpl.
    destruct (Z.ltb_spec idx 0); [lia|].
    destruct (Z.leb_spec (static_cast_int (length (scene_models sc))) idx); [lia|].
    simpl.
    destruct (scene_kind sc); simpl; try congruence.
    all: rewrite Hk; simpl.
    all: split; [reflexivity|]; f_equal; destruct st; reflexivity.
Qed.

Lemma X5_witness :
  let r := LoadScene Demo.engine (Some PlannerState_new) (Some "scene.xml") 0 in
  r.1 = RL_ERROR_NOT_INITIALIZED
  ∧ (r.2 ≫= st_model) ≫= sm_model = Some 101%nat.
Proof.
  pose proof (X5_LoadScene_needs_kinematics Demo.engine PlannerState_new
                "scene.xml" 0 eq_refl) as (_ & _ & H).
  destruct (H _ _ eq_refl eq_refl ltac:(vm_compute; split; [discriminate|reflexivity])
              ltac:(discriminate)) as [H1 H2].
  split; [exact H1|]. cbv zeta. rewrite H2. reflexivity.
Defined.

(** X6: when [LoadScene] returns [RL_SUCCESS] the session holds the scene the
    engine loaded from the file, the index is in range and the robot model is
    the model of the scene at that index; the planning model refers to this
    robot model and to this scene; and [GetDof] answers with the joint count the
    planning model reports, not with an error code. *)
Theorem X6_LoadScene_success E st path idx st' :
  LoadScene E (Some st) (Some path) idx = (RL_SUCCESS, Some st') →
  ∃ sc0 sc r m n,
    new_Scene E = Returns sc0 ∧ scene_load E sc0 path = Returns sc
    ∧ st_scene st' = Some sc
    ∧ 0 ≤ idx < static_cast_int (length (scene_models sc))
    ∧ scene_models sc !! Z.to_nat idx = Some r
    ∧ st_robotModel st' = Some r
    ∧ st_model st' = Some m
    ∧ sm_model m = Some r ∧ sm_scene m = Some (scene_addr sc)
    ∧ model_getDofPosition E m = Returns n
    ∧ GetDof E (Some st') = static_cast_int n.
Proof.
  unfold LoadScene, run, GetDof.
  unfold LoadScene_body, createScene, connect_model. unfold_M.
  destruct (new_Scene E) as [sc0| |] eqn:Hnew; simpl; try (unfold_codes; congruence).
  destruct (scene_load E sc0 path) as [sc| |] eqn:Hload; simpl;
    try (unfold_codes; congruence).
  destruct (Z.ltb_spec idx 0); simpl; [unfold_codes; congruence|].
  destruct (Z.leb_spec (static_cast_int (length (scene_models sc))) idx); simpl;
    [unfold_codes; congruence|].
  destruct (scene_kind sc); simpl; try (unfold_codes; congruence).
  all: destruct (st_kinematics st) as [k|]; simpl;
    [destruct (kin_isDynamic k); simpl|unfold_codes; congruence].
  all: destruct (scene_models sc !! Z.to_nat idx) as [r|] eqn:Hr; simpl;
    try (unfold_codes; congruence).
  all: match goal with
       | |- context [model_getDofPosition ?e ?m] =>
           destruct (model_getDofPosition e m) as [n| |] eqn:Hn; simpl
       end; try (unfold_codes; congruence).
  all: intros [= <-]; simpl; rewrite Hn.
  all: eexists sc0, sc, r, _, n; repeat apply conj; eauto; lia.
Qed.

Lemma X6_witness :
  GetDof Demo.engine Demo.loaded = 3
  ∧ (Demo.loaded ≫= st_robotModel) = Some 101%nat.
Proof.
  destruct (X6_LoadScene_success Demo.engine
              (default PlannerState_new
                 (LoadKinematics Demo.engine CreatePlanner (Some "arm.xml")).2)
              "scene.xml" 0 Demo.loaded_state eq_refl)
    as (sc0 & sc & r & m & n & Hnew & Hload & _ & _ & Hr & Hrobot & Hm & _ & _ & Hn & Hdof).
  injection Hnew as <-. injection Hload as <-. injection Hr as <-.
  injection Hn as <-.
  split; [exact Hdof|]. reflexivity.
Defined.

(** X7: when [LoadScene] rejects the model index, the freshly loaded scene has
    replaced the scene of the session and nothing else has changed: a session
    that was initialized stays initialized, with a planning model that still
    refers to the scene loaded before. *)
Theorem X7_LoadScene_rejected_index E st path idx st' :
  LoadScene E (Some st) (Some path) idx = (RL_ERROR_INVALID_PARAMETER, Some st') →
  ∃ sc0 sc,
    new_Scene E = Returns sc0 ∧ scene_load E sc0 path = Returns sc
    ∧ (idx < 0 ∨ static_cast_int (length (scene_models sc)) ≤ idx)
    ∧ st' = set_scene (Some sc) st
    ∧ st_model st' = st_model st ∧ st_robotModel st' = st_robotModel st
    ∧ st_initialized st' = st_initialized st.
Proof.
  unfold LoadScene, run.
  unfold LoadScene_body, createScene, connect_model. unfold_M.
  destruct (new_Scene E) as [sc0| |] eqn:Hnew; simpl; try (unfold_codes; congruence).
  destruct (scene_load E sc0 path) as [sc| |] eqn:Hload; simpl;
    try (unfold_codes; congruence).
  destruct (Z.ltb_spec idx 0); simpl.
  { intros [= <-]. exists sc0, sc. repeat apply conj; auto. }
  destruct (Z.leb_spec (static_cast_int (length (scene_models sc))) idx); simpl.
  { intros [= <-]. exists sc0, sc. repeat apply conj; auto. }
  destruct (scene_kind sc); simpl; try (unfold_codes; congruence).
  all: destruct (st_kinematics st) as [k|]; simpl;
    [destruct (kin_isDynamic k); simpl|unfold_codes; congruence].
  all: destruct (scene_models sc !! Z.to_nat idx) as [r|] eqn:Hr; simpl;
    try (unfold_codes; congruence).
  all: match goal with
       | |- context [model_getDofPosition ?e ?m] =>
           destruct (model_getDofPosition e m) as [n| |] eqn:Hn; simpl
       end; unfold_codes; congruence.
Qed.

Lemma X7_witness :
  let r := LoadScene Demo.engine (Some Demo.loaded_state) (Some "scene.xml") 1 in
  r.1 = RL_ERROR_INVALID_PARAMETER
  ∧ (r.2 ≫= st_model) = st_model Demo.loaded_state
  ∧ (st_initialized <$> r.2) = Some true.
Proof.
  destruct (X7_LoadScene_rejected_index Demo.engine Demo.loaded_state "scene.xml" 1
              (set_scene (Some {| scene_addr := 100; scene_kind := SimpleScene;
                                  scene_models := [101%nat] |}) Demo.loaded_state)
              eq_refl)
    as (sc0 & sc & _ & _ & _ & _ & Hm & _ & Hi).
  repeat split.
Defined.

(** ** [SetStartConfiguration] and [SetGoalConfiguration] *)

(** Copying as many values as the array holds gives the array back. *)
Lemma copy_array_exact (a : list float) :
  copy_array a (Z.of_nat (length a)) = a.
Proof.
  apply list_eq. intros i.
  destruct (decide (i < length a)%nat) as [Hi|Hi].
  - rewrite lookup_copy_array by lia. unfold vec_at.
    destruct (lookup_lt_is_Some_2 a i Hi) as [x ->]. reflexivity.
  - rewrite (lookup_ge_None_2 a) by lia. apply lookup_ge_None_2.
    rewrite length_copy_array. lia.
Qed.

(** The runs of the body of [SetStartConfiguration], by how far they get. *)
Lemma SetStartConfiguration_body_cases E config configSize st :
  let r := SetStartConfiguration_body E config configSize st in
  (r.1 = st
   ∧ ((r.2 = Returns RL_ERROR_NOT_INITIALIZED
       ∧ (st_initialized st = false ∨ st_model st = None))
      ∨ (r.2 = Returns RL_ERROR_EXCEPTION ∧ session_dof E st = None)
      ∨ (r.2 = Returns RL_ERROR_INVALID_PARAMETER
         ∧ ∃ n, session_dof E st = Some n ∧ configSize ≠ static_cast_int n)))
  ∨ (∃ m n, st_model st = Some m ∧ st_initialized st = true
       ∧ model_getDofPosition E m = Returns n ∧ configSize = static_cast_int n
       ∧ ((r.1 = set_start (Some (copy_array config configSize)) st
           ∧ ((r.2 = Returns RL_ERROR_INVALID_PARAMETER
               ∧ model_isValid E m (copy_array config configSize) = Returns false)
              ∨ (r.2 = Returns RL_ERROR_EXCEPTION
                 ∧ ∀ b, model_isValid E m (copy_array config configSize) ≠ Returns b)))
          ∨ (r.1 = rebind_planner (planner_set_start StoredStart)
                     (set_start (Some (copy_array config configSize)) st)
             ∧ r.2 = Returns RL_SUCCESS
             ∧ model_isValid E m (copy_array config configSize) = Returns true))).
Proof.
  unfold SetStartConfiguration_body, session_dof. unfold_M.
  destruct (st_model st) as [m|] eqn:Hm; simpl; [|left; auto].
  destruct (st_initialized st) eqn:Hi; simpl; [|left; auto].
  destruct (model_getDofPosition E m) as [n| |] eqn:Hn; simpl; [|left; auto..].
  destruct (Z.eqb_spec configSize (static_cast_int n)) as [->|Hne]; simpl.
  2: { left. split; [reflexivity|]. right. right. eauto. }
  right. exists m, n. repeat (split; [first [reflexivity|assumption]|]).
  destruct (model_isValid E m _) as [[]| |] eqn:Hv; simpl.
  - right. auto.
  - left. auto.
  - left. split; [reflexivity|]. right. split; [reflexivity|]. congruence.
  - left. split; [reflexivity|]. right. split; [reflexivity|]. congruence.
Qed.

Lemma SetGoalConfiguration_body_cases E config configSize st :
  let r := SetGoalConfiguration_body E config configSize st in
  (r.1 = st
   ∧ ((r.2 = Returns RL_ERROR_NOT_INITIALIZED
       ∧ (st_initialized st = false ∨ st_model st = None))
      ∨ (r.2 = Returns RL_ERROR_EXCEPTION ∧ session_dof E st = None)
      ∨ (r.2 = Returns RL_ERROR_INVALID_PARAMETER
         ∧ ∃ n, session_dof E st = Some n ∧ configSize ≠ static_cast_int n)))
  ∨ (∃ m n, st_model st = Some m ∧ st_initialized st = true
       ∧ model_getDofPosition E m = Returns n ∧ configSize = static_cast_int n
       ∧ ((r.1 = set_goal (Some (copy_array config configSize)) st
           ∧ ((r.2 = Returns RL_ERROR_INVALID_PARAMETER
               ∧ model_isValid E m (copy_array config configSize) = Returns false)
              ∨ (r.2 = Returns RL_ERROR_EXCEPTION
                 ∧ ∀ b, model_isValid E m (copy_array config configSize) ≠ Returns b)))
          ∨ (r.1 = rebind_planner (planner_set_goal StoredGoal)
                     (set_goal (Some (copy_array config configSize)) st)
             ∧ r.2 = Returns RL_SUCCESS
             ∧ model_isValid E m (copy_array config configSize) = Returns true))).
Proof.
  unfold SetGoalConfiguration_body, session_dof. unfold_M.
  destruct (st_model st) as [m|] eqn:Hm; simpl; [|left; auto].
  destruct (st_initialized st) eqn:Hi; simpl; [|left; auto].
  destruct (model_getDofPosition E m) as [n| |] eqn:Hn; simpl; [|left; auto..].
  destruct (Z.eqb_spec configSize (static_cast_int n)) as [->|Hne]; simpl.
  2: { left. split; [reflexivity|]. right. right. eauto. }
  right. exists m, n. repeat (split; [first [reflexivity|assumption]|]).
  destruct (model_isValid E m _) as [[]| |] eqn:Hv; simpl.
  - right. auto.
  - left. auto.
  - left. split; [reflexivity|]. right. split; [reflexivity|]. congruence.
  - left. split; [reflexivity|]. right. split; [reflexivity|]. congruence.
Qed.

(** X8: [SetStartConfiguration] and [SetGoalConfiguration] return one of five
    codes, never [RL_ERROR_LOAD_FAILED] or [RL_ERROR_PLANNING_FAILED], and
    [RL_ERROR_INVALID_POINTER] exactly for a null argument.  The first assigns
    the stored start and the start pointer of the planner only, the second the
    stored goal and the goal pointer of the planner only; the planner is
    touched by a call that returns [RL_SUCCESS] and by no other. *)
Theorem X8_set_configuration_codes_and_frame E planner config configSize :
  let rs := SetStartConfiguration E planner config configSize in
  let rg := SetGoalConfiguration E planner config configSize in
  (∀ r, r = rs ∨ r = rg →
     (r.1 = RL_SUCCESS ∨ r.1 = RL_ERROR_INVALID_POINTER
      ∨ r.1 = RL_ERROR_INVALID_PARAMETER ∨ r.1 = RL_ERROR_NOT_INITIALIZED
      ∨ r.1 = RL_ERROR_EXCEPTION)
     ∧ (r.1 = RL_ERROR_INVALID_POINTER ↔ planner = None ∨ config = None)
     ∧ (r.1 = RL_ERROR_INVALID_POINTER → r.2 = planner))
  ∧ (∀ st, planner = Some st →
       ∃ st', rs.2 = Some st'
         ∧ st' = set_planner (st_planner st') (set_start (st_start st') st)
         ∧ st_planner st'
           = (if bool_decide (rs.1 = RL_SUCCESS)
              then planner_set_start StoredStart <$> st_planner st
              else st_planner st))
  ∧ (∀ st, planner = Some st →
       ∃ st', rg.2 = Some st'
         ∧ st' = set_planner (st_planner st') (set_goal (st_goal st') st)
         ∧ st_planner st'
           = (if bool_decide (rg.1 = RL_SUCCESS)
              then planner_set_goal StoredGoal <$> st_planner st
              else st_planner st)).
Proof.
  cbv zeta. unfold SetStartConfiguration, SetGoalConfiguration.
  destruct planner as [st|], config as [cfg|]; simpl.
  2-4: repeat apply conj;
    [ intros r [->| ->]; simpl; (repeat apply conj; auto;
        intros [|]; discriminate) || (repeat apply conj; auto)
    | first [intros ? [=]; fail
            |intros ? [= <-]; exists st; destruct st; repeat split]..].
  destruct (Z.leb_spec configSize 0); simpl.
  { repeat apply conj.
    - intros r [->| ->]; simpl; repeat apply conj; auto;
        try (unfold_codes; intros [=]); intros [|]; discriminate.
    - intros ? [= <-]. exists st. destruct st; repeat split.
    - intros ? [= <-]. exists st. destruct st; repeat split. }
  unfold run.
  pose proof (SetStartConfiguration_body_cases E cfg configSize st) as Hs.
  pose proof (SetGoalConfiguration_body_cases E cfg configSize st) as Hg.
  cbv zeta in Hs, Hg.
  destruct (SetStartConfiguration_body E cfg configSize st) as [ss os].
  destruct (SetGoalConfiguration_body E cfg configSize st) as [sg og].
  simpl in Hs, Hg.
  assert (Hcodes : ∀ (s : PlannerState) (o : outcome Z),
    (o = Returns RL_SUCCESS ∨ o = Returns RL_ERROR_INVALID_PARAMETER
     ∨ o = Returns RL_ERROR_NOT_INITIALIZED ∨ o = Returns RL_ERROR_EXCEPTION) →
    let r := (result_of o RL_ERROR_EXCEPTION, Some s) in
    (r.1 = RL_SUCCESS ∨ r.1 = RL_ERROR_INVALID_POINTER
      ∨ r.1 = RL_ERROR_INVALID_PARAMETER ∨ r.1 = RL_ERROR_NOT_INITIALIZED
      ∨ r.1 = RL_ERROR_EXCEPTION)
     ∧ (r.1 = RL_ERROR_INVALID_POINTER ↔ Some st = None ∨ Some cfg = None)
     ∧ (r.1 = RL_ERROR_INVALID_POINTER → r.2 = Some st)).
  { intros s o Ho. simpl.
    destruct Ho as [->|[->|[->| ->]]]; simpl; repeat apply conj; auto;
      try (unfold_codes; intros [=]); intros [|]; discriminate. }
  repeat apply conj.
  - intros r [->| ->]; simpl.
    + apply (Hcodes ss).
      destruct Hs as [(_ & [[-> _]|[[-> _]|[-> _]]])
                     |(m & n & _ & _ & _ & _ &
                       [(_ & [[-> _]|[-> _]])|(_ & -> & _)])]; auto.
    + apply (Hcodes sg).
      destruct Hg as [(_ & [[-> _]|[[-> _]|[-> _]]])
                     |(m & n & _ & _ & _ & _ &
                       [(_ & [[-> _]|[-> _]])|(_ & -> & _)])]; auto.
  - intros ? [= <-]. exists ss. simpl. split; [reflexivity|].
    destruct Hs as [(-> & [[-> _]|[[-> _]|[-> _]]])
                   |(m & n & _ & _ & _ & _ &
                     [(-> & [[-> _]|[-> _]])|(-> & -> & _)])]; simpl;
      try (split; [destruct st; reflexivity|reflexivity]).
    unfold rebind_planner; simpl. destruct st as [? ? ? ? ? ? [p|]]; simpl;
      split; reflexivity.
  - intros ? [= <-]. exists sg. simpl. split; [reflexivity|].
    destruct Hg as [(-> & [[-> _]|[[-> _]|[-> _]]])
                   |(m & n & _ & _ & _ & _ &
                     [(-> & [[-> _]|[-> _]])|(-> & -> & _)])]; simpl;
      try (split; [destruct st; reflexivity|reflexivity]).
    unfold rebind_planner; simpl. destruct st as [? ? ? ? ? ? [p|]]; simpl;
      split; reflexivity.
Qed.

(** X9: on an initialized session whose planning model reports as many joints
    as [configSize], both setters store the copy of the array before they ask
    the planning model about it: the copy is the stored vector whatever the
    code, the code is [RL_SUCCESS] exactly when the model accepts the copy and
    [RL_ERROR_INVALID_PARAMETER] exactly when it rejects it. *)
Theorem X9_configuration_stored_before_validation E st m n config configSize :
  st_model st = Some m → st_initialized st = true →
  model_getDofPosition E m = Returns n →
  configSize = static_cast_int n → 0 < configSize →
  let v := copy_array config configSize in
  let rs := SetStartConfiguration E (Some st) (Some config) configSize in
  let rg := SetGoalConfiguration E (Some st) (Some config) configSize in
  (rs.2 ≫= st_start) = Some v
  ∧ (rg.2 ≫= st_goal) = Some v
  ∧ (rs.1 = RL_SUCCESS ↔ model_isValid E m v = Returns true)
  ∧ (rg.1 = RL_SUCCESS ↔ model_isValid E m v = Returns true)
  ∧ (rs.1 = RL_ERROR_INVALID_PARAMETER ↔ model_isValid E m v = Returns false)
  ∧ (rg.1 = RL_ERROR_INVALID_PARAMETER ↔ model_isValid E m v = Returns false).
Proof.
  intros Hm Hi Hn Hsize Hpos. cbv zeta.
  unfold SetStartConfiguration, SetGoalConfiguration, run.
  destruct (Z.leb_spec configSize 0); [lia|].
  unfold SetStartConfiguration_body, SetGoalConfiguration_body, rebind_planner.
  unfold_M. rewrite Hm, Hi. simpl. rewrite Hn. simpl.
  rewrite <- Hsize, Z.eqb_refl. simpl.
  destruct (model_isValid E m _) as [[]| |]; simpl;
    destruct (st_planner st); simpl; unfold_codes;
    repeat apply conj; try reflexivity; intros Heq;
    first [reflexivity | discriminate Heq].
Qed.

Lemma X9_witness :
  let r := SetStartConfiguration Demo.engine (Some Demo.loaded_state)
             (Some Demo.q_far) 3 in
  (r.2 ≫= st_start) = Some Demo.q_far ∧ r.1 = RL_ERROR_INVALID_PARAMETER.
Proof.
  cbv zeta.
  destruct (X9_configuration_stored_before_validation Demo.engine Demo.loaded_state
              (default (connect_model None None
                          {| scene_addr := 0%nat; scene_kind := OtherScene;
                             scene_models := [] |})
                 (st_model Demo.loaded_state))
              3%nat Demo.q_far 3 eq_refl eq_refl eq_refl eq_refl eq_refl)
    as (Hs & _ & _ & _ & Hr & _).
  split; [exact Hs|]. apply Hr. reflexivity.
Defined.

(** X10: a configuration whose size is not the joint count of the planning
    model is refused with [RL_ERROR_INVALID_PARAMETER] by both setters, and
    the session is left exactly as it was; so is one setter called where the
    joint count cannot be read, with [RL_ERROR_EXCEPTION]. *)
Theorem X10_wrong_size_leaves_session E st m config configSize :
  st_model st = Some m → st_initialized st = true →
  (∀ n, model_getDofPosition E m = Returns n → configSize ≠ static_cast_int n) →
  let code := match model_getDofPosition E m with
              | Returns _ => RL_ERROR_INVALID_PARAMETER
              | _ => if configSize <=? 0 then RL_ERROR_INVALID_PARAMETER
                     else RL_ERROR_EXCEPTION
              end in
  SetStartConfiguration E (Some st) (Some config) configSize = (code, Some st)
  ∧ SetGoalConfiguration E (Some st) (Some config) configSize = (code, Some st).
Proof.
  intros Hm Hi Hn. cbv zeta.
  unfold SetStartConfiguration, SetGoalConfiguration, run.
  destruct (Z.leb_spec configSize 0).
  { destruct (model_getDofPosition E m); auto. }
  unfold SetStartConfiguration_body, SetGoalConfiguration_body. unfold_M.
  rewrite Hm, Hi. simpl.
  destruct (model_getDofPosition E m) as [n| |]; simpl; auto.
  destruct (Z.eqb_spec configSize (static_cast_int n)) as [Heq|Hne]; simpl; auto.
  destruct (Hn n eq_refl Heq).
Qed.

Lemma X10_witness :
  SetStartConfiguration Demo.engine (Some Demo.loaded_state) (Some Demo.q_start) 2
  = (RL_ERROR_INVALID_PARAMETER, Some Demo.loaded_state)
  ∧ SetGoalConfiguration Demo.engine (Some Demo.loaded_state) (Some Demo.q_start) 2
    = (RL_ERROR_INVALID_PARAMETER, Some Demo.loaded_state).
Proof.
  apply (X10_wrong_size_leaves_session Demo.engine Demo.loaded_state
           (default (connect_model None None
                       {| scene_addr := 0%nat; scene_kind := OtherScene;
                          scene_models := [] |})
              (st_model Demo.loaded_state))
           Demo.q_start 2 eq_refl eq_refl).
  intros n [= <-]. vm_compute. discriminate.
Defined.

(** ** [PlanTrajectory] *)

(** The second part returns [RL_SUCCESS] or [RL_ERROR_PLANNING_FAILED], or
    throws. *)
Lemma solve_and_copy_codes E c dof maxWaypoints w :
  let o := (solve_and_copy E c dof maxWaypoints w).2 in
  o = Returns RL_SUCCESS ∨ o = Returns RL_ERROR_PLANNING_FAILED
  ∨ o = ThrowsStd ∨ o = ThrowsOther.
Proof. unfold solve_and_copy. run_body; auto. Qed.

(** The two ways a [PlanTrajectory] call on a session runs: it returns before
    it reaches the planner, with the outputs untouched, or it makes the planner
    call the first part has prepared. *)
Lemma PlanTrajectory_cases E st start startSize goal goalSize useZAxis plannerType
    delta epsilon timeoutMs buf maxWaypoints cnt :
  let r := PlanTrajectory E (Some st) start startSize goal goalSize useZAxis plannerType
             delta epsilon timeoutMs (Some buf) maxWaypoints (Some cnt) in
  let b := bind_planner E start startSize goal goalSize useZAxis plannerType
             delta epsilon timeoutMs st in
  pr_state r = Some b.1
  ∧ ((pr_call r = None
      ∧ pr_waypoints r = Some buf ∧ pr_waypointCount r = Some cnt
      ∧ (∀ dof c, b.2 ≠ Returns (inr (dof, c)))
      ∧ (pr_ret r = RL_ERROR_NOT_INITIALIZED ∨ pr_ret r = RL_ERROR_INVALID_PARAMETER
         ∨ pr_ret r = RL_ERROR_PLANNING_FAILED ∨ pr_ret r = RL_ERROR_EXCEPTION))
     ∨ (∃ dof c, b.2 = Returns (inr (dof, c))
          ∧ pr_call r = Some c
          ∧ (pr_ret r = RL_SUCCESS ∨ pr_ret r = RL_ERROR_PLANNING_FAILED
             ∨ pr_ret r = RL_ERROR_EXCEPTION))).
Proof.
  cbv zeta. rewrite PlanTrajectory_unfold. cbv zeta.
  destruct (bind_planner _ _ _ _ _ _ _ _ _ _ _) as [st' [[code|[dof c]]| |]] eqn:Hb;
    simpl.
  - split; [reflexivity|]. left. repeat split; try discriminate.
    destruct (bind_planner_code _ _ _ _ _ _ _ _ _ _ _ _ _ Hb) as [->| ->]; auto.
  - match goal with
    | |- context [solve_and_copy E c dof maxWaypoints ?w] =>
        pose proof (solve_and_copy_session E c dof maxWaypoints w) as [Hst Hcall];
        pose proof (solve_and_copy_codes E c dof maxWaypoints w) as Hcodes
    end.
    cbv zeta in Hcodes.
    destruct (solve_and_copy _ _ _ _ _) as [w' o]. simpl in *.
    destruct Hcodes as [->|[->|[->| ->]]]; simpl; (split; [congruence|]);
      right; exists dof, c; auto.
  - split; [reflexivity|]. left. repeat split; try discriminate. auto.
  - split; [reflexivity|]. left. repeat split; try discriminate. auto.
Qed.

(** X11: [PlanTrajectory] returns one of six codes, never
    [RL_ERROR_LOAD_FAILED]; [RL_ERROR_INVALID_POINTER] exactly when the handle,
    the buffer or the count pointer is null, a null [start] or [goal] is not
    one; with [RL_ERROR_INVALID_POINTER], [RL_ERROR_NOT_INITIALIZED] and
    [RL_ERROR_INVALID_PARAMETER] the planner has not been called and the buffer
    and the count are as they were; [RL_SUCCESS] comes from a planner call
    only. *)
Theorem X11_PlanTrajectory_codes E planner start startSize goal goalSize useZAxis
    plannerType delta epsilon timeoutMs waypoints maxWaypoints waypointCount :
  let r := PlanTrajectory E planner start startSize goal goalSize useZAxis plannerType
             delta epsilon timeoutMs waypoints maxWaypoints waypointCount in
  (pr_ret r = RL_SUCCESS ∨ pr_ret r = RL_ERROR_INVALID_POINTER
   ∨ pr_ret r = RL_ERROR_INVALID_PARAMETER ∨ pr_ret r = RL_ERROR_PLANNING_FAILED
   ∨ pr_ret r = RL_ERROR_NOT_INITIALIZED ∨ pr_ret r = RL_ERROR_EXCEPTION)
  ∧ (pr_ret r = RL_ERROR_INVALID_POINTER
     ↔ planner = None ∨ waypoints = None ∨ waypointCount = None)
  ∧ (pr_ret r = RL_ERROR_INVALID_POINTER → pr_state r = planner)
  ∧ (pr_ret r = RL_ERROR_INVALID_POINTER ∨ pr_ret r = RL_ERROR_NOT_INITIALIZED
     ∨ pr_ret r = RL_ERROR_INVALID_PARAMETER →
     pr_call r = None ∧ pr_waypoints r = waypoints
     ∧ pr_waypointCount r = waypointCount)
  ∧ (pr_ret r = RL_SUCCESS → is_Some (pr_call r)).
Proof.
  cbv zeta.
  destruct planner as [st|], waypoints as [buf|], waypointCount as [cnt|].
  2-8: simpl; repeat apply conj; auto; try discriminate; unfold_codes;
    intros _; auto.
  pose proof (PlanTrajectory_cases E st start startSize goal goalSize useZAxis
                plannerType delta epsilon timeoutMs buf maxWaypoints cnt) as H.
  cbv zeta in H.
  destruct (PlanTrajectory E (Some st) _ _ _ _ _ _ _ _ _ _ _ _) as [ret s' b' c' call].
  simpl in *. destruct H as [_ H].
  destruct H as [(-> & -> & -> & _ & Hret)|(dof & c & _ & -> & Hret)].
  - destruct Hret as [->|[->|[->| ->]]]; unfold_codes; repeat apply conj;
      auto 10; try (intros [=]; fail); try (intros [|[|]]; discriminate).
  - destruct Hret as [->|[->| ->]]; unfold_codes; repeat apply conj;
      auto 10; try (intros [=]; fail); try (intros [|[|]]; discriminate);
      try (intros _; eexists; reflexivity).
Qed.

(** [create_components] assigns the planner, its three components and the
    four planner parameters only, and a component that is there is kept. *)
Lemma create_components_keeps m plannerType delta epsilon timeoutMs st :
  let r := create_components m plannerType delta epsilon timeoutMs st in
  st_scene r.1 = st_scene st ∧ st_mdl r.1 = st_mdl st
  ∧ st_robotModel r.1 = st_robotModel st
  ∧ (∀ x, st_sampler st = Some x → st_sampler r.1 = Some x)
  ∧ (∀ x, st_verifier st = Some x → st_verifier r.1 = Some x)
  ∧ (∀ x, st_nearestNeighbors st = Some x → st_nearestNeighbors r.1 = Some x)
  ∧ is_Some (st_sampler r.1) ∧ is_Some (st_verifier r.1)
  ∧ is_Some (st_nearestNeighbors r.1)
  ∧ (∀ code, r.2 = Returns (inl code) → st_planner r.1 = st_planner st)
  ∧ (∃ x, r.2 = Returns x).
Proof.
  unfold create_components.
  run_body; repeat split; intros; simplify_eq; eauto.
Qed.

(** What the first part of [PlanTrajectory] does to the session. *)
Lemma bind_planner_frame E start startSize goal goalSize useZAxis plannerType
    delta epsilon timeoutMs st :
  let b := bind_planner E start startSize goal goalSize useZAxis plannerType
             delta epsilon timeoutMs st in
  st_scene b.1 = st_scene st ∧ st_mdl b.1 = st_mdl st
  ∧ st_robotModel b.1 = st_robotModel st ∧ st_optimizer b.1 = st_optimizer st
  ∧ (∀ x, st_sampler st = Some x → st_sampler b.1 = Some x)
  ∧ (∀ x, st_verifier st = Some x → st_verifier b.1 = Some x)
  ∧ (∀ x, st_nearestNeighbors st = Some x → st_nearestNeighbors b.1 = Some x)
  ∧ (is_Some (st_planner st) → b.1 = set_planner (st_planner b.1) st)
  ∧ (∀ dof c, b.2 = Returns (inr (dof, c)) →
       st_planner b.1 = Some (call_planner c))
  ∧ ((∀ dof c, b.2 ≠ Returns (inr (dof, c))) → st_planner b.1 = st_planner st).
Proof.
  cbv zeta. unfold bind_planner. unfold_M.
  assert (Hid : st = set_planner (st_planner st) st) by (destruct st; reflexivity).
  destruct (st_model st) as [m|] eqn:Hm; simpl;
    [|solve [repeat split; intros; simplify_eq; eauto]].
  destruct (negb (st_initialized st)); simpl;
    [solve [repeat split; intros; simplify_eq; eauto]|].
  destruct (model_getDofPosition E m); simpl;
    [|solve [repeat split; intros; simplify_eq; eauto]..].
  destruct (resolve_start _ _ _ _); simpl;
    [solve [repeat split; intros; simplify_eq; eauto]|].
  destruct (resolve_goal _ _ _ _ _ _); simpl;
    [solve [repeat split; intros; simplify_eq; eauto]|].
  destruct (st_planner st) as [p|] eqn:Hp; simpl.
  { repeat split; intros; simplify_eq; eauto;
      first [ destruct st; reflexivity
            | match goal with H : ∀ dof c, _ ≠ _ |- _ => destruct (H _ _ eq_refl) end ]. }
  pose proof (create_components_keeps m plannerType delta epsilon timeoutMs st)
    as (H1 & H2 & H3 & H4 & H5 & H6 & H7 & H8 & H9 & H10 & [x Hx]).
  pose proof (create_components_frame m plannerType delta epsilon timeoutMs st)
    as (_ & _ & _ & _ & _ & H11).
  cbv zeta in *.
  destruct (create_components _ _ _ _ _ _) as [st1 [[code|p0]| |]]; simpl in *;
    try discriminate.
  - specialize (H10 _ eq_refl). rewrite Hp in H10.
    repeat split; intros; simplify_eq; eauto;
      match goal with H : is_Some None |- _ => destruct H; discriminate end.
  - repeat split; intros; simplify_eq; eauto;
      first [ match goal with H : is_Some None |- _ => destruct H; discriminate end
            | match goal with H : ∀ dof c, _ ≠ _ |- _ => destruct (H _ _ eq_refl) end ].
Qed.

(** X12: what a [PlanTrajectory] call does to the session.  It never assigns
    the scene, the kinematics, the planning model, the robot model,
    [initialized], the optimizer or the stored start and goal: the arrays of
    the call are not stored.  A sampler, a verifier and a nearest-neighbours
    structure that are there are kept.  On a session that has a planner only
    the planner field is assigned.  The planner of a call that reaches it is
    the planner of the session afterwards; a call that does not reach a
    planner leaves the planner field as it was. *)
Theorem X12_PlanTrajectory_session_frame E st start startSize goal goalSize useZAxis
    plannerType delta epsilon timeoutMs buf maxWaypoints cnt :
  let r := PlanTrajectory E (Some st) start startSize goal goalSize useZAxis plannerType
             delta epsilon timeoutMs (Some buf) maxWaypoints (Some cnt) in
  ∃ st', pr_state r = Some st'
    ∧ st_scene st' = st_scene st ∧ st_kinematics st' = st_kinematics st
    ∧ st_mdl st' = st_mdl st ∧ st_model st' = st_model st
    ∧ st_robotModel st' = st_robotModel st
    ∧ st_initialized st' = st_initialized st
    ∧ st_optimizer st' = st_optimizer st
    ∧ st_start st' = st_start st ∧ st_goal st' = st_goal st
    ∧ (∀ x, st_sampler st = Some x → st_sampler st' = Some x)
    ∧ (∀ x, st_verifier st = Some x → st_verifier st' = Some x)
    ∧ (∀ x, st_nearestNeighbors st = Some x → st_nearestNeighbors st' = Some x)
    ∧ (is_Some (st_planner st) → st' = set_planner (st_planner st') st)
    ∧ (∀ c, pr_call r = Some c → st_planner st' = Some (call_planner c))
    ∧ (pr_call r = None → st_planner st' = st_planner st).
Proof.
  cbv zeta.
  pose proof (PlanTrajectory_cases E st start startSize goal goalSize useZAxis
                plannerType delta epsilon timeoutMs buf maxWaypoints cnt) as [Hst Hc].
  pose proof (bind_planner_frame E start startSize goal goalSize useZAxis plannerType
                delta epsilon timeoutMs st)
    as (H1 & H2 & H3 & H4 & H5 & H6 & H7 & H8 & H9 & H10).
  pose proof (bind_planner_wiring E start startSize goal goalSize useZAxis plannerType
                delta epsilon timeoutMs st) as [(W1 & W2 & W3) [V1 V2]].
  cbv zeta in *.
  eexists. split; [exact Hst|].
  repeat apply conj; try solve [assumption | symmetry; assumption].
  - intros c Hcall.
    destruct Hc as [(Hnone & _)|(dof & c' & Hb & Hcall' & _)]; [congruence|].
    rewrite Hcall in Hcall'. injection Hcall' as <-. exact (H9 _ _ Hb).
  - intros Hnone.
    destruct Hc as [(_ & _ & _ & Hne & _)|(dof & c' & _ & Hcall' & _)]; [|congruence].
    exact (H10 Hne).
Qed.

(** An array whose size is zero or negative resolves like a null array. *)
Lemma resolve_start_not_given st a startSize dof :
  startSize ≤ 0 → resolve_start st (Some a) startSize dof = resolve_start st None 0 dof.
Proof.
  intros H. unfold resolve_start, provided.
  destruct (Z.ltb_spec 0 startSize); [lia|reflexivity].
Qed.

Lemma resolve_goal_not_given st startVec a goalSize dof useZAxis :
  goalSize ≤ 0 →
  resolve_goal st startVec (Some a) goalSize dof useZAxis
  = resolve_goal st startVec None 0 dof useZAxis.
Proof.
  intros H. unfold resolve_goal, provided.
  destruct (Z.ltb_spec 0 goalSize); [lia|reflexivity].
Qed.

(** X13: [PlanTrajectory] treats a [start] or a [goal] array that comes with a
    size of zero or less exactly like a null array: the whole result of the call
    is the one of the call without the array, which plans from the stored
    vector. *)
Theorem X13_array_without_size_is_not_given E planner start startSize goal goalSize
    useZAxis plannerType delta epsilon timeoutMs waypoints maxWaypoints waypointCount :
  let plan start startSize goal goalSize :=
    PlanTrajectory E planner start startSize goal goalSize useZAxis plannerType
      delta epsilon timeoutMs waypoints maxWaypoints waypointCount in
  (startSize ≤ 0 → plan start startSize goal goalSize = plan None 0 goal goalSize)
  ∧ (goalSize ≤ 0 → plan start startSize goal goalSize = plan start startSize None 0).
Proof.
  cbv zeta.
  destruct planner as [st|], waypoints as [buf|], waypointCount as [cnt|];
    try (split; reflexivity).
  rewrite !PlanTrajectory_unfold. cbv zeta.
  split; intros Hsize.
  - destruct start as [a|].
    + replace (bind_planner E (Some a) startSize goal goalSize useZAxis plannerType
                 delta epsilon timeoutMs st)
        with (bind_planner E None 0 goal goalSize useZAxis plannerType
                delta epsilon timeoutMs st); [reflexivity|].
      unfold bind_planner. unfold_M.
      destruct (st_model st); [|reflexivity].
      destruct (negb (st_initialized st)); [reflexivity|].
      destruct (model_getDofPosition E _); try reflexivity.
      now rewrite (resolve_start_not_given st a startSize) by assumption.
    + replace (bind_planner E None startSize goal goalSize useZAxis plannerType
                 delta epsilon timeoutMs st)
        with (bind_planner E None 0 goal goalSize useZAxis plannerType
                delta epsilon timeoutMs st); reflexivity.
  - destruct goal as [a|].
    + replace (bind_planner E start startSize (Some a) goalSize useZAxis plannerType
                 delta epsilon timeoutMs st)
        with (bind_planner E start startSize None 0 useZAxis plannerType
                delta epsilon timeoutMs st); [reflexivity|].
      unfold bind_planner. unfold_M.
      destruct (st_model st); [|reflexivity].
      destruct (negb (st_initialized st)); [reflexivity|].
      destruct (model_getDofPosition E _); try reflexivity.
      destruct (resolve_start _ _ _ _); [reflexivity|].
      now rewrite (resolve_goal_not_given st _ a goalSize) by assumption.
    + replace (bind_planner E start startSize None goalSize useZAxis plannerType
                 delta epsilon timeoutMs st)
        with (bind_planner E start startSize None 0 useZAxis plannerType
                delta epsilon timeoutMs st); reflexivity.
Qed.

(** The planner type [create_components] decides on is the one chosen on the
    session it starts from, and with a type [createPlanner] knows it returns a
    planner. *)
Lemma create_components_known m plannerType delta epsilon timeoutMs st :
  known_plannerType (choose_plannerType st plannerType) = true →
  ∃ st1 p0,
    create_components m plannerType delta epsilon timeoutMs st = (st1, Returns (inr p0)).
Proof.
  intros Hk. unfold create_components. unfold_M.
  destruct (st_sampler st), (st_verifier st), (st_nearestNeighbors st); simpl.
  all: match goal with
       | |- context [createPlanner ?s ?a ?b ?c ?d ?e] =>
           change s with (choose_plannerType st plannerType);
           destruct (createPlanner_known (choose_plannerType st plannerType)
                       a b c d e Hk) as [p ->]
       end; simpl; eauto.
Qed.

(** The first part of [PlanTrajectory] reaches the planner call when the session
    is initialized, the joint count can be read, both vectors resolve, and the
    session has a planner or the type of the one to create is known. *)
Lemma bind_planner_reaches E start startSize goal goalSize useZAxis plannerType
    delta epsilon timeoutMs st m n startVec goalVec :
  st_model st = Some m → st_initialized st = true →
  model_getDofPosition E m = Returns n →
  resolve_start st start startSize (static_cast_int n) = inr startVec →
  resolve_goal st startVec goal goalSize (static_cast_int n) useZAxis = inr goalVec →
  is_Some (st_planner st)
  ∨ known_plannerType (choose_plannerType st plannerType) = true →
  ∃ st' c,
    bind_planner E start startSize goal goalSize useZAxis plannerType
      delta epsilon timeoutMs st = (st', Returns (inr (static_cast_int n, c))).
Proof.
  intros Hm Hi Hn Hs Hg Hp. unfold bind_planner. unfold_M.
  rewrite Hm, Hi. simpl. rewrite Hn. simpl. rewrite Hs, Hg.
  destruct (st_planner st) as [p|] eqn:Hpl; simpl; [eauto|].
  destruct Hp as [[? [=]]|Hk].
  destruct (create_components_known m plannerType delta epsilon timeoutMs st Hk)
    as (st1 & p0 & ->).
  simpl. eauto.
Qed.

Lemma bound_planner_vectors startVec goalVec timeoutMs p :
  planner_start (bound_planner startVec goalVec timeoutMs p) = startVec
  ∧ planner_goal (bound_planner startVec goalVec timeoutMs p) = goalVec.
Proof. unfold bound_planner. destruct (0 <? timeoutMs); split; reflexivity. Qed.

(** A setter that returns [RL_SUCCESS] has stored the copy of its array on an
    initialized session whose joint count is the size it was given. *)
Lemma SetStartConfiguration_stores E st config n st1 :
  SetStartConfiguration E (Some st) (Some config) n = (RL_SUCCESS, Some st1) →
  ∃ m d, st_model st1 = Some m ∧ st_initialized st1 = true
    ∧ model_getDofPosition E m = Returns d ∧ n = static_cast_int d
    ∧ st_start st1 = Some (copy_array config n) ∧ st_goal st1 = st_goal st.
Proof.
  unfold SetStartConfiguration, run.
  destruct (n <=? 0); [unfold_codes; congruence|].
  pose proof (SetStartConfiguration_body_cases E config n st) as H. cbv zeta in H.
  destruct (SetStartConfiguration_body E config n st) as [s o]. simpl in *.
  intros [= Ho <-].
  destruct H as [(_ & [[-> _]|[[-> _]|[-> _]]])
                |(m & d & Hm & Hi & Hd & Hn & [(_ & [[-> _]|[-> _]])|(-> & _ & _)])];
    simpl in Ho; try (revert Ho; unfold_codes; discriminate).
  exists m, d. unfold rebind_planner. simpl.
  destruct (st_planner st); simpl; repeat split; assumption.
Qed.

Lemma SetGoalConfiguration_stores E st config n st1 :
  SetGoalConfiguration E (Some st) (Some config) n = (RL_SUCCESS, Some st1) →
  ∃ m d, st_model st1 = Some m ∧ st_initialized st1 = true
    ∧ model_getDofPosition E m = Returns d ∧ n = static_cast_int d
    ∧ st_goal st1 = Some (copy_array config n) ∧ st_start st1 = st_start st.
Proof.
  unfold SetGoalConfiguration, run.
  destruct (n <=? 0); [unfold_codes; congruence|].
  pose proof (SetGoalConfiguration_body_cases E config n st) as H. cbv zeta in H.
  destruct (SetGoalConfiguration_body E config n st) as [s o]. simpl in *.
  intros [= Ho <-].
  destruct H as [(_ & [[-> _]|[[-> _]|[-> _]]])
                |(m & d & Hm & Hi & Hd & Hn & [(_ & [[-> _]|[-> _]])|(-> & _ & _)])];
    simpl in Ho; try (revert Ho; unfold_codes; discriminate).
  exists m, d. unfold rebind_planner. simpl.
  destruct (st_planner st); simpl; repeat split; assumption.
Qed.

(** X14: after [SetStartConfiguration] and [SetGoalConfiguration] have
    returned [RL_SUCCESS] for arrays of [n] values, a [PlanTrajectory] call
    without arrays, on a session with a planner or with a planner type that is
    known, reaches the planner, and the planner runs from the first array to the
    second, both as they were given, through the stored vectors of the
    session. *)
Theorem X14_stored_configurations_are_planned E st cfgS cfgG n st1 st2 useZAxis
    plannerType delta epsilon timeoutMs buf maxWaypoints cnt :
  SetStartConfiguration E (Some st) (Some cfgS) n = (RL_SUCCESS, Some st1) →
  SetGoalConfiguration E (Some st1) (Some cfgG) n = (RL_SUCCESS, Some st2) →
  Z.of_nat (length cfgS) = n → Z.of_nat (length cfgG) = n →
  is_Some (st_planner st2)
  ∨ known_plannerType (choose_plannerType st2 plannerType) = true →
  ∃ c,
    pr_call (PlanTrajectory E (Some st2) None 0 None 0 useZAxis plannerType
               delta epsilon timeoutMs (Some buf) maxWaypoints (Some cnt)) = Some c
    ∧ call_start c = cfgS ∧ call_goal c = cfgG
    ∧ planner_start (call_planner c) = StoredStart
    ∧ planner_goal (call_planner c) = StoredGoal.
Proof.
  intros Hs Hg HlenS HlenG Hp.
  destruct (SetStartConfiguration_stores _ _ _ _ _ Hs)
    as (m1 & d1 & _ & _ & _ & _ & Hstart & _).
  destruct (SetGoalConfiguration_stores _ _ _ _ _ Hg)
    as (m & d & Hm & Hi & Hd & Hn & Hgoal & Hkeep).
  rewrite Hstart in Hkeep.
  rewrite <- HlenS, copy_array_exact in Hkeep.
  rewrite <- HlenG, copy_array_exact in Hgoal.
  assert (Hrs : resolve_start st2 None 0 (static_cast_int d) = inr StoredStart).
  { unfold resolve_start. simpl. now rewrite Hkeep. }
  assert (Hrg : resolve_goal st2 StoredStart None 0 (static_cast_int d) useZAxis
                = inr StoredGoal).
  { unfold resolve_goal. simpl. now rewrite Hgoal. }
  destruct (bind_planner_reaches E None 0 None 0 useZAxis plannerType delta epsilon
              timeoutMs st2 m d StoredStart StoredGoal Hm Hi Hd Hrs Hrg Hp)
    as (st' & c & Hb).
  destruct (bind_planner_call _ _ _ _ _ _ _ _ _ _ _ _ _ _ Hb)
    as (m' & sv & gv & p0 & st0 & _ & _ & Hrs' & Hrg' & Hcs & Hcg & Hcp & _).
  rewrite Hrs in Hrs'. injection Hrs' as <-.
  rewrite Hrg in Hrg'. injection Hrg' as <-.
  pose proof (PlanTrajectory_cases E st2 None 0 None 0 useZAxis plannerType delta
                epsilon timeoutMs buf maxWaypoints cnt) as [_ Hc].
  cbv zeta in Hc. rewrite Hb in Hc. simpl in Hc.
  destruct Hc as [(_ & _ & _ & Hne & _)|(dof & c' & [= _ <-] & Hcall & _)].
  { destruct (Hne _ _ eq_refl). }
  exists c. split; [exact Hcall|].
  rewrite Hcs, Hcg, Hcp. simpl. rewrite Hkeep, Hgoal.
  destruct (bound_planner_vectors StoredStart StoredGoal timeoutMs p0) as [-> ->].
  repeat split.
Qed.

Lemma X14_witness :
  ∃ c,
    pr_call (PlanTrajectory Demo.engine
               (SetGoalConfiguration Demo.engine
                  (SetStartConfiguration Demo.engine (Some Demo.loaded_state)
                     (Some Demo.q_start) 3).2
                  (Some Demo.q_goal) 3).2
               None 0 None 0 0 (Some "rrt"%string) 0.1%float 0.001%float 5000
               (Some (replicate 6 7%float)) 2 (Some 99)) = Some c
    ∧ call_start c = Demo.q_start ∧ call_goal c = Demo.q_goal.
Proof.
  destruct (X14_stored_configurations_are_planned Demo.engine Demo.loaded_state
              Demo.q_start Demo.q_goal 3
              (default PlannerState_new
                 (SetStartConfiguration Demo.engine (Some Demo.loaded_state)
                    (Some Demo.q_start) 3).2)
              (default PlannerState_new
                 (SetGoalConfiguration Demo.engine
                    (SetStartConfiguration Demo.engine (Some Demo.loaded_state)
                       (Some Demo.q_start) 3).2
                    (Some Demo.q_goal) 3).2)
              0 (Some "rrt"%string) 0.1%float 0.001%float 5000
              (replicate 6 7%float) 2 99
              eq_refl eq_refl eq_refl eq_refl (or_intror eq_refl))
    as (c & Hcall & Hs & Hg & _).
  exists c. repeat split; assumption.
Defined.

(** X15: a [PlanTrajectory] call that reaches the planner with a [start] and a
    [goal] array of positive size was given sizes equal to the joint count; the
    planner starts from the copy of the [start] array; and with [useZAxis] not
    zero, or with fewer than three joints, its goal is the copy of the [goal]
    array, no component replaced. *)
Theorem X15_arrays_used_as_given E st s startSize g goalSize useZAxis plannerType
    delta epsilon timeoutMs buf maxWaypoints cnt n c :
  let r := PlanTrajectory E (Some st) (Some s) startSize (Some g) goalSize useZAxis
             plannerType delta epsilon timeoutMs (Some buf) maxWaypoints (Some cnt) in
  session_dof E st = Some n →
  pr_call r = Some c →
  0 < startSize → 0 < goalSize →
  startSize = static_cast_int n ∧ goalSize = static_cast_int n
  ∧ call_start c = copy_array s startSize
  ∧ (useZAxis ≠ 0 ∨ static_cast_int n < 3 → call_goal c = copy_array g goalSize).
Proof.
  intros r Hn Hcall Hs Hg.
  destruct (PlanTrajectory_called _ _ _ _ _ _ _ _ _ _ _ _ _ _ _ Hcall)
    as (st' & dof & Hbind).
  destruct (bind_planner_dof _ _ _ _ _ _ _ _ _ _ _ _ _ _ Hbind) as (n' & Hn' & ->).
  rewrite Hn in Hn'. injection Hn' as <-.
  destruct (bind_planner_call _ _ _ _ _ _ _ _ _ _ _ _ _ _ Hbind)
    as (m & startVec & goalVec & p0 & st1 & _ & _ & Hrs & Hrg & Hcs & Hcg & _).
  unfold resolve_start, provided in Hrs.
  destruct (Z.ltb_spec 0 startSize); [|lia].
  destruct (Z.eqb_spec startSize (static_cast_int n)) as [Hes|]; [|discriminate].
  simpl in Hrs. injection Hrs as <-.
  unfold resolve_goal, provided in Hrg.
  destruct (Z.ltb_spec 0 goalSize); [|lia].
  destruct (Z.eqb_spec goalSize (static_cast_int n)) as [Heg|]; [|discriminate].
  simpl in Hrg. injection Hrg as <-.
  repeat split; try assumption.
  - rewrite Hcs, Hes. reflexivity.
  - intros Hz. rewrite Hcg, Heg. simpl.
    destruct (Z.eqb_spec useZAxis 0); simpl; [|reflexivity].
    destruct (Z.leb_spec 3 (static_cast_int n)); simpl; [|reflexivity].
    destruct Hz; [contradiction|lia].
Qed.

Lemma X15_witness :
  ∃ c, pr_call Demo.first_plan = Some c
    ∧ call_start c = Demo.q_start ∧ call_goal c = Demo.q_goal.
Proof.
  eexists. split; [vm_compute; reflexivity|].
  match goal with
  | |- call_start ?c = _ ∧ _ =>
      destruct (X15_arrays_used_as_given Demo.engine Demo.loaded_state
                  Demo.q_start 3 Demo.q_goal 3 1 (Some "rrt"%string)
                  0.1%float 0.001%float 5000 (replicate 6 7%float) 2 99 3%nat c)
        as (_ & _ & Hs & Hg)
  end.
  - vm_compute. reflexivity.
  - vm_compute. reflexivity.
  - lia.
  - lia.
  - split; [exact Hs|]. apply Hg. left. discriminate.
Defined.

Lemma bound_planner_components startVec goalVec timeoutMs p :
  planner_sampler (bound_planner startVec goalVec timeoutMs p) = planner_sampler p
  ∧ planner_nearestNeighbors (bound_planner startVec goalVec timeoutMs p)
    = planner_nearestNeighbors p
  ∧ planner_model (bound_planner startVec goalVec timeoutMs p) = planner_model p.
Proof. unfold bound_planner. destruct (0 <? timeoutMs); repeat split. Qed.

(** X16: the planner is created once.  When a [PlanTrajectory] call has
    reached its planner, a later call on the session it left runs the same
    planner: the same kind with the same parameters, sampler, nearest-neighbours
    structure and model, whatever planner type, [delta] and [epsilon] the later
    call names; only a positive [timeoutMs] changes its duration; and the
    planner type and the three parameters stored on the session stay as the
    first call left them. *)
Theorem X16_planner_created_once E st st1 c1 c2
    start1 startSize1 goal1 goalSize1 useZAxis1 plannerType1 delta1 epsilon1
    timeoutMs1 buf1 maxWaypoints1 cnt1
    start2 startSize2 goal2 goalSize2 useZAxis2 plannerType2 delta2 epsilon2
    timeoutMs2 buf2 maxWaypoints2 cnt2 :
  let r1 := PlanTrajectory E (Some st) start1 startSize1 goal1 goalSize1 useZAxis1
              plannerType1 delta1 epsilon1 timeoutMs1 (Some buf1) maxWaypoints1
              (Some cnt1) in
  let r2 := PlanTrajectory E (Some st1) start2 startSize2 goal2 goalSize2 useZAxis2
              plannerType2 delta2 epsilon2 timeoutMs2 (Some buf2) maxWaypoints2
              (Some cnt2) in
  pr_call r1 = Some c1 → pr_state r1 = Some st1 →
  pr_call r2 = Some c2 →
  planner_params (call_planner c2) = planner_params (call_planner c1)
  ∧ planner_sampler (call_planner c2) = planner_sampler (call_planner c1)
  ∧ planner_nearestNeighbors (call_planner c2)
    = planner_nearestNeighbors (call_planner c1)
  ∧ planner_model (call_planner c2) = planner_model (call_planner c1)
  ∧ planner_duration (call_planner c2)
    = (if 0 <? timeoutMs2 then Some timeoutMs2 else planner_duration (call_planner c1))
  ∧ ∃ st2, pr_state r2 = Some st2
      ∧ st2 = set_planner (Some (call_planner c2)) st1.
Proof.
  intros r1 r2 Hc1 Hs1 Hc2.
  destruct (PlanTrajectory_call_state _ _ _ _ _ _ _ _ _ _ _ _ _ _ _ Hc1)
    as (st1' & dof1 & Hb1 & Hs1').
  fold r1 in Hs1'. rewrite Hs1 in Hs1'. injection Hs1' as <-.
  destruct (bind_planner_call _ _ _ _ _ _ _ _ _ _ _ _ _ _ Hb1)
    as (m1 & sv1 & gv1 & pa & sta & _ & _ & _ & _ & _ & _ & _ & Hst1 & _).
  assert (Hp1 : st_planner st1 = Some (call_planner c1)) by (rewrite Hst1; reflexivity).
  destruct (PlanTrajectory_call_state _ _ _ _ _ _ _ _ _ _ _ _ _ _ _ Hc2)
    as (st2 & dof2 & Hb2 & Hs2).
  destruct (bind_planner_call _ _ _ _ _ _ _ _ _ _ _ _ _ _ Hb2)
    as (m2 & sv & gv & p0 & stb & _ & _ & _ & _ & _ & _ & Hcp & Hst2 & Hreuse).
  rewrite Hp1 in Hreuse. destruct Hreuse as [Hp0 Hstb]. subst p0 stb.
  rewrite Hcp, bound_planner_params, bound_planner_duration.
  destruct (bound_planner_components sv gv timeoutMs2 (call_planner c1))
    as (-> & -> & ->).
  repeat split. exists st2. split; [exact Hs2|]. rewrite Hst2, Hcp. reflexivity.
Qed.

Lemma X16_witness :
  ∃ c1 c2,
    pr_call Demo.first_plan = Some c1
    ∧ pr_call (PlanTrajectory Demo.engine (pr_state Demo.first_plan)
                 (Some Demo.q_goal) 3 (Some Demo.q_start) 3 1 (Some "prm"%string)
                 0.5%float 0.25%float 0 (Some (replicate 6 7%float)) 2 (Some 99))
      = Some c2
    ∧ planner_params (call_planner c2) = planner_params (call_planner c1)
    ∧ planner_duration (call_planner c2) = Some 5000.
Proof.
  eexists _, _. split; [vm_compute; reflexivity|].
  split; [vm_compute; reflexivity|].
  match goal with
  | |- planner_params (call_planner ?c2) = planner_params (call_planner ?c1) ∧ _ =>
      destruct (X16_planner_created_once Demo.engine Demo.loaded_state
                  (default PlannerState_new (pr_state Demo.first_plan)) c1 c2
                  (Some Demo.q_start) 3 (Some Demo.q_goal) 3 1 (Some "rrt"%string)
                  0.1%float 0.001%float 5000 (replicate 6 7%float) 2 99
                  (Some Demo.q_goal) 3 (Some Demo.q_start) 3 1 (Some "prm"%string)
                  0.5%float 0.25%float 0 (replicate 6 7%float) 2 99)
        as (Hp & _ & _ & _ & Hd & _)
  end.
  - vm_compute. reflexivity.
  - vm_compute. reflexivity.
  - vm_compute. reflexivity.
  - split; [exact Hp|]. rewrite Hd. reflexivity.
Defined.

(** ** [LoadPlanXml] *)

(** X17: [LoadPlanXml] is the two loaders in sequence.  For a descriptor that
    names both files it stores the planner type and the three parameters of the
    descriptor and then runs [LoadKinematics] on the kinematics file and
    [LoadScene] on the scene file with the model index of the descriptor; when
    one of them fails, its code is the code of [LoadPlanXml] and the session is
    as that loader left it. *)
Theorem X17_LoadPlanXml_loader_failure E st path doc sceneFile kinFile :
  xml_readFile E path = Returns doc →
  doc_scene doc = Some sceneFile →
  doc_kinematics doc = Some kinFile →
  let rk := LoadKinematics E (Some (with_plan_parameters doc st)) (Some kinFile) in
  let rs := LoadScene E rk.2 (Some sceneFile) (static_cast_int (doc_model doc)) in
  (rk.1 ≠ RL_SUCCESS → LoadPlanXml E (Some st) (Some path) = rk)
  ∧ (rk.1 = RL_SUCCESS → rs.1 ≠ RL_SUCCESS →
     LoadPlanXml E (Some st) (Some path) = rs).
Proof.
  intros Hdoc Hscene Hkin. cbv zeta.
  unfold LoadPlanXml, LoadKinematics, LoadScene, run, LoadPlanXml_body. unfold_M.
  rewrite Hdoc, Hscene, Hkin.
  pose proof (LoadKinematics_body_cases E kinFile (with_plan_parameters doc st)) as Hk.
  cbv zeta in Hk. unfold with_plan_parameters in *.
  destruct (LoadKinematics_body E kinFile _) as [st1 ok]. simpl in Hk.
  assert (Hok : ∃ code, ok = Returns code).
  { destruct Hk as [[_ [->| ->]]|[(a & _ & ->)|[(a & k & _ & ->)|(k & _ & ->)]]]; eauto. }
  destruct Hok as [code ->]. simpl.
  destruct (Z.eqb_spec code RL_SUCCESS) as [->|Hne]; simpl.
  2: { split; [reflexivity|contradiction]. }
  split; [intros H; contradiction|]. intros _.
  destruct (LoadScene_body_summary E sceneFile (static_cast_int (doc_model doc)) st1)
    as (c & st2 & -> & _). simpl.
  destruct (Z.eqb_spec c RL_SUCCESS) as [->|Hne]; simpl; [contradiction|reflexivity].
Qed.

Lemma X17_witness :
  LoadPlanXml Faults.engine_no_kinematics (Some PlannerState_new) (Some "plan.xml")
  = (RL_ERROR_LOAD_FAILED,
      Some (with_plan_parameters Demo.recipe PlannerState_new)).
Proof.
  apply (X17_LoadPlanXml_loader_failure Faults.engine_no_kinematics PlannerState_new
           "plan.xml" Demo.recipe "scene.xml" "arm.xml" eq_refl eq_refl eq_refl).
  vm_compute. discriminate.
Defined.

(** X18: when the descriptor cannot be read, or has no scene element or no
    kinematics element, [LoadPlanXml] leaves the session exactly as it was, the
    stored planner parameters included; the code is [RL_ERROR_LOAD_FAILED],
    and [RL_ERROR_EXCEPTION] only for an exception that is not a
    [std::exception]. *)
Theorem X18_LoadPlanXml_unusable_descriptor E st path :
  (∀ doc, xml_readFile E path = Returns doc →
          doc_scene doc = None ∨ doc_kinematics doc = None) →
  LoadPlanXml E (Some st) (Some path)
  = (match xml_readFile E path with
     | ThrowsOther => RL_ERROR_EXCEPTION
     | _ => RL_ERROR_LOAD_FAILED
     end, Some st).
Proof.
  intros H. unfold LoadPlanXml, run, LoadPlanXml_body. unfold_M.
  destruct (xml_readFile E path) as [doc| |]; simpl; try reflexivity.
  destruct (H doc eq_refl) as [->|Hk]; simpl; [reflexivity|].
  rewrite Hk. destruct (doc_scene doc); reflexivity.
Qed.

Lemma X18_witness :
  LoadPlanXml (Faults.engine_reading (Returns Faults.recipe_without_scene))
    (Some Demo.planned_state) (Some "plan.xml")
  = (RL_ERROR_LOAD_FAILED, Some Demo.planned_state).
Proof.
  apply (X18_LoadPlanXml_unusable_descriptor
           (Faults.engine_reading (Returns Faults.recipe_without_scene))
           Demo.planned_state "plan.xml").
  intros doc [= <-]. left. reflexivity.
Defined.

(** What a planner [createPlanner] returns looks like. *)
Lemma createPlanner_made s sampler verifier nearestNeighbors delta epsilon p :
  createPlanner s sampler verifier nearestNeighbors delta epsilon = Some p →
  known_plannerType s = true
  ∧ planner_sampler p = sampler ∧ planner_nearestNeighbors p = nearestNeighbors
  ∧ planner_model p = None ∧ planner_duration p = None
  ∧ planner_start p = NullVec ∧ planner_goal p = NullVec
  ∧ (planner_params p = RrtParams delta epsilon
     ∨ planner_params p = RrtConConParams delta epsilon
     ∨ planner_params p = RrtGoalBiasParams delta epsilon 0.05%float
     ∨ planner_params p = PrmParams 30 verifier).
Proof.
  intros H.
  destruct (known_plannerType s) eqn:Hk.
  2: { rewrite createPlanner_unknown in H by assumption. discriminate. }
  split; [reflexivity|]. revert H. unfold createPlanner.
  repeat match goal with
         | |- context [if ?b then _ else _] => destruct b
         end;
    intros [= <-]; simpl; auto 10.
Qed.

(** A [LoadScene] that returns [RL_SUCCESS] leaves an initialized session with a
    planning model whose joint count can be read. *)
Lemma LoadScene_body_success E path idx st st' :
  LoadScene_body E path idx st = (st', Returns RL_SUCCESS) →
  ∃ m n, st_model st' = Some m ∧ st_initialized st' = true
    ∧ model_getDofPosition E m = Returns n.
Proof.
  intros Hrun.
  pose proof (LoadScene_body_cases E path idx st) as H. cbv zeta in H.
  rewrite Hrun in H. simpl in H.
  destruct H as [[_ [H|H]]|[(sc & _ & [H|[H|[H _]]])|[(sc & _ & _ & _ & H)
               |(sc & m & _ & _ & [[_ [H|[H|[H _]]]]|(-> & _ & _ & _ & Hdof)])]]];
    try (revert H; unfold_codes; congruence).
  unfold session_dof in Hdof. simpl in Hdof.
  destruct (model_getDofPosition E m) as [n| |] eqn:Hn;
    try (destruct Hdof; discriminate).
  exists m, n. repeat split. assumption.
Qed.

(** The session a [LoadPlanXml] that returns [RL_SUCCESS] leaves. *)
Lemma LoadPlanXml_body_loaded E st path st' :
  LoadPlanXml_body E path st = (st', Returns RL_SUCCESS) →
  ∃ doc m n p,
    xml_readFile E path = Returns doc
    ∧ known_plannerType (plan_plannerType doc) = true
    ∧ st_plannerType st' = plan_plannerType doc
    ∧ st_initialized st' = true
    ∧ st_model st' = Some m ∧ model_getDofPosition E m = Returns n
    ∧ st_sampler st' = Some {| sampler_model := Some m |}
    ∧ st_verifier st'
      = Some {| verifier_delta := plan_delta doc; verifier_model := Some m |}
    ∧ st_nearestNeighbors st' = Some {| nn_model := Some m |}
    ∧ st_optimizer st'
      = Some {| optimizer_model := Some m;
                optimizer_verifier := st_verifier st' |}
    ∧ st_planner st' = Some p
    ∧ planner_model p = Some m
    ∧ planner_sampler p = st_sampler st'
    ∧ planner_nearestNeighbors p = st_nearestNeighbors st'
    ∧ planner_duration p = Some (plan_timeoutMs doc)
    ∧ (∀ d, params_delta (planner_params p) = Some d → d = plan_delta doc)
    ∧ (∀ e, params_epsilon (planner_params p) = Some e → e = plan_epsilon doc)
    ∧ planner_start p = match st_start st' with Some _ => StoredStart | None => NullVec end
    ∧ planner_goal p = match st_goal st' with Some _ => StoredGoal | None => NullVec end.
Proof.
  unfold LoadPlanXml_body. unfold_M.
  destruct (xml_readFile E path) as [doc| |]; simpl; try (unfold_codes; congruence).
  destruct (doc_scene doc) as [sceneFile|]; simpl; [|unfold_codes; congruence].
  destruct (doc_kinematics doc) as [kinFile|]; simpl; [|unfold_codes; congruence].
  match goal with
  | |- context [LoadKinematics_body E kinFile ?s] =>
      pose proof (LoadKinematics_body_parameters E kinFile s) as HK;
      destruct (LoadKinematics_body E kinFile s) as [st1 [code| |]]
  end; simpl; try (unfold_codes; congruence).
  destruct HK as (HKt & _). simpl in HKt.
  destruct (Z.eqb_spec code RL_SUCCESS); simpl; [|congruence].
  match goal with
  | |- context [LoadScene_body E sceneFile ?i st1] =>
      pose proof (LoadScene_body_success E sceneFile i st1) as HS;
      pose proof (LoadScene_body_parameters E sceneFile i st1) as HP;
      destruct (LoadScene_body E sceneFile i st1) as [st2 [code2| |]]
  end; simpl; try (unfold_codes; congruence).
  destruct (Z.eqb_spec code2 RL_SUCCESS) as [->|]; simpl; [|congruence].
  destruct (HS st2 eq_refl) as (m & n & Hm & Hi & Hn).
  destruct HP as (HPt & _ & _ & _ & HPs & HPg & _). simpl in HPt, HPs, HPg.
  destruct (doc_start doc) as [|qs start], (doc_goal doc) as [|qg goal]; simpl.
  all: destruct (createPlanner _ _ _ _ _ _) as [p|] eqn:Hp; simpl;
    try (unfold_codes; congruence).
  all: destruct (createPlanner_made _ _ _ _ _ _ _ Hp)
    as (Hk & Hsa & Hnn & _ & _ & Hps & Hpg & Hparams).
  all: rewrite Hm in Hsa, Hnn, Hparams.
  all: intros [= <-]; simpl; rewrite ?Hm; simpl.
  all: destruct (st_start st2), (st_goal st2); simpl.
  all: eexists doc, m, n, _.
  all: repeat (split; [first [reflexivity | assumption | congruence]|]).
  all: repeat apply conj; try first [reflexivity | assumption | congruence].
  all: intros x Hx; simpl in Hx;
    destruct Hparams as [H|[H|[H|H]]]; rewrite H in Hx; simpl in Hx; congruence.
Qed.

(** X19: when [LoadPlanXml] returns [RL_SUCCESS], the planner type of the
    descriptor is one [createPlanner] knows and is the type stored on the
    session; the session is initialized, with a planning model whose joint
    count can be read; the sampler, the verifier, the nearest-neighbours
    structure and the optimizer are new and refer to that planning model, the
    verifier with the delta of the descriptor and the optimizer with that
    verifier; and the session has a planner on that model with the timeout of
    the descriptor as its duration, the delta and epsilon of the descriptor as
    its parameters, and the stored start and goal as its vectors where the
    session has them. *)
Theorem X19_LoadPlanXml_success E st path st' :
  LoadPlanXml E (Some st) (Some path) = (RL_SUCCESS, Some st') →
  ∃ doc m n p,
    xml_readFile E path = Returns doc
    ∧ known_plannerType (plan_plannerType doc) = true
    ∧ st_plannerType st' = plan_plannerType doc
    ∧ st_initialized st' = true
    ∧ st_model st' = Some m ∧ model_getDofPosition E m = Returns n
    ∧ st_sampler st' = Some {| sampler_model := Some m |}
    ∧ st_verifier st'
      = Some {| verifier_delta := plan_delta doc; verifier_model := Some m |}
    ∧ st_nearestNeighbors st' = Some {| nn_model := Some m |}
    ∧ st_optimizer st'
      = Some {| optimizer_model := Some m;
                optimizer_verifier := st_verifier st' |}
    ∧ st_planner st' = Some p
    ∧ planner_model p = Some m
    ∧ planner_sampler p = st_sampler st'
    ∧ planner_nearestNeighbors p = st_nearestNeighbors st'
    ∧ planner_duration p = Some (plan_timeoutMs doc)
    ∧ (∀ d, params_delta (planner_params p) = Some d → d = plan_delta doc)
    ∧ (∀ e, params_epsilon (planner_params p) = Some e → e = plan_epsilon doc)
    ∧ planner_start p = match st_start st' with Some _ => StoredStart | None => NullVec end
    ∧ planner_goal p = match st_goal st' with Some _ => StoredGoal | None => NullVec end.
Proof.
  unfold LoadPlanXml, run.
  destruct (LoadPlanXml_body E path st) as [s o] eqn:Hrun.
  destruct o as [code| |]; simpl; intros [= Hcode <-];
    try (revert Hcode; unfold_codes; discriminate).
  subst code. exact (LoadPlanXml_body_loaded E st path s Hrun).
Qed.

Lemma X19_witness :
  ∃ p, st_planner Demo.planned_state = Some p
    ∧ planner_duration p = Some 2000
    ∧ planner_start p = StoredStart ∧ planner_goal p = StoredGoal.
Proof.
  destruct (X19_LoadPlanXml_success Demo.engine PlannerState_new "plan.xml"
              Demo.planned_state ltac:(vm_compute; reflexivity))
    as (doc & m & n & p & Hdoc & _ & _ & _ & _ & _ & _ & _ & _ & _ & Hp & _ & _ & _
        & Hd & _ & _ & Hs & Hg).
  injection Hdoc as <-.
  exists p. split; [exact Hp|]. split; [rewrite Hd; vm_compute; reflexivity|].
  split; [exact Hs|exact Hg].
Defined.

(** X20: a descriptor whose planner type is none of the names [createPlanner]
    knows cannot be loaded with [RL_SUCCESS]: so it is for every root element
    other than [rlplan] and [plan] that is not itself such a name, the root
    [rl] of the second layout the queries accept included.  When both files
    load, the code is [RL_ERROR_LOAD_FAILED] although the session is left
    initialized, with the four components created and stored, no planner, and
    the unknown name as its planner type. *)
Theorem X20_LoadPlanXml_unknown_planner E st path doc sceneFile kinFile :
  xml_readFile E path = Returns doc →
  doc_scene doc = Some sceneFile →
  doc_kinematics doc = Some kinFile →
  known_plannerType (plan_plannerType doc) = false →
  let rk := LoadKinematics E (Some (with_plan_parameters doc st)) (Some kinFile) in
  let rs := LoadScene E rk.2 (Some sceneFile) (static_cast_int (doc_model doc)) in
  let r := LoadPlanXml E (Some st) (Some path) in
  r.1 ≠ RL_SUCCESS
  ∧ (rk.1 = RL_SUCCESS → rs.1 = RL_SUCCESS →
     r.1 = RL_ERROR_LOAD_FAILED
     ∧ ∃ st', r.2 = Some st'
         ∧ st_initialized st' = true
         ∧ st_planner st' = None
         ∧ st_plannerType st' = plan_plannerType doc
         ∧ is_Some (st_sampler st') ∧ is_Some (st_verifier st')
         ∧ is_Some (st_nearestNeighbors st') ∧ is_Some (st_optimizer st')).
Proof.
  intros Hdoc Hscene Hkin Hunknown. cbv zeta.
  unfold LoadPlanXml, LoadKinematics, LoadScene, run, LoadPlanXml_body. unfold_M.
  rewrite Hdoc, Hscene, Hkin.
  pose proof (LoadKinematics_body_cases E kinFile (with_plan_parameters doc st)) as Hk.
  pose proof (LoadKinematics_body_parameters E kinFile (with_plan_parameters doc st))
    as (HKt & _).
  cbv zeta in Hk. unfold with_plan_parameters in *.
  destruct (LoadKinematics_body E kinFile _) as [st1 ok]. simpl in Hk, HKt.
  assert (Hok : ∃ code, ok = Returns code).
  { destruct Hk as [[_ [->| ->]]|[(a & _ & ->)|[(a & k & _ & ->)|(k & _ & ->)]]]; eauto. }
  destruct Hok as [code ->]. simpl.
  destruct (Z.eqb_spec code RL_SUCCESS) as [->|Hne]; simpl.
  2: { split; [assumption|contradiction]. }
  pose proof (LoadScene_body_success E sceneFile (static_cast_int (doc_model doc)) st1)
    as HS.
  pose proof (LoadScene_body_parameters E sceneFile (static_cast_int (doc_model doc)) st1)
    as (HPt & _).
  destruct (LoadScene_body_summary E sceneFile (static_cast_int (doc_model doc)) st1)
    as (c & st2 & Hrun & _).
  rewrite Hrun in *. simpl in *.
  destruct (Z.eqb_spec c RL_SUCCESS) as [->|Hne]; simpl.
  2: { split; [assumption|]. intros _ H. contradiction. }
  destruct (HS st2 eq_refl) as (m & n & Hm & Hi & Hn).
  destruct (doc_start doc), (doc_goal doc); simpl.
  all: rewrite createPlanner_unknown by assumption; simpl.
  all: split; [unfold_codes; discriminate|]; intros _ _; split; [reflexivity|].
  all: eexists; split; [reflexivity|]; simpl.
  all: repeat split; try assumption; try congruence; eexists; reflexivity.
Qed.

Lemma X20_witness :
  let r := LoadPlanXml (Faults.engine_reading (Returns Faults.recipe_under_rl))
             (Some PlannerState_new) (Some "plan.xml") in
  r.1 = RL_ERROR_LOAD_FAILED
  ∧ (st_initialized <$> r.2) = Some true
  ∧ (r.2 ≫= st_planner) = None.
Proof.
  cbv zeta.
  destruct (X20_LoadPlanXml_unknown_planner
              (Faults.engine_reading (Returns Faults.recipe_under_rl))
              PlannerState_new "plan.xml" Faults.recipe_under_rl "scene.xml" "arm.xml"
              eq_refl eq_refl eq_refl eq_refl)
    as [_ H].
  destruct (H eq_refl eq_refl) as (Hret & st' & Hst & Hi & Hp & _).
  split; [exact Hret|]. rewrite Hst. simpl. rewrite Hi, Hp. split; reflexivity.
Defined.

(** X21: after a [LoadPlanXml] that returns [RL_SUCCESS] on a descriptor with a
    start and a goal, a [PlanTrajectory] call without arrays reaches the
    planner, whatever planner type, [delta] and [epsilon] it names: the planner
    runs from the start of the descriptor to its goal, with the delta and
    epsilon of the descriptor, and for the duration of the descriptor unless
    the call gives a positive [timeoutMs]. *)
Theorem X21_descriptor_is_planned E st path st' doc useZAxis plannerType
    delta epsilon timeoutMs buf maxWaypoints cnt :
  LoadPlanXml E (Some st) (Some path) = (RL_SUCCESS, Some st') →
  xml_readFile E path = Returns doc →
  doc_start doc ≠ [] → doc_goal doc ≠ [] →
  ∃ c,
    pr_call (PlanTrajectory E (Some st') None 0 None 0 useZAxis plannerType
               delta epsilon timeoutMs (Some buf) maxWaypoints (Some cnt)) = Some c
    ∧ call_start c = map plan_q (doc_start doc)
    ∧ call_goal c = map plan_q (doc_goal doc)
    ∧ planner_duration (call_planner c)
      = Some (if 0 <? timeoutMs then timeoutMs else plan_timeoutMs doc)
    ∧ (∀ d, params_delta (planner_params (call_planner c)) = Some d →
         d = plan_delta doc)
    ∧ (∀ e, params_epsilon (planner_params (call_planner c)) = Some e →
         e = plan_epsilon doc).
Proof.
  unfold LoadPlanXml, run.
  destruct (LoadPlanXml_body E path st) as [s o] eqn:Hrun.
  destruct o as [code| |]; simpl; intros [= Hcode <-];
    try (revert Hcode; unfold_codes; discriminate).
  subst code. intros Hdoc Hstart Hgoal.
  destruct (LoadPlanXml_body_loaded E st path s Hrun)
    as (doc' & m & n & p & Hdoc' & _ & _ & Hi & Hm & Hn & _ & _ & _ & _ & Hp & _ & _
        & _ & Hdur & Hdelta & Hepsilon & _).
  rewrite Hdoc in Hdoc'. injection Hdoc' as <-.
  destruct (LoadPlanXml_body_files E path doc st s Hdoc Hrun)
    as (sceneFile & kinFile & Hsf & Hkf).
  pose proof (LoadPlanXml_body_stores E path doc sceneFile kinFile st Hdoc Hsf Hkf)
    as (_ & _ & _ & Hvec).
  cbv zeta in Hvec. rewrite Hrun in Hvec. simpl in Hvec.
  destruct (Hvec eq_refl) as [Hs Hg].
  specialize (Hs Hstart). specialize (Hg Hgoal).
  assert (Hrs : resolve_start s None 0 (static_cast_int n) = inr StoredStart).
  { unfold resolve_start. simpl. now rewrite Hs. }
  assert (Hrg : resolve_goal s StoredStart None 0 (static_cast_int n) useZAxis
                = inr StoredGoal).
  { unfold resolve_goal. simpl. now rewrite Hg. }
  destruct (bind_planner_reaches E None 0 None 0 useZAxis plannerType delta epsilon
              timeoutMs s m n StoredStart StoredGoal Hm Hi Hn Hrs Hrg)
    as (s' & c & Hb).
  { left. rewrite Hp. eexists; reflexivity. }
  destruct (bind_planner_call _ _ _ _ _ _ _ _ _ _ _ _ _ _ Hb)
    as (m' & sv & gv & p0 & s0 & _ & _ & Hrs' & Hrg' & Hcs & Hcg & Hcp & _ & Hreuse).
  rewrite Hrs in Hrs'. injection Hrs' as <-.
  rewrite Hrg in Hrg'. injection Hrg' as <-.
  rewrite Hp in Hreuse. destruct Hreuse as [Hp0 _]. subst p0.
  pose proof (PlanTrajectory_cases E s None 0 None 0 useZAxis plannerType delta
                epsilon timeoutMs buf maxWaypoints cnt) as [_ Hc].
  cbv zeta in Hc. rewrite Hb in Hc. simpl in Hc.
  destruct Hc as [(_ & _ & _ & Hne & _)|(dof & c' & [= _ <-] & Hcall & _)].
  { destruct (Hne _ _ eq_refl). }
  exists c. split; [exact Hcall|].
  rewrite Hcs, Hcg, Hcp, bound_planner_params, bound_planner_duration, Hdur.
  simpl. rewrite Hs, Hg. simpl.
  repeat split; try assumption. destruct (0 <? timeoutMs); reflexivity.
Qed.

Lemma X21_witness :
  ∃ c,
    pr_call (PlanTrajectory Demo.engine (Some Demo.planned_state) None 0 None 0 1
               (Some "prm"%string) 0.5%float 0.25%float 0
               (Some (replicate 6 7%float)) 2 (Some 99)) = Some c
    ∧ call_start c = map plan_q (doc_start Demo.recipe)
    ∧ planner_duration (call_planner c) = Some 2000.
Proof.
  destruct (X21_descriptor_is_planned Demo.engine PlannerState_new "plan.xml"
              Demo.planned_state Demo.recipe 1 (Some "prm"%string)
              0.5%float 0.25%float 0 (replicate 6 7%float) 2 99
              ltac:(vm_compute; reflexivity) eq_refl
              ltac:(discriminate) ltac:(discriminate))
    as (c & Hcall & Hs & _ & Hd & _).
  exists c. split; [exact Hcall|]. split; [exact Hs|].
  rewrite Hd. vm_compute. reflexivity.
Defined.

(** ** [IsValidConfiguration] *)

(** X22: [IsValidConfiguration] assigns nothing but the verifier of the
    session, and that only when the session has none and the planning model has
    accepted the configuration: the verifier it then stores is made from the
    stored delta.  Asked again about the same configuration on the session it
    left, it gives the same answer and leaves the session as it is. *)
Theorem X22_IsValidConfiguration_session E st config n :
  let r := IsValidConfiguration E (Some st) (Some config) n in
  ∃ st1, r.2 = Some st1
    ∧ (st1 = st
       ∨ ∃ m, st_model st = Some m ∧ st_verifier st = None
           ∧ model_isValid E m (copy_array config n) = Returns true
           ∧ st1 = set_verifier (Some (collision_verifier st m)) st)
    ∧ IsValidConfiguration E (Some st1) (Some config) n = (r.1, Some st1).
Proof.
  cbv zeta.
  unfold IsValidConfiguration, run, IsValidConfiguration_body, obtain_verifier,
    collision_verifier.
  unfold_M.
  destruct (st_model st) as [m|] eqn:Hm; simpl;
    [|exists st; rewrite Hm; auto].
  destruct (st_initialized st) eqn:Hinit; simpl;
    [|exists st; rewrite Hm, Hinit; auto].
  destruct (st_kinematics st) as [k|] eqn:Hk; simpl;
    [|exists st; rewrite Hm, Hinit, Hk; auto].
  destruct (negb (bool_decide (is_Some (sm_kin m)))
            && negb (bool_decide (is_Some (sm_mdl m)))) eqn:Hview; simpl;
    [exists st; rewrite Hm, Hinit, Hk; simpl; rewrite Hview; auto|].
  destruct (negb (bool_decide (is_Some (sm_model m)))
            || negb (bool_decide (is_Some (sm_scene m)))) eqn:Hrobot; simpl;
    [exists st; rewrite Hm, Hinit, Hk; simpl; rewrite Hview; simpl;
     rewrite Hrobot; auto|].
  destruct (model_getDofPosition E m) as [dof| |] eqn:Hdof; simpl;
    [|exists st; rewrite Hm, Hinit, Hk; simpl; rewrite Hview; simpl;
      rewrite Hrobot; simpl; rewrite Hdof; auto..].
  destruct (Z.eqb_spec n (static_cast_int dof)) as [->|Hne]; simpl.
  2: { exists st. rewrite Hm, Hinit, Hk; simpl. rewrite Hview; simpl.
       rewrite Hrobot; simpl. rewrite Hdof; simpl.
       destruct (Z.eqb_spec n (static_cast_int dof)); [contradiction|]. auto. }
  destruct (model_isValid E m _) as [[|]| |] eqn:Hvalid; simpl.
  2-4: exists st; rewrite Hm, Hinit, Hk; simpl; rewrite Hview; simpl;
    rewrite Hrobot; simpl; rewrite Hdof; simpl; rewrite Z.eqb_refl; simpl;
    rewrite Hvalid; auto.
  destruct (st_verifier st) as [v|] eqn:Hver; simpl.
  - destruct (verifier_isValid E v _) as [[|]| |] eqn:Hcoll; simpl.
    all: exists st; rewrite Hm, Hinit, Hk; simpl; rewrite Hview; simpl;
      rewrite Hrobot; simpl; rewrite Hdof; simpl; rewrite Z.eqb_refl; simpl;
      rewrite Hvalid; simpl; rewrite Hver; simpl; rewrite Hcoll; auto.
  - destruct (verifier_isValid E _ _) as [[|]| |] eqn:Hcoll; simpl.
    all: eexists; split; [reflexivity|]; split;
      [right; exists m; repeat split; first [reflexivity|assumption]|].
    all: simpl; rewrite Hm, Hinit, Hk; simpl; rewrite Hview; simpl;
      rewrite Hrobot; simpl; rewrite Hdof; simpl; rewrite Z.eqb_refl; simpl;
      rewrite Hvalid; simpl; rewrite Hcoll; simpl; reflexivity.
Qed.

(** ** Across the calls *)

(** X23: a configuration of positive size for which [IsValidConfiguration]
    answers 1 is accepted by [SetStartConfiguration] and by
    [SetGoalConfiguration] on the same session, and its size is what [GetDof]
    returns. *)
Theorem X23_valid_configuration_is_accepted E st config n :
  (IsValidConfiguration E (Some st) (Some config) n).1 = 1 →
  0 < n →
  (SetStartConfiguration E (Some st) (Some config) n).1 = RL_SUCCESS
  ∧ (SetGoalConfiguration E (Some st) (Some config) n).1 = RL_SUCCESS
  ∧ GetDof E (Some st) = n.
Proof.
  intros Hvalid Hpos.
  assert (H : valid_unless_rejected E st config n).
  { apply (IsValidConfiguration_body_iff E st config n).
    revert Hvalid. unfold IsValidConfiguration, run.
    destruct (IsValidConfiguration_body E config n st) as [s [c| |]]; simpl;
      [now intros ->|discriminate..]. }
  destruct H as (m & dof & (Hm & Hi & _) & Hdof & -> & Hv & _).
  unfold SetStartConfiguration, SetGoalConfiguration, GetDof, run.
  destruct (Z.leb_spec (static_cast_int dof) 0); [lia|].
  unfold SetStartConfiguration_body, SetGoalConfiguration_body. unfold_M.
  rewrite Hm, Hi. simpl. rewrite Hdof. simpl. rewrite Z.eqb_refl. simpl.
  rewrite Hv. simpl. repeat split.
Qed.

Lemma X23_witness :
  (SetStartConfiguration Demo.engine (Some Demo.loaded_state) (Some Demo.q_start) 3).1
  = RL_SUCCESS
  ∧ GetDof Demo.engine (Some Demo.loaded_state) = 3.
Proof.
  destruct (X23_valid_configuration_is_accepted Demo.engine Demo.loaded_state
              Demo.q_start 3 ltac:(vm_compute; reflexivity) ltac:(lia))
    as (Hs & _ & Hd).
  split; [exact Hs|exact Hd].
Defined.

(** X24: every call that accepts an array has been given the joint count as
    its size: when [SetStartConfiguration] or [SetGoalConfiguration] returns
    [RL_SUCCESS], or a [PlanTrajectory] call reaches the planner with a [start]
    or a [goal] array of positive size, that size is positive and is what
    [GetDof] returns for the session. *)
Theorem X24_accepted_size_is_GetDof E st config n :
  (SetStartConfiguration E (Some st) (Some config) n).1 = RL_SUCCESS
  ∨ (SetGoalConfiguration E (Some st) (Some config) n).1 = RL_SUCCESS
  ∨ (∃ other otherSize useZAxis plannerType delta epsilon timeoutMs buf
       maxWaypoints cnt,
       0 < n
       ∧ (is_Some (pr_call (PlanTrajectory E (Some st) (Some config) n other otherSize
                              useZAxis plannerType delta epsilon timeoutMs (Some buf)
                              maxWaypoints (Some cnt)))
          ∨ is_Some (pr_call (PlanTrajectory E (Some st) other otherSize
                                (Some config) n useZAxis plannerType delta epsilon
                                timeoutMs (Some buf) maxWaypoints (Some cnt))))) →
  0 < n ∧ GetDof E (Some st) = n.
Proof.
  intros [H|[H|H]].
  - revert H. unfold SetStartConfiguration, run.
    destruct (Z.leb_spec n 0); [unfold_codes; simpl; discriminate|].
    pose proof (SetStartConfiguration_body_cases E config n st) as Hc. cbv zeta in Hc.
    destruct (SetStartConfiguration_body E config n st) as [s o]. simpl in *.
    destruct Hc as [(_ & [[-> _]|[[-> _]|[-> _]]])
                   |(m & d & Hm & Hi & Hd & Hn & _)];
      simpl; try (unfold_codes; discriminate).
    intros _. split; [assumption|]. unfold GetDof. rewrite Hm, Hi, Hd. simpl.
    congruence.
  - revert H. unfold SetGoalConfiguration, run.
    destruct (Z.leb_spec n 0); [unfold_codes; simpl; discriminate|].
    pose proof (SetGoalConfiguration_body_cases E config n st) as Hc. cbv zeta in Hc.
    destruct (SetGoalConfiguration_body E config n st) as [s o]. simpl in *.
    destruct Hc as [(_ & [[-> _]|[[-> _]|[-> _]]])
                   |(m & d & Hm & Hi & Hd & Hn & _)];
      simpl; try (unfold_codes; discriminate).
    intros _. split; [assumption|]. unfold GetDof. rewrite Hm, Hi, Hd. simpl.
    congruence.
  - destruct H as (other & otherSize & useZAxis & plannerType & delta & epsilon
                   & timeoutMs & buf & maxWaypoints & cnt & Hpos & [[c Hc]|[c Hc]]).
    + split; [assumption|].
      destruct (PlanTrajectory_called _ _ _ _ _ _ _ _ _ _ _ _ _ _ _ Hc)
        as (st' & dof & Hbind).
      destruct (bind_planner_dof _ _ _ _ _ _ _ _ _ _ _ _ _ _ Hbind) as (d & Hd & ->).
      destruct (bind_planner_call _ _ _ _ _ _ _ _ _ _ _ _ _ _ Hbind)
        as (m & sv & gv & p0 & st1 & Hm & Hi & Hrs & _).
      unfold resolve_start, provided in Hrs.
      destruct (Z.ltb_spec 0 n); [|lia].
      destruct (Z.eqb_spec n (static_cast_int d)) as [->|]; [|discriminate].
      unfold session_dof in Hd. unfold GetDof. rewrite Hm, Hi in *. simpl.
      destruct (model_getDofPosition E m); congruence.
    + split; [assumption|].
      destruct (PlanTrajectory_called _ _ _ _ _ _ _ _ _ _ _ _ _ _ _ Hc)
        as (st' & dof & Hbind).
      destruct (bind_planner_dof _ _ _ _ _ _ _ _ _ _ _ _ _ _ Hbind) as (d & Hd & ->).
      destruct (bind_planner_call _ _ _ _ _ _ _ _ _ _ _ _ _ _ Hbind)
        as (m & sv & gv & p0 & st1 & Hm & Hi & _ & Hrg & _).
      unfold resolve_goal, provided in Hrg.
      destruct (Z.ltb_spec 0 n); [|lia].
      destruct (Z.eqb_spec n (static_cast_int d)) as [->|]; [|discriminate].
      unfold session_dof in Hd. unfold GetDof. rewrite Hm, Hi in *. simpl.
      destruct (model_getDofPosition E m); congruence.
Qed.

Lemma X24_witness : 0 < 3 ∧ GetDof Demo.engine (Some Demo.loaded_state) = 3.
Proof.
  apply (X24_accepted_size_is_GetDof Demo.engine Demo.loaded_state Demo.q_goal 3).
  right. left. vm_compute. reflexivity.
Defined.

(** With no planner type in the call and none stored, [create_components]
    makes the default planner. *)
Lemma create_components_default m plannerType delta epsilon timeoutMs st st1 p0 :
  plannerType = None ∨ plannerType = Some EmptyString →
  st_plannerType st = EmptyString →
  create_components m plannerType delta epsilon timeoutMs st = (st1, Returns (inr p0)) →
  planner_params p0
  = RrtConConParams (if (0 <? delta)%float then delta else st_delta st)
      (if (0 <? epsilon)%float then epsilon else st_epsilon st)
  ∧ st_plannerType st1 = "rrtConCon".
Proof.
  intros Hpt Hst. unfold create_components. unfold_M.
  destruct (st_sampler st), (st_verifier st), (st_nearestNeighbors st); simpl.
  all: unfold choose_plannerType; simpl; rewrite Hst.
  all: destruct Hpt as [->| ->]; simpl.
  all: intros [= <- <-]; simpl; split; reflexivity.
Qed.

(** X25: the defaults of a new session reach the first plan.  On a session
    that [CreatePlanner] made and [LoadKinematics] and [LoadScene] loaded, a
    [PlanTrajectory] call that names no planner type and gives no positive
    [delta], [epsilon] or [timeoutMs] runs an [RrtConCon] planner with delta
    0.1, epsilon 0.001 and a duration of 30000 ms, and stores a verifier with
    delta 0.1; the type stored on the session becomes [rrtConCon]. *)
Theorem X25_first_plan_defaults E kinFile sceneFile idx code1 code2 st1 st2
    start startSize goal goalSize useZAxis plannerType delta epsilon timeoutMs
    buf maxWaypoints cnt c :
  LoadKinematics E CreatePlanner (Some kinFile) = (code1, Some st1) →
  LoadScene E (Some st1) (Some sceneFile) idx = (code2, Some st2) →
  plannerType = None ∨ plannerType = Some EmptyString →
  (0 <? delta)%float = false → (0 <? epsilon)%float = false → timeoutMs ≤ 0 →
  let r := PlanTrajectory E (Some st2) start startSize goal goalSize useZAxis
             plannerType delta epsilon timeoutMs (Some buf) maxWaypoints (Some cnt) in
  pr_call r = Some c →
  planner_params (call_planner c) = RrtConConParams 0.1%float 0.001%float
  ∧ planner_duration (call_planner c) = Some 30000
  ∧ ∃ st3, pr_state r = Some st3
      ∧ st_plannerType st3 = "rrtConCon"
      ∧ (verifier_delta <$> st_verifier st3) = Some 0.1%float.
Proof.
  intros Hk Hs Hpt Hdelta Hepsilon Htimeout r Hcall.
  assert (Hpar : same_parameters PlannerState_new st2).
  { revert Hk Hs. unfold LoadKinematics, LoadScene, CreatePlanner, run.
    pose proof (LoadKinematics_body_parameters E kinFile PlannerState_new) as H1.
    destruct (LoadKinematics_body E kinFile PlannerState_new) as [s1 o1].
    intros [= _ <-].
    pose proof (LoadScene_body_parameters E sceneFile idx s1) as H2.
    destruct (LoadScene_body E sceneFile idx s1) as [s2 o2].
    intros [= _ <-]. simpl in *.
    unfold same_parameters in *.
    destruct H1 as (? & ? & ? & ? & ? & ? & ? & ?), H2 as (? & ? & ? & ? & ? & ? & ? & ?).
    repeat split; congruence. }
  destruct Hpar as (Htype & Hd & He & Ht & _ & _ & Hp & Hv). simpl in *.
  destruct (PlanTrajectory_call_state _ _ _ _ _ _ _ _ _ _ _ _ _ _ _ Hcall)
    as (st3 & dof & Hbind & Hstate).
  destruct (bind_planner_call _ _ _ _ _ _ _ _ _ _ _ _ _ _ Hbind)
    as (m & sv & gv & p0 & st' & _ & _ & _ & _ & _ & _ & Hcp & Hst3 & Hmade).
  rewrite <- Hp in Hmade.
  destruct (create_components_default _ _ _ _ _ _ _ _ Hpt (eq_sym Htype) Hmade)
    as [Hparams Hstored].
  destruct (create_components_planner _ _ _ _ _ _ _ _ Hmade)
    as (_ & Hdur & _ & Hver & _).
  rewrite Hdelta, Hepsilon, <- Hd, <- He in *.
  rewrite Hcp, bound_planner_params, bound_planner_duration, Hdur, <- Ht, <- Hv in *.
  destruct (Z.ltb_spec 0 timeoutMs); [lia|].
  repeat split; try assumption.
  exists st3. split; [exact Hstate|]. rewrite Hst3. simpl.
  rewrite Hstored, Hver. repeat split.
Qed.

Lemma X25_witness :
  ∃ c,
    pr_call (PlanTrajectory Demo.engine (Some Demo.loaded_state)
               (Some Demo.q_start) 3 (Some Demo.q_goal) 3 1 None 0%float 0%float 0
               (Some (replicate 6 7%float)) 2 (Some 99)) = Some c
    ∧ planner_params (call_planner c) = RrtConConParams 0.1%float 0.001%float
    ∧ planner_duration (call_planner c) = Some 30000.
Proof.
  eexists. split; [vm_compute; reflexivity|].
  match goal with
  | |- planner_params (call_planner ?c) = _ ∧ _ =>
      destruct (X25_first_plan_defaults Demo.engine "arm.xml" "scene.xml" 0
                  RL_SUCCESS RL_SUCCESS
                  (default PlannerState_new
                     (LoadKinematics Demo.engine CreatePlanner (Some "arm.xml")).2)
                  Demo.loaded_state
                  (Some Demo.q_start) 3 (Some Demo.q_goal) 3 1 None 0%float 0%float 0
                  (replicate 6 7%float) 2 99 c)
        as (Hp & Hd & _)
  end.
  - vm_compute. reflexivity.
  - vm_compute. reflexivity.
  - left. reflexivity.
  - reflexivity.
  - reflexivity.
  - lia.
  - vm_compute. reflexivity.
  - split; assumption.
Defined.

(** [constrainZAxis] assigns one component at most: the vector keeps its
    length, and an index outside the vector leaves it as it is. *)
Lemma length_constrainZAxis goal start zAxisIndex :
  length (constrainZAxis goal start zAxisIndex) = length goal.
Proof.
  unfold constrainZAxis.
  destruct ((0 <=? zAxisIndex) && (zAxisIndex <? Z.of_nat (length goal)));
    [apply length_insert|reflexivity].
Qed.

(** X26: the vectors a [PlanTrajectory] call makes from its arrays have as
    many components as the planning model has joints, the goal also after the
    Z constraint; and [constrainZAxis] with an index outside the goal vector
    returns it unchanged. *)
Theorem X26_array_vectors_have_dof_components E st start startSize goal goalSize
    useZAxis plannerType delta epsilon timeoutMs buf maxWaypoints cnt n c :
  let r := PlanTrajectory E (Some st) start startSize goal goalSize useZAxis
             plannerType delta epsilon timeoutMs (Some buf) maxWaypoints (Some cnt) in
  session_dof E st = Some n →
  Z.of_nat n ≤ INT_MAX →
  pr_call r = Some c →
  (is_Some (provided start startSize) → length (call_start c) = n)
  ∧ (is_Some (provided goal goalSize) → length (call_goal c) = n)
  ∧ (∀ g s i, i < 0 ∨ Z.of_nat (length g) ≤ i → constrainZAxis g s i = g).
Proof.
  intros r Hn Hfit Hcall.
  destruct (PlanTrajectory_called _ _ _ _ _ _ _ _ _ _ _ _ _ _ _ Hcall)
    as (st' & dof & Hbind).
  destruct (bind_planner_dof _ _ _ _ _ _ _ _ _ _ _ _ _ _ Hbind) as (n' & Hn' & ->).
  rewrite Hn in Hn'. injection Hn' as <-.
  destruct (bind_planner_call _ _ _ _ _ _ _ _ _ _ _ _ _ _ Hbind)
    as (m & sv & gv & p0 & st1 & _ & _ & Hrs & Hrg & Hcs & Hcg & _).
  rewrite static_cast_int_fits in Hrs, Hrg by assumption.
  repeat split.
  - intros [a Ha]. unfold resolve_start in Hrs. rewrite Ha in Hrs.
    destruct (negb (startSize =? Z.of_nat n)); [discriminate|].
    injection Hrs as <-. rewrite Hcs. simpl. rewrite length_copy_array. lia.
  - intros [a Ha]. unfold resolve_goal in Hrg. rewrite Ha in Hrg.
    destruct (negb (goalSize =? Z.of_nat n)); [discriminate|].
    injection Hrg as <-. rewrite Hcg. simpl.
    destruct ((useZAxis =? 0) && (3 <=? Z.of_nat n) && negb (is_null sv));
      rewrite ?length_constrainZAxis, length_copy_array; lia.
  - intros g s i Hi. unfold constrainZAxis.
    destruct (Z.leb_spec 0 i), (Z.ltb_spec i (Z.of_nat (length g))); simpl;
      try reflexivity; lia.
Qed.

Lemma X26_witness :
  ∃ c, pr_call Demo.first_plan = Some c
    ∧ length (call_start c) = 3%nat ∧ length (call_goal c) = 3%nat.
Proof.
  eexists. split; [vm_compute; reflexivity|].
  match goal with
  | |- length (call_start ?c) = _ ∧ _ =>
      destruct (X26_array_vectors_have_dof_components Demo.engine Demo.loaded_state
                  (Some Demo.q_start) 3 (Some Demo.q_goal) 3 1 (Some "rrt"%string)
                  0.1%float 0.001%float 5000 (replicate 6 7%float) 2 99 3%nat c)
        as (Hs & Hg & _)
  end.
  - vm_compute. reflexivity.
  - unfold INT_MAX. lia.
  - vm_compute. reflexivity.
  - split; [apply Hs|apply Hg]; eexists; reflexivity.
Defined.
